(** * paper-planes frontend: a shallow embedding of the React client

  The development follows the JavaScript sources of the frontend:

  - [services/api.js]: [handleResponse] and the [api] object;
  - [components/SearchForm.jsx]: the filter state and [handleSubmit];
  - [components/ResultList.jsx], in its two versions (with and without
    paragraph search);
  - [components/PaperList.jsx]: [formatAuthors], the selection and the
    deletion of papers;
  - [components/IndexManagement.jsx]: the index panel;
  - [components/UploadForm.jsx]: the file, the metadata and [handleSubmit];
  - [App.jsx]: [handleSearch], [handleUpload] and the notifications.

  JavaScript strings are modelled by [string]; one character stands for
  one code unit.  Exceptions are explicit: a computation that may throw
  returns an [outcome]. *)

From Stdlib Require Import ZArith Bool Ascii String Lia.
From Stdlib Require Import Floats.SpecFloat.
From stdpp Require Import base option list gmap strings pretty.

#[local] Set Warnings "-register-all".
Local Open Scope string_scope.
Local Open Scope list_scope.
Local Open Scope Z_scope.

(** ** Numbers: IEEE 754 binary64

  JavaScript numbers are binary64 floating-point values.  They are
  modelled by [spec_float], with the arithmetic of [SpecFloat] at
  precision 53 and maximal exponent 1024 (round to nearest, ties to
  even). *)

Module Num64.

Definition prec : Z := 53.
Definition emax : Z := 1024.

Definition valid (x : spec_float) : bool := valid_binary prec emax x.
Definition mul (x y : spec_float) : spec_float := SFmul prec emax x y.
Definition div (x y : spec_float) : spec_float := SFdiv prec emax x y.
Definition leb (x y : spec_float) : bool := SFleb x y.

(** The number denoted by an integer literal: the number nearest to the
    integer, an infinity from [2^1024 - 2^970] on. *)
Definition of_Z (z : Z) : spec_float := binary_normalize prec emax z 0 false.

Definition zero : spec_float := S754_zero false.
Definition one : spec_float := Eval vm_compute in of_Z 1.
Definition hundred : spec_float := Eval vm_compute in of_Z 100.
Definition thousand : spec_float := Eval vm_compute in of_Z 1000.

(** The value of a finite number that is an integer. *)
Definition to_Z (x : spec_float) : Z :=
  match x with
  | S754_finite s m e => Z.shiftl (if s then Z.neg m else Z.pos m) e
  | _ => 0
  end.

(** *** Number::toString, for integers

    An integer up to [2^53] in magnitude prints as its decimal digits.
    Above, the digits printed are those of the shortest decimal that
    denotes the same number, the nearest one if there are several; it
    is followed by zeros below 10^21 and written with an exponent from
    there on. *)

(** Does the decimal [v] denote the number whose value is [x]? *)
Definition denotes (v x : Z) : bool :=
  match of_Z v with
  | S754_finite _ _ _ as y => to_Z y =? x
  | _ => false
  end.

Definition decimal_digits (z : Z) : Z := Z.of_nat (String.length (pretty z)).

(** The decimal of [k] significant digits nearest to [x] among those
    that denote [x], if there is one. *)
Definition decimal_of (x : Z) (k : Z) : option Z :=
  let p := 10 ^ Z.max 0 (decimal_digits x - k) in
  let lo := x / p * p in
  let hi := lo + p in
  match denotes lo x, denotes hi x with
  | true, true =>
      if x - lo <? hi - x then Some lo
      else if hi - x <? x - lo then Some hi
      else if Z.even (x / p) then Some lo else Some hi
  | true, false => Some lo
  | false, true => Some hi
  | false, false => None
  end.

Fixpoint shortest_from (x : Z) (k : Z) (fuel : nat) : Z :=
  match fuel with
  | O => x
  | S fuel' =>
      match decimal_of x k with
      | Some v => v
      | None => shortest_from x (k + 1) fuel'
      end
  end.

(** Seventeen digits always suffice. *)
Definition shortest (x : Z) : Z := shortest_from x 1 17.

Fixpoint strip_zeros (s : string) : string :=
  match s with
  | EmptyString => EmptyString
  | String c s' =>
      match strip_zeros s' with
      | EmptyString => if Ascii.eqb c "0" then EmptyString else String c EmptyString
      | t => String c t
      end
  end.

Definition print_decimal (v : Z) : string :=
  let n := decimal_digits v in
  if n <=? 21 then pretty v
  else
    match strip_zeros (pretty v) with
    | EmptyString => EmptyString
    | String d EmptyString => String d EmptyString +:+ "e+" +:+ pretty (n - 1)
    | String d rest => String d EmptyString +:+ "." +:+ rest +:+ "e+" +:+ pretty (n - 1)
    end.

(** ToString of the number nearest to the integer [z]. *)
Definition integer_to_string (z : Z) : string :=
  if Z.abs z <=? 2 ^ 53 then pretty z
  else
    match of_Z (Z.abs z) with
    | S754_finite _ _ _ as x =>
        (if z <? 0 then "-" else EmptyString) +:+ print_decimal (shortest (to_Z x))
    | _ => if z <? 0 then "-Infinity" else "Infinity"
    end.

(** The result of an operation that yields an integer, an infinity or
    [NaN]; [-0] is [RInt 0], the two print alike. *)
Inductive rounded :=
| RNaN
| RInfinity (negative : bool)
| RInt (z : Z).

(** [floor (scale * m * 2^e + 1/2)], computed exactly. *)
Definition scaled_round (scale : Z) (m : Z) (e : Z) : Z :=
  if 0 <=? e then scale * m * 2 ^ e
  else (2 * scale * m + 2 ^ (- e)) / (2 * 2 ^ (- e)).

(** [Math.round]: the nearest integer, a tie going to the larger one. *)
Definition Math_round (x : spec_float) : rounded :=
  match x with
  | S754_nan => RNaN
  | S754_infinity s => RInfinity s
  | S754_zero _ => RInt 0
  | S754_finite s m e => RInt (scaled_round 1 (if s then Z.neg m else Z.pos m) e)
  end.

(** ToString of such a result. *)
Definition rounded_to_string (r : rounded) : string :=
  match r with
  | RNaN => "NaN"
  | RInfinity false => "Infinity"
  | RInfinity true => "-Infinity"
  | RInt z => integer_to_string z
  end.

(** [x.toFixed(2)]: from 10^21 on in magnitude it is ToString of [x];
    below, the integer [n] nearest to [100 * |x|] (the larger one on a
    tie), printed with a point before its last two digits. *)
Definition toFixed2 (x : spec_float) : string :=
  match x with
  | S754_nan => "NaN"
  | S754_infinity false => "Infinity"
  | S754_infinity true => "-Infinity"
  | S754_zero _ => "0.00"
  | S754_finite s m e =>
      if (0 <=? e) && (10 ^ 21 <=? Z.pos m * 2 ^ e) then integer_to_string (to_Z x)
      else
        let n := scaled_round 100 (Z.pos m) e in
        (if s then "-" else EmptyString)
          +:+ pretty (n / 100) +:+ "." +:+ pretty (n mod 100 / 10) +:+ pretty (n mod 10)
  end.

End Num64.

(** ** JavaScript values *)

Module JS.

(** Numbers of generic values: [NaN], an infinity, or a number whose
    value is an integer; [Num z] is the number nearest to [z], which is
    [z] itself up to [2^53] in magnitude.  Numbers with a fraction are
    [spec_float] values where the client computes with them (similarity
    scores, timings); as generic values they are not modelled. *)
Inductive number :=
| NaN
| Infinity (negative : bool)
| Num (z : Z).

(** The number an integer literal or a digit string denotes. *)
Definition number_of_integer (z : Z) : number :=
  match Num64.of_Z z with
  | S754_infinity s => Infinity s
  | x => Num (Num64.to_Z x)
  end.

Inductive value :=
| VUndefined
| VNull
| VBool (b : bool)
| VNum (n : number)
| VStr (s : string)
| VArr (items : list value)
| VObj (fields : list (string * value)).

(** What a [throw] carries.  [TypeError_read] is the error raised by
    reading property [prop] of [null] or [undefined]; [TypeError_call]
    the one raised by calling a property that is not a function,
    [TypeError_fetch] the one [fetch] rejects with when the network fails.
    Their message text is chosen by the engine and is not modelled. *)
Inductive exn :=
| Error (message : string)
| SyntaxError (message : string)
| TypeError_read (base : value) (prop : string)
| TypeError_call (callee : string)
| TypeError_fetch.

Inductive outcome (A : Type) :=
| Return (a : A)
| Throw (e : exn).
Arguments Return {A} a.
Arguments Throw {A} e.

#[global] Instance outcome_ret : MRet outcome := fun _ a => Return a.
#[global] Instance outcome_bind : MBind outcome := fun _ _ f m =>
  match m with
  | Return a => f a
  | Throw e => Throw e
  end.
#[global] Instance outcome_fmap : FMap outcome := fun _ _ f m =>
  match m with
  | Return a => Return (f a)
  | Throw e => Throw e
  end.

(** [try { body } catch (err) { handler }] *)
Definition try_catch {A} (body : outcome A) (handler : exn -> outcome A) : outcome A :=
  match body with
  | Return a => Return a
  | Throw e => handler e
  end.

(** ToBoolean *)
Definition truthy (v : value) : bool :=
  match v with
  | VUndefined | VNull => false
  | VBool b => b
  | VNum NaN => false
  | VNum (Infinity _) => true
  | VNum (Num z) => negb (z =? 0)
  | VStr s => negb (String.eqb s EmptyString)
  | VArr _ | VObj _ => true
  end.

Definition truthy_str (s : string) : bool := negb (String.eqb s EmptyString).

(** Own-property lookup in an object literal. *)
Fixpoint assoc {A} (k : string) (l : list (string * A)) : option A :=
  match l with
  | [] => None
  | (k', v) :: l' => if String.eqb k k' then Some v else assoc k l'
  end.

(** The names of the members every object inherits from
    [Object.prototype]; each holds a function, [__proto__] the prototype
    itself. *)
Definition Object_prototype : list string :=
  [ "constructor"; "__defineGetter__"; "__defineSetter__"; "hasOwnProperty";
    "__lookupGetter__"; "__lookupSetter__"; "isPrototypeOf";
    "propertyIsEnumerable"; "toString"; "valueOf"; "__proto__"; "toLocaleString" ].

(** [base.prop] for the property names used by the client ([detail],
    [message], [useParagraphs], ...): none of them is an own or
    inherited property of a string, number, boolean or array. *)
Definition get (base : value) (prop : string) : outcome value :=
  match base with
  | VUndefined | VNull => Throw (TypeError_read base prop)
  | VObj fields => Return (default VUndefined (assoc prop fields))
  | _ => Return VUndefined
  end.

(** [a || b] on values, [b] being evaluated only when needed. *)
Definition or_else (a : value) (b : outcome value) : outcome value :=
  if truthy a then Return a else b.

Definition number_to_string (n : number) : string :=
  match n with
  | NaN => "NaN"
  | Infinity false => "Infinity"
  | Infinity true => "-Infinity"
  | Num z => Num64.integer_to_string z
  end.

Fixpoint join (sep : string) (l : list string) : string :=
  match l with
  | [] => EmptyString
  | [s] => s
  | s :: l' => s +:+ sep +:+ join sep l'
  end.

(** ToString *)
Fixpoint to_string (v : value) : string :=
  match v with
  | VUndefined => "undefined"
  | VNull => "null"
  | VBool true => "true"
  | VBool false => "false"
  | VNum n => number_to_string n
  | VStr s => s
  | VArr items =>
      join "," (map (fun x => match x with
                              | VUndefined | VNull => EmptyString
                              | _ => to_string x
                              end) items)
  | VObj _ => "[object Object]"
  end.

(** [new Error(v)]: the message is [ToString v] unless [v] is
    [undefined]. *)
Definition new_Error (v : value) : exn :=
  match v with
  | VUndefined => Error EmptyString
  | _ => Error (to_string v)
  end.

(** [hay.includes(needle)] *)
Fixpoint includes (needle hay : string) : bool :=
  String.prefix needle hay ||
  match hay with
  | EmptyString => false
  | String _ hay' => includes needle hay'
  end.

(** *** JSON.stringify

    The serialised text is kept as the tree it denotes.  Properties
    whose value is [undefined] are dropped, [undefined] inside an array,
    [NaN] and the infinities become [null]; a top-level [undefined] has
    no JSON text. *)
Inductive json_value :=
| JNull
| JBool (b : bool)
| JNum (z : Z)
| JStr (s : string)
| JArr (items : list json_value)
| JObj (fields : list (string * json_value)).

Fixpoint stringify (v : value) : option json_value :=
  match v with
  | VUndefined => None
  | VNull => Some JNull
  | VBool b => Some (JBool b)
  | VNum NaN | VNum (Infinity _) => Some JNull
  | VNum (Num z) => Some (JNum z)
  | VStr s => Some (JStr s)
  | VArr items => Some (JArr (map (fun x => default JNull (stringify x)) items))
  | VObj fields =>
      Some (JObj ((fix props (l : list (string * value)) : list (string * json_value) :=
                     match l with
                     | [] => []
                     | (k, x) :: l' =>
                         match stringify x with
                         | Some j => (k, j) :: props l'
                         | None => props l'
                         end
                     end) fields))
  end.

Definition json_member (k : string) (j : json_value) : option json_value :=
  match j with
  | JObj fields => assoc k fields
  | _ => None
  end.

(** White space, for [trim], [parseInt] and the class [\s]: the code
    units of WhiteSpace and LineTerminator that fit in one character. *)
Definition is_white_space (c : ascii) : bool :=
  let n := nat_of_ascii c in
  ((9 <=? n) && (n <=? 13))%nat || (n =? 32)%nat || (n =? 160)%nat.

(** [s.split(/\s+/)]: the pieces between the runs of white space, an
    empty piece standing before a leading run and after a trailing one. *)
Fixpoint split_ws_from (in_run : bool) (piece : string) (s : string) : list string :=
  match s with
  | EmptyString => [String.rev piece]
  | String c s' =>
      if is_white_space c
      then (if in_run then split_ws_from true piece s'
            else String.rev piece :: split_ws_from true EmptyString s')
      else split_ws_from false (String c piece) s'
  end.

Definition split_ws (s : string) : list string := split_ws_from false EmptyString s.

(** [toLowerCase] on the code units below 256. *)
Definition lower_char (c : ascii) : ascii :=
  let n := nat_of_ascii c in
  if ((65 <=? n) && (n <=? 90))%nat || ((192 <=? n) && (n <=? 222) && negb (n =? 215))%nat
  then ascii_of_nat (n + 32)
  else c.

Fixpoint toLowerCase (s : string) : string :=
  match s with
  | EmptyString => EmptyString
  | String c s' => String (lower_char c) (toLowerCase s')
  end.

(** [for (x of l) ys.push(f x)], stopping at the first throw. *)
Fixpoint traverse {A B} (f : A -> outcome B) (l : list A) : outcome (list B) :=
  match l with
  | [] => Return []
  | x :: l' => y ← f x; ys ← traverse f l'; Return (y :: ys)
  end.

End JS.

(** ** services/api.js *)

Module Api.
Import JS.

(** The part of a fetch [Response] the client reads.  [json] and [text]
    hold what [response.json()] and [response.text()] settle to: the
    parsed body, or the rejection (a body that is not JSON text makes
    [json()] reject with a [SyntaxError]). *)
Record Response := {
  ok : bool;
  status : Z;
  statusText : string;
  content_type : option string;   (* headers.get('content-type') *)
  json : outcome value;
  text : outcome string;
}.

(** Parse response body *)
Definition read_body (response : Response) : outcome value :=
  match content_type response with
  | Some contentType =>
      if truthy_str contentType && includes "application/json" contentType
      then json response
      else VStr <$> text response
  | None => VStr <$> text response
  end.

(** [`Error: ${response.status} ${response.statusText}`] *)
Definition status_line (response : Response) : string :=
  "Error: " +:+ pretty (status response) +:+ " " +:+ statusText response.

Definition handleResponse (response : Response) : outcome value :=
  data ← read_body response;
  (* Check if response is successful *)
  if negb (ok response) then
    errorMessage ←
      (detail ← get data "detail";
       or_else detail
         (message ← get data "message";
          or_else message (Return (VStr (status_line response)))));
    Throw (new_Error errorMessage)
  else Return data.

(** What [fetch] is called with. *)
Inductive body_init :=
| BodyJSON (text : option json_value)   (* the result of JSON.stringify *)
| BodyForm (formData : value).

Record Request := {
  url : string;
  method : string;
  headers : list (string * string);
  body : option body_init;
}.

Section Client.
(** [import.meta.env.VITE_API_BASE_URL], absent when not configured. *)
Variable VITE_API_BASE_URL : option string.
(** The network: the response (or rejection) [fetch] settles to. *)
Variable fetch : Request -> outcome Response.

Definition API_BASE_URL : string :=
  match VITE_API_BASE_URL with
  | Some u => if truthy_str u then u else "/api"
  | None => "/api"
  end.

(** The request built by [api.search]. *)
Definition search_request (searchRequest : value) : outcome Request :=
  (* const { useParagraphs, ...requestParams } = searchRequest; *)
  useParagraphs ← get searchRequest "useParagraphs";
  let queryParam :=
    if truthy useParagraphs then "?use_paragraphs=true" else EmptyString in
  Return {| url := API_BASE_URL +:+ "/search" +:+ queryParam;
            method := "POST";
            headers := [("Content-Type", "application/json")];
            body := Some (BodyJSON (stringify searchRequest)) |}.

Definition get_request (u : string) : Request :=
  {| url := u; method := "GET"; headers := []; body := None |}.

Definition send (r : outcome Request) : outcome value :=
  request ← r; response ← fetch request; handleResponse response.

Definition search (searchRequest : value) : outcome value :=
  send (search_request searchRequest).

Definition getFilterOptions : outcome value :=
  send (Return (get_request (API_BASE_URL +:+ "/search/filter-options"))).

Definition uploadPaper (formData : value) : outcome value :=
  send (Return {| url := API_BASE_URL +:+ "/papers/upload";
                  method := "POST";
                  headers := [];
                  body := Some (BodyForm formData) |}).

(** [options.limit || 100] and [options.offset || 0] *)
Definition listAllPapers (options : value) : outcome value :=
  send (options ← Return (match options with
                          | VUndefined => VObj []
                          | _ => options
                          end);
        limit ← (l ← get options "limit"; or_else l (Return (VNum (Num 100))));
        offset ← (o ← get options "offset"; or_else o (Return (VNum (Num 0))));
        Return (get_request (API_BASE_URL +:+ "/papers?limit=" +:+ to_string limit
                               +:+ "&offset=" +:+ to_string offset))).

Definition deletePaper (paperId : value) : outcome value :=
  send (Return {| url := API_BASE_URL +:+ "/papers/" +:+ to_string paperId;
                  method := "DELETE";
                  headers := [];
                  body := None |}).

Definition getPaperDownloadUrl (paperId : value) : outcome value :=
  Return (VStr (API_BASE_URL +:+ "/papers/download/" +:+ to_string paperId)).

(** The [api] object: its property names, in source order, each with
    the function it holds (applied to the argument list of a call). *)
Definition arg (n : nat) (args : list value) : value :=
  default VUndefined (args !! n).

Definition api : list (string * (list value -> outcome value)) :=
  [ ("search", fun args => search (arg 0 args));
    ("getFilterOptions", fun _ => getFilterOptions);
    ("uploadPaper", fun args => uploadPaper (arg 0 args));
    ("listAllPapers", fun args => listAllPapers (arg 0 args));
    ("deletePaper", fun args => deletePaper (arg 0 args));
    ("getPaperDownloadUrl", fun args => getPaperDownloadUrl (arg 0 args)) ].

(** [api.name(args)]: calling a property the object does not have is
    calling [undefined], a [TypeError]. *)
Definition call (name : string) (args : list value) : outcome value :=
  match assoc name api with
  | Some f => f args
  | None => Throw (TypeError_call ("api." +:+ name))
  end.

End Client.

End Api.

(** ** components/SearchForm.jsx *)

Module SearchForm.
Import JS.

Fixpoint trim_start (s : string) : string :=
  match s with
  | EmptyString => EmptyString
  | String c s' => if is_white_space c then trim_start s' else s
  end.

Fixpoint trim_end (s : string) : string :=
  match s with
  | EmptyString => EmptyString
  | String c s' =>
      match trim_end s' with
      | EmptyString => if is_white_space c then EmptyString else String c EmptyString
      | t => String c t
      end
  end.

Definition trim (s : string) : string := trim_end (trim_start s).

(** *** parseInt, called with one argument *)

Definition digit_value (c : ascii) : option Z :=
  let n := Z.of_nat (nat_of_ascii c) in
  if (48 <=? n) && (n <=? 57) then Some (n - 48)
  else if (97 <=? n) && (n <=? 102) then Some (n - 87)
  else if (65 <=? n) && (n <=? 70) then Some (n - 55)
  else None.

(** The value of the longest prefix of digits in [radix], [acc] being
    the value read so far ([None]: no digit yet). *)
Fixpoint digits_prefix (radix : Z) (s : string) (acc : option Z) : option Z :=
  match s with
  | EmptyString => acc
  | String c s' =>
      match digit_value c with
      | Some d =>
          if d <? radix
          then digits_prefix radix s' (Some (radix * default 0 acc + d))
          else acc
      | None => acc
      end
  end.

(** The integer is the mathematical value of the digits, the result the
    number nearest to it.  (Past the twentieth significant decimal digit
    the language lets an engine read the digits as zeros; the exact
    value is taken here.) *)
Definition parseInt (input : string) : number :=
  let s := trim_start input in
  let '(negative, s) :=
    match s with
    | String "-" r => (true, r)
    | String "+" r => (false, r)
    | _ => (false, s)
    end in
  let '(radix, s) :=
    match s with
    | String "0" (String "x" r) => (16, r)
    | String "0" (String "X" r) => (16, r)
    | _ => (10, s)
    end in
  match digits_prefix radix s None with
  | None => NaN
  | Some n => number_of_integer (if negative then - n else n)
  end.

(** *** Component state *)

Record Filters := {
  year_min : string;
  year_max : string;
  authors : list string;
  keywords : list string;
  conference : string;
  journal : string;
}.

Definition noFilters : Filters :=
  {| year_min := EmptyString; year_max := EmptyString;
     authors := []; keywords := [];
     conference := EmptyString; journal := EmptyString |}.

Record State := {
  query : string;
  showFilters : bool;
  filters : Filters;
}.

Definition initial : State :=
  {| query := EmptyString; showFilters := false; filters := noFilters |}.

Definition setFilters (update : Filters -> Filters) (st : State) : State :=
  {| query := query st; showFilters := showFilters st;
     filters := update (filters st) |}.

Definition strings (l : list string) : value := VArr (map VStr l).

(** The object [handleSubmit] passes to [onSearch]. *)
Definition searchRequest_of (st : State) : value :=
  let filters := filters st in
  VObj [ ("query", VStr (query st));
         ("filters", VObj [
            ("year_min", if truthy_str (year_min filters)
                         then VNum (parseInt (year_min filters)) else VNull);
            ("year_max", if truthy_str (year_max filters)
                         then VNum (parseInt (year_max filters)) else VNull);
            ("authors", if (0 <? Z.of_nat (length (authors filters)))
                        then strings (authors filters) else VNull);
            ("keywords", if (0 <? Z.of_nat (length (keywords filters)))
                         then strings (keywords filters) else VNull);
            ("conference", if truthy_str (conference filters)
                           then VStr (conference filters) else VNull);
            ("journal", if truthy_str (journal filters)
                        then VStr (journal filters) else VNull) ]) ].

(** [handleSubmit]: the argument of the [onSearch] call, if it is made. *)
Definition handleSubmit (st : State) : option value :=
  if truthy_str (trim (query st)) then Some (searchRequest_of st) else None.

(** The names [handleFilterChange] is called with. *)
Inductive field := F_year_min | F_year_max | F_conference | F_journal.

Definition handleFilterChange (name : field) (v : string) (prev : Filters) : Filters :=
  match name with
  | F_year_min =>
      {| year_min := v; year_max := year_max prev; authors := authors prev;
         keywords := keywords prev; conference := conference prev;
         journal := journal prev |}
  | F_year_max =>
      {| year_min := year_min prev; year_max := v; authors := authors prev;
         keywords := keywords prev; conference := conference prev;
         journal := journal prev |}
  | F_conference =>
      {| year_min := year_min prev; year_max := year_max prev; authors := authors prev;
         keywords := keywords prev; conference := v; journal := journal prev |}
  | F_journal =>
      {| year_min := year_min prev; year_max := year_max prev; authors := authors prev;
         keywords := keywords prev; conference := conference prev; journal := v |}
  end.

Definition with_authors (l : list string) (prev : Filters) : Filters :=
  {| year_min := year_min prev; year_max := year_max prev; authors := l;
     keywords := keywords prev; conference := conference prev;
     journal := journal prev |}.

Definition with_keywords (l : list string) (prev : Filters) : Filters :=
  {| year_min := year_min prev; year_max := year_max prev; authors := authors prev;
     keywords := l; conference := conference prev; journal := journal prev |}.

(** The handlers test [filters], the state of the render they were
    created in, and update [prev], the state at the time of the update.
    Each returns the updater it passes to [setFilters], if any. *)
Definition addAuthorFilter (filters : Filters) (author : string)
  : option (Filters -> Filters) :=
  if truthy_str author && negb (bool_decide (author ∈ authors filters))
  then Some (fun prev => with_authors (authors prev ++ [author]) prev)
  else None.

Definition removeAuthorFilter (author : string) : Filters -> Filters :=
  fun prev => with_authors (filter (fun a => a ≠ author) (authors prev)) prev.

Definition addKeywordFilter (filters : Filters) (keyword : string)
  : option (Filters -> Filters) :=
  if truthy_str keyword && negb (bool_decide (keyword ∈ keywords filters))
  then Some (fun prev => with_keywords (keywords prev ++ [keyword]) prev)
  else None.

Definition removeKeywordFilter (keyword : string) : Filters -> Filters :=
  fun prev => with_keywords (filter (fun k => k ≠ keyword) (keywords prev)) prev.

Definition resetFilters : Filters -> Filters := fun _ => noFilters.

(** The user's actions on the form.  React renders again after each of
    them, so a handler runs in the render of the current state. *)
Inductive event :=
| SetQuery (v : string)
| ToggleFilters
| ResetFilters
| FilterChange (name : field) (v : string)
| AddAuthor (input : string)
| RemoveAuthor (author : string)
| AddKeyword (input : string)
| RemoveKeyword (keyword : string).

Definition handle (ev : event) (st : State) : State :=
  match ev with
  | SetQuery v => {| query := v; showFilters := showFilters st; filters := filters st |}
  | ToggleFilters =>
      {| query := query st; showFilters := negb (showFilters st); filters := filters st |}
  | ResetFilters => setFilters resetFilters st
  | FilterChange name v => setFilters (handleFilterChange name v) st
  | AddAuthor a =>
      match addAuthorFilter (filters st) a with
      | Some update => setFilters update st
      | None => st
      end
  | RemoveAuthor a => setFilters (removeAuthorFilter a) st
  | AddKeyword k =>
      match addKeywordFilter (filters st) k with
      | Some update => setFilters update st
      | None => st
      end
  | RemoveKeyword k => setFilters (removeKeywordFilter k) st
  end.

Definition run (evs : list event) (st : State) : State :=
  foldl (fun s ev => handle ev s) st evs.

End SearchForm.

(** ** What a component renders *)

Module Dom.

(** The state updates the click handlers stand for. *)
Inductive action :=
| ToggleExpanded (id : string)
| ToggleParagraphs (id : string).

(** A rendered tree.  A JSX child that is [false], [null] or [undefined]
    renders nothing; a string or a number renders as text. *)
Inductive node :=
| Text (s : string)
| Element (tag : string) (className : string) (attrs : list (string * string))
    (onClick : option action) (children : list node).

Definition dquote : string := String (ascii_of_nat 34) EmptyString.

(** [{cond && children}] for a boolean [cond] *)
Definition when (cond : bool) (children : list node) : list node :=
  if cond then children else [].

(** [{s && f s}] for a string or absent [s]: an empty string is falsy
    and is itself the child. *)
Definition when_str (s : option string) (f : string -> list node) : list node :=
  match s with
  | None => []
  | Some v => if String.eqb v EmptyString then [Text v] else f v
  end.

(** [{n && f n}] for a number or absent [n]: zero is falsy and is
    itself the child. *)
Definition when_num (n : option Z) (f : Z -> list node) : list node :=
  match n with
  | None => []
  | Some v => if v =? 0 then [Text (pretty v)] else f v
  end.

(** All the nodes of a tree that satisfy [p], in document order. *)
Fixpoint select (p : node -> bool) (n : node) : list node :=
  (if p n then [n] else []) ++
  match n with
  | Text _ => []
  | Element _ _ _ _ children => concat (map (select p) children)
  end.

Definition select_all (p : node -> bool) (l : list node) : list node :=
  concat (map (select p) l).

Fixpoint textContent (n : node) : string :=
  match n with
  | Text s => s
  | Element _ _ _ _ children => foldr (fun c acc => textContent c +:+ acc) EmptyString children
  end.

Definition has_class (tag className : string) (n : node) : bool :=
  match n with
  | Element t c _ _ _ => String.eqb t tag && String.eqb c className
  | Text _ => false
  end.

Definition has_tag (tag : string) (n : node) : bool :=
  match n with
  | Element t _ _ _ _ => String.eqb t tag
  | Text _ => false
  end.

End Dom.

(** ** The search response, as the result list reads it *)

Module SearchResult.

Record Paragraph := {
  section : option string;
  paragraph_index : Z;
  text : string;
  score : spec_float;
  context : option string;
}.

Record Result := {
  paper_id : string;
  title : string;
  authors : option (list string);
  publication_year : option Z;
  conference : option string;
  journal : option string;
  abstract : option string;
  keywords : option (list string);
  similarity_score : spec_float;
  matching_paragraphs : option (list Paragraph);
}.

(** The props [App] passes.  [useParagraphs] is [None] when the prop is
    not passed; the component without paragraph search does not read it. *)
Record Props := {
  results : list Result;
  totalCount : Z;
  query : string;
  executionTime : spec_float;
  useParagraphs : option bool;
}.

End SearchResult.

(** ** components/ResultList.jsx, without paragraph search *)

Module ResultListPlain.
Import JS Dom SearchResult.

(** [authors[i]]; reading past the end gives [undefined]. *)
Definition item (l : list string) (i : nat) : string := default "undefined" (l !! i).

Definition formatAuthors (authors : option (list string)) : string :=
  match authors with
  | None => "Unknown Authors"
  | Some authors =>
      if (length authors =? 0)%nat then "Unknown Authors"
      else if (length authors =? 1)%nat then item authors 0
      else if (length authors =? 2)%nat then item authors 0 +:+ " and " +:+ item authors 1
      else item authors 0 +:+ " et al."
  end.

Definition toggleExpanded (id : string) (expandedId : option string) : option string :=
  if bool_decide (expandedId = Some id) then None else Some id.

Definition formatScore (score : spec_float) : string :=
  Num64.rounded_to_string (Num64.Math_round (Num64.mul score Num64.hundred)) +:+ "%".

Definition card (expandedId : option string) (result : Result) : node :=
  Element "div" "border rounded-lg overflow-hidden hover:shadow-md transition-shadow" [] None
    ([ Element "div" "flex items-center justify-between p-4 cursor-pointer" []
         (Some (ToggleExpanded (paper_id result)))
         [ Element "div" "flex-1" [] None
             [ Element "h3" "text-lg font-medium text-gray-900" [] None
                 [Text (title result)];
               Element "p" "text-sm text-gray-600 mt-1" [] None
                 ([Text (formatAuthors (authors result))]
                  ++ when_num (publication_year result) (fun y => [Text (" • " +:+ pretty y)])
                  ++ when_str (conference result) (fun c => [Text (" • " +:+ c)])
                  ++ when_str (journal result) (fun j => [Text (" • " +:+ j)])) ];
           Element "div" "ml-4 flex flex-col items-end" [] None
             [ Element "span" "text-blue-600 font-semibold" [] None
                 [Text (formatScore (similarity_score result))];
               Element "span" "text-sm text-gray-500" [] None [Text "match"] ] ] ]
     ++ when (bool_decide (expandedId = Some (paper_id result)))
          [ Element "div" "p-4 border-t bg-gray-50" [] None
              (when_str (abstract result) (fun a =>
                 [ Element "div" "mb-3" [] None
                     [ Element "h4" "text-sm font-semibold text-gray-700 mb-1" [] None
                         [Text "Abstract"];
                       Element "p" "text-sm text-gray-600" [] None [Text a] ] ])
               ++ match keywords result with
                  | None => []
                  | Some ks =>
                      when (0 <? length ks)%nat
                        [ Element "div" "mb-3" [] None
                            [ Element "h4" "text-sm font-semibold text-gray-700 mb-1" [] None
                                [Text "Keywords"];
                              Element "div" "flex flex-wrap gap-1" [] None
                                (map (fun keyword =>
                                        Element "span"
                                          "bg-green-100 text-green-800 text-xs px-2 py-1 rounded-full"
                                          [] None [Text keyword]) ks) ] ]
                  end
               ++ [ Element "div" "flex justify-end mt-3" [] None
                      [ Element "a"
                          "px-3 py-1 bg-blue-600 text-white text-sm rounded hover:bg-blue-700 transition-colors"
                          [ ("href", "/api/papers/download/" +:+ paper_id result);
                            ("target", "_blank"); ("rel", "noopener noreferrer") ]
                          None [Text "Download PDF"] ] ]) ]).

Definition ResultList (props : Props) (expandedId : option string) : node :=
  if (length (results props) =? 0)%nat then
    Element "div" "bg-white shadow-md rounded-lg p-6 text-center" [] None
      [ Element "p" "text-gray-600" [] None
          [Text ("No results found for " +:+ dquote); Text (query props); Text dquote];
        Element "p" "text-sm text-gray-500 mt-2" [] None
          [Text "Try adjusting your search terms or filters"] ]
  else
    Element "div" "bg-white shadow-md rounded-lg p-6" [] None
      [ Element "div" "mb-4 text-sm text-gray-600" [] None
          [ Text "Found "; Text (pretty (totalCount props)); Text " ";
            Text (if totalCount props =? 1 then "result" else "results");
            Text (" for " +:+ dquote); Text (query props); Text (dquote +:+ " (");
            Text (Num64.toFixed2 (Num64.div (executionTime props) Num64.thousand));
            Text " seconds)" ];
        Element "div" "space-y-4" [] None (map (card expandedId) (results props)) ].

End ResultListPlain.

(** ** components/PaperList.jsx *)

Module PaperList.

Definition item (l : list string) (i : nat) : string := default "undefined" (l !! i).

Definition formatAuthors (authors : option (list string)) : string :=
  match authors with
  | None => "Unknown Authors"
  | Some authors =>
      if (length authors =? 0)%nat then "Unknown Authors"
      else if (length authors =? 1)%nat then item authors 0
      else if (length authors =? 2)%nat then item authors 0 +:+ " and " +:+ item authors 1
      else item authors 0 +:+ " et al."
  end.

End PaperList.

(** ** components/ResultList.jsx, with paragraph search *)

Module ResultList.
Import JS Dom SearchResult.

Record State := {
  expandedId : option string;
  expandedParagraphs : gmap string bool;
}.

Definition initial : State := {| expandedId := None; expandedParagraphs := ∅ |}.

Definition item (l : list string) (i : nat) : string := default "undefined" (l !! i).

Definition formatAuthors (authors : option (list string)) : string :=
  match authors with
  | None => "Unknown Authors"
  | Some authors =>
      if (length authors =? 0)%nat then "Unknown Authors"
      else if (length authors =? 1)%nat then item authors 0
      else if (length authors =? 2)%nat then item authors 0 +:+ " and " +:+ item authors 1
      else item authors 0 +:+ " et al."
  end.

(** [expandedParagraphs[paperId]], as a condition.  The state holds the
    own properties of the object, which starts as [{}]; where it has none
    for [paperId] the member inherited from [Object.prototype] is read,
    which is truthy, and [undefined] if there is none either. *)
Definition paragraphs_expanded (st : State) (paperId : string) : bool :=
  match expandedParagraphs st !! paperId with
  | Some shown => shown
  | None => bool_decide (paperId ∈ Object_prototype)
  end.

Definition toggleExpanded (id : string) (st : State) : State :=
  {| expandedId := if bool_decide (expandedId st = Some id) then None else Some id;
     expandedParagraphs := expandedParagraphs st |}.

Definition toggleParagraphs (paperId : string) (st : State) : State :=
  {| expandedId := expandedId st;
     expandedParagraphs :=
       <[paperId := negb (paragraphs_expanded st paperId)]> (expandedParagraphs st) |}.

Definition perform (a : action) (st : State) : State :=
  match a with
  | ToggleExpanded id => toggleExpanded id st
  | ToggleParagraphs id => toggleParagraphs id st
  end.

Definition formatScore (score : spec_float) : string :=
  Num64.rounded_to_string (Num64.Math_round (Num64.mul score Num64.hundred)) +:+ "%".

Section Render.
(** The regular-expression engine: [regexp_split pattern text] is what
    [text.split(new RegExp(pattern, 'gi'))] evaluates to, a [SyntaxError]
    being thrown when [pattern] is not a regular expression.  The pieces
    are the texts between the matches and, after each, what each group
    of the pattern captured: [None] is the [undefined] that stands for a
    group that took no part in the match. *)
Variable regexp_split : string -> string -> outcome (list (option string)).

Definition queryTerms_of (query : string) : list string :=
  filter (fun term => (2 < String.length term)%nat) (split_ws query).

Definition pattern_of (queryTerms : list string) : string :=
  "(" +:+ join "|" queryTerms +:+ ")".

Definition highlightText (text : string) (query : string) : outcome (list node) :=
  if negb (truthy_str query) || negb (truthy_str text) then Return [Text text]
  else
    let queryTerms := queryTerms_of query in
    if (length queryTerms =? 0)%nat then Return [Text text]
    else
      parts ← regexp_split (pattern_of queryTerms) text;
      (* [queryTerms] is not empty: [some] calls [part.toLowerCase()] *)
      traverse (fun part =>
                  match part with
                  | None => Throw (TypeError_read VUndefined "toLowerCase")
                  | Some part =>
                      let isMatch :=
                        existsb (fun term => String.eqb (toLowerCase part) (toLowerCase term))
                          queryTerms in
                      Return (if isMatch
                              then Element "span" "bg-yellow-200" [] None [Text part]
                              else Element "span" EmptyString [] None [Text part])
                  end) parts.

Definition icon (d : string) : node :=
  Element "svg" "h-4 w-4 mr-1"
    [ ("xmlns", "http://www.w3.org/2000/svg"); ("fill", "none");
      ("viewBox", "0 0 24 24"); ("stroke", "currentColor") ] None
    [ Element "path" EmptyString
        [ ("strokeLinecap", "round"); ("strokeLinejoin", "round");
          ("strokeWidth", "2"); ("d", d) ] None [] ].

(** One entry of the matching-paragraphs list. *)
Definition paragraph_hit (query : string) (paragraph : Paragraph) : outcome node :=
  highlighted ← highlightText (text paragraph) query;
  Return
    (Element "div" "bg-white p-3 border border-blue-100 rounded-md" [] None
       [ Element "div" "flex justify-between items-start mb-1" [] None
           [ Element "span" "text-xs text-blue-600 font-medium" [] None
               [ Text (match section paragraph with
                       | Some s => if truthy_str s then s else "Section"
                       | None => "Section"
                       end);
                 Text " - Paragraph ";
                 Text (pretty (paragraph_index paragraph + 1)) ];
             Element "span" "text-xs bg-blue-100 text-blue-800 px-2 py-0.5 rounded-full" [] None
               [Text (formatScore (score paragraph))] ];
         Element "p" "text-sm text-gray-700" [] None highlighted ]).

(** The show-more / show-fewer button. *)
Definition more_button (st : State) (result : Result) (paragraphs : list Paragraph) : node :=
  Element "button" "text-sm text-blue-600 mt-1 hover:underline flex items-center" []
    (Some (ToggleParagraphs (paper_id result)))
    (if paragraphs_expanded st (paper_id result)
     then [ icon "M5 15l7-7 7 7"; Text "Show fewer paragraphs" ]
     else [ icon "M19 9l-7 7-7-7"; Text "Show ";
            Text (pretty (Z.of_nat (length paragraphs) - 2));
            Text " more matching paragraphs" ]).

Definition matching_block (useParagraphs : bool) (query : string) (st : State)
    (result : Result) : outcome (list node) :=
  match matching_paragraphs result with
  | Some paragraphs =>
      if useParagraphs && (0 <? length paragraphs)%nat then
        hits ← traverse (paragraph_hit query)
                 (if paragraphs_expanded st (paper_id result)
                  then paragraphs
                  else take 2 paragraphs);
        Return
          [ Element "div" "mb-3" [] None
              [ Element "h4" "text-sm font-semibold text-gray-700 mb-1" [] None
                  [Text "Matching Paragraphs"];
                Element "div" "space-y-3 mt-2" [] None
                  (hits ++ when (2 <? length paragraphs)%nat
                             [more_button st result paragraphs]) ] ]
      else Return []
  | None => Return []
  end.

Definition context_block (useParagraphs : bool) (st : State) (result : Result) : list node :=
  match matching_paragraphs result with
  | Some paragraphs =>
      when (useParagraphs && paragraphs_expanded st (paper_id result)
            && existsb (fun p => match context p with
                                 | Some c => truthy_str c && negb (String.eqb c (text p))
                                 | None => false
                                 end) paragraphs)
        [ Element "div" "mb-3" [] None
            [ Element "div" "flex items-center mb-1" [] None
                [ Element "h4" "text-sm font-semibold text-gray-700" [] None
                    [Text "Paragraph Context"];
                  Element "span" "ml-2 text-xs text-gray-500" [] None
                    [Text "(Surrounding paragraphs for better understanding)"] ];
              Element "div" "bg-gray-100 p-3 rounded-md text-sm text-gray-700 whitespace-pre-wrap"
                [] None
                (match paragraphs with
                 | first :: _ => match context first with
                                 | Some c => [Text c]
                                 | None => []
                                 end
                 | [] => []
                 end) ] ]
  | None => []
  end.

Definition card (useParagraphs : bool) (query : string) (st : State) (result : Result)
  : outcome node :=
  details ←
    (if bool_decide (expandedId st = Some (paper_id result)) then
       abstract_block ←
         (match abstract result with
          | None => Return []
          | Some a =>
              if String.eqb a EmptyString then Return [Text a]
              else
                shown ← (if useParagraphs then highlightText a query else Return [Text a]);
                Return
                  [ Element "div" "mb-3" [] None
                      [ Element "h4" "text-sm font-semibold text-gray-700 mb-1" [] None
                          [Text "Abstract"];
                        Element "p" "text-sm text-gray-600" [] None shown ] ]
          end);
       matching ← matching_block useParagraphs query st result;
       Return
         [ Element "div" "p-4 border-t bg-gray-50" [] None
             (abstract_block
              ++ match keywords result with
                 | None => []
                 | Some ks =>
                     when (0 <? length ks)%nat
                       [ Element "div" "mb-3" [] None
                           [ Element "h4" "text-sm font-semibold text-gray-700 mb-1" [] None
                               [Text "Keywords"];
                             Element "div" "flex flex-wrap gap-1" [] None
                               (map (fun keyword =>
                                       Element "span"
                                         "bg-green-100 text-green-800 text-xs px-2 py-1 rounded-full"
                                         [] None [Text keyword]) ks) ] ]
                 end
              ++ matching
              ++ context_block useParagraphs st result
              ++ [ Element "div" "flex justify-end mt-3" [] None
                     [ Element "a"
                         "px-3 py-1 bg-blue-600 text-white text-sm rounded hover:bg-blue-700 transition-colors"
                         [ ("href", "/api/papers/download/" +:+ paper_id result);
                           ("target", "_blank"); ("rel", "noopener noreferrer") ]
                         None [Text "Download PDF"] ] ]) ]
     else Return []);
  Return
    (Element "div" "border rounded-lg overflow-hidden hover:shadow-md transition-shadow" [] None
       ([ Element "div" "flex items-center justify-between p-4 cursor-pointer" []
            (Some (ToggleExpanded (paper_id result)))
            [ Element "div" "flex-1" [] None
                [ Element "h3" "text-lg font-medium text-gray-900" [] None
                    [Text (title result)];
                  Element "p" "text-sm text-gray-600 mt-1" [] None
                    ([Text (formatAuthors (authors result))]
                     ++ when_num (publication_year result) (fun y => [Text (" • " +:+ pretty y)])
                     ++ when_str (conference result) (fun c => [Text (" • " +:+ c)])
                     ++ when_str (journal result) (fun j => [Text (" • " +:+ j)])) ];
              Element "div" "ml-4 flex flex-col items-end" [] None
                [ Element "span" "text-blue-600 font-semibold" [] None
                    [Text (formatScore (similarity_score result))];
                  Element "span" "text-sm text-gray-500" [] None [Text "match"] ] ] ]
        ++ details)).

Definition ResultList (props : Props) (st : State) : outcome node :=
  (* useParagraphs = false when the prop is not passed *)
  let useParagraphs := default false (useParagraphs props) in
  if (length (results props) =? 0)%nat then
    Return
      (Element "div" "bg-white shadow-md rounded-lg p-6 text-center" [] None
         [ Element "p" "text-gray-600" [] None
             [Text ("No results found for " +:+ dquote); Text (query props); Text dquote];
           Element "p" "text-sm text-gray-500 mt-2" [] None
             [Text "Try adjusting your search terms or filters"] ])
  else
    cards ← traverse (card useParagraphs (query props) st) (results props);
    Return
      (Element "div" "bg-white shadow-md rounded-lg p-6" [] None
         [ Element "div" "mb-4 text-sm text-gray-600" [] None
             [ Text "Found "; Text (pretty (totalCount props)); Text " ";
               Text (if totalCount props =? 1 then "result" else "results");
               Text (" for " +:+ dquote); Text (query props); Text (dquote +:+ " (");
               Text (Num64.toFixed2 (Num64.div (executionTime props) Num64.thousand));
               Text " seconds)" ];
           Element "div" "space-y-4" [] None cards ]).

End Render.

End ResultList.

(** ** components/IndexManagement.jsx *)

Module IndexManagement.
Import JS.

(** The body of [GET index/status], as the panel reads it. *)
Record Status := {
  total_documents : Z;
  last_updated : option string;
  using_hybrid : option bool;
  has_backup : bool;
  backup_info : option string;   (* backup_info.timestamp *)
}.

Record State := {
  isRebuildingIndex : bool;
  isRollingBack : bool;
  showRebuildConfirmation : bool;
  showRollbackConfirmation : bool;
  indexStatus : option Status;
  useParagraphs : bool;
  isLoadingStatus : bool;
}.

Definition initial : State :=
  {| isRebuildingIndex := false; isRollingBack := false;
     showRebuildConfirmation := false; showRollbackConfirmation := false;
     indexStatus := None; useParagraphs := false; isLoadingStatus := false |}.

Definition setIsRebuildingIndex (v : bool) (st : State) : State :=
  {| isRebuildingIndex := v; isRollingBack := isRollingBack st;
     showRebuildConfirmation := showRebuildConfirmation st;
     showRollbackConfirmation := showRollbackConfirmation st;
     indexStatus := indexStatus st; useParagraphs := useParagraphs st;
     isLoadingStatus := isLoadingStatus st |}.

Definition setIsRollingBack (v : bool) (st : State) : State :=
  {| isRebuildingIndex := isRebuildingIndex st; isRollingBack := v;
     showRebuildConfirmation := showRebuildConfirmation st;
     showRollbackConfirmation := showRollbackConfirmation st;
     indexStatus := indexStatus st; useParagraphs := useParagraphs st;
     isLoadingStatus := isLoadingStatus st |}.

Definition setShowRebuildConfirmation (v : bool) (st : State) : State :=
  {| isRebuildingIndex := isRebuildingIndex st; isRollingBack := isRollingBack st;
     showRebuildConfirmation := v;
     showRollbackConfirmation := showRollbackConfirmation st;
     indexStatus := indexStatus st; useParagraphs := useParagraphs st;
     isLoadingStatus := isLoadingStatus st |}.

Definition setShowRollbackConfirmation (v : bool) (st : State) : State :=
  {| isRebuildingIndex := isRebuildingIndex st; isRollingBack := isRollingBack st;
     showRebuildConfirmation := showRebuildConfirmation st;
     showRollbackConfirmation := v;
     indexStatus := indexStatus st; useParagraphs := useParagraphs st;
     isLoadingStatus := isLoadingStatus st |}.

Definition setIndexStatus (v : Status) (st : State) : State :=
  {| isRebuildingIndex := isRebuildingIndex st; isRollingBack := isRollingBack st;
     showRebuildConfirmation := showRebuildConfirmation st;
     showRollbackConfirmation := showRollbackConfirmation st;
     indexStatus := Some v; useParagraphs := useParagraphs st;
     isLoadingStatus := isLoadingStatus st |}.

Definition setUseParagraphs (v : bool) (st : State) : State :=
  {| isRebuildingIndex := isRebuildingIndex st; isRollingBack := isRollingBack st;
     showRebuildConfirmation := showRebuildConfirmation st;
     showRollbackConfirmation := showRollbackConfirmation st;
     indexStatus := indexStatus st; useParagraphs := v;
     isLoadingStatus := isLoadingStatus st |}.

Definition setIsLoadingStatus (v : bool) (st : State) : State :=
  {| isRebuildingIndex := isRebuildingIndex st; isRollingBack := isRollingBack st;
     showRebuildConfirmation := showRebuildConfirmation st;
     showRollbackConfirmation := showRollbackConfirmation st;
     indexStatus := indexStatus st; useParagraphs := useParagraphs st;
     isLoadingStatus := v |}.

(** The [api] methods the panel calls. *)
Inductive api_call :=
| getIndexStatus
| rebuildIndexes (useParagraphs : bool)
| rollbackIndex.

Definition api_name (c : api_call) : string :=
  match c with
  | getIndexStatus => "getIndexStatus"
  | rebuildIndexes _ => "rebuildIndexes"
  | rollbackIndex => "rollbackIndex"
  end.

(** A call of the [onSuccess] or [onError] prop.  The text passed to
    [onError] is [prefix] followed by [err.message]. *)
Inductive notification :=
| onSuccess (message : string)
| onError (prefix : string) (err : exn).

(** *** The [disabled] attributes *)

(** [!indexStatus?.has_backup] *)
Definition no_backup (st : State) : bool :=
  negb (match indexStatus st with
        | Some status => has_backup status
        | None => false
        end).

Definition rebuild_button_disabled (st : State) : bool :=
  isRebuildingIndex st || isRollingBack st.

Definition rollback_button_disabled (st : State) : bool :=
  isRebuildingIndex st || isRollingBack st || no_backup st.

(** *** The handlers

    An [async] handler runs up to its [await], which issues the api call,
    and resumes with what the call settles to. *)

Definition fetchIndexStatus_begin (st : State) : State * api_call :=
  (setIsLoadingStatus true st, getIndexStatus).

Definition fetchIndexStatus_end (settled : outcome Status) (st : State)
  : State * list notification :=
  let '(st, notes) :=
    match settled with
    | Return status => (setIndexStatus status st, [])
    | Throw err => (st, [onError "Error fetching index status: " err])
    end in
  (setIsLoadingStatus false st, notes).

Definition handleRebuildClick (st : State) : State := setShowRebuildConfirmation true st.
Definition handleRollbackClick (st : State) : State := setShowRollbackConfirmation true st.
Definition cancelRebuild (st : State) : State := setShowRebuildConfirmation false st.
Definition cancelRollback (st : State) : State := setShowRollbackConfirmation false st.

Definition confirmRebuild_begin (st : State) : State * api_call :=
  (setIsRebuildingIndex true st, rebuildIndexes (useParagraphs st)).

Definition confirmRollback_begin (st : State) : State * api_call :=
  (setIsRollingBack true st, rollbackIndex).

(** The [try] block after the [await]: the notification, and whether
    [fetchIndexStatus()] is then called. *)
Definition after_await (done : string) (failed : string) (settled : outcome value)
  : list notification * bool :=
  match (result ← settled;
         message ← get result "message";
         or_else message (Return (VStr EmptyString))) with
  | Return message => ([onSuccess (done +:+ to_string message)], true)
  | Throw err => ([onError failed err], false)
  end.

Definition refresh (again : bool) (st : State) : State * list api_call :=
  if again
  then let '(st, c) := fetchIndexStatus_begin st in (st, [c])
  else (st, []).

Definition confirmRebuild_end (settled : outcome value) (st : State)
  : State * list notification * list api_call :=
  let '(notes, again) :=
    after_await "Index rebuilt successfully. " "Error rebuilding index: " settled in
  let '(st, calls) := refresh again st in
  (setShowRebuildConfirmation false (setIsRebuildingIndex false st), notes, calls).

Definition confirmRollback_end (settled : outcome value) (st : State)
  : State * list notification * list api_call :=
  let '(notes, again) :=
    after_await "Index rolled back successfully. " "Error rolling back index: " settled in
  let '(st, calls) := refresh again st in
  (setShowRollbackConfirmation false (setIsRollingBack false st), notes, calls).

End IndexManagement.

(** ** App.jsx *)

Module App.
Import JS.

(** The object [handleSearch] passes to [api.search]. *)
Definition handleSearch_request (searchRequest : value) : outcome value :=
  query ← get searchRequest "query";
  filters ← get searchRequest "filters";
  useParagraphs ← get searchRequest "useParagraphs";
  Return (VObj [ ("query", query); ("filters", filters);
                 ("useParagraphs", useParagraphs) ]).

End App.

(** ** The index panel wired to services/api.js *)

Module Panel.
Import JS IndexManagement.

Section Wired.
Variable VITE_API_BASE_URL : option string.
Variable fetch : Api.Request -> outcome Api.Response.

Definition arguments (c : api_call) : list value :=
  match c with
  | rebuildIndexes useParagraphs => [VBool useParagraphs]
  | _ => []
  end.

(** [api.getIndexStatus()], [api.rebuildIndexes(useParagraphs)] and
    [api.rollbackIndex()], on the [api] object of services/api.js. *)
Definition invoke (c : api_call) : outcome value :=
  Api.call VITE_API_BASE_URL fetch (api_name c) (arguments c).

(** The status object as the panel reads its properties. *)
Definition read_status (v : value) : Status :=
  let prop (o : value) (k : string) : value :=
    match get o k with
    | Return x => x
    | Throw _ => VUndefined
    end in
  let index := prop v "index" in
  let text (x : value) : option string :=
    match x with
    | VStr s => Some s
    | _ => None
    end in
  {| total_documents := match prop index "total_documents" with
                        | VNum (Num z) => z
                        | _ => 0
                        end;
     last_updated := text (prop index "last_updated");
     using_hybrid := match prop index "using_hybrid" with
                     | VUndefined => None
                     | x => Some (truthy x)
                     end;
     has_backup := truthy (prop v "has_backup");
     backup_info := text (prop (prop v "backup_info") "timestamp") |}.

(** The effect run when the panel mounts: [fetchIndexStatus()]. *)
Definition mount : State * list notification :=
  let '(st, c) := fetchIndexStatus_begin initial in
  fetchIndexStatus_end (read_status <$> invoke c) st.

Definition confirmRebuild (st : State) : State * list notification * list api_call :=
  let '(st, c) := confirmRebuild_begin st in
  confirmRebuild_end (invoke c) st.

Definition confirmRollback (st : State) : State * list notification * list api_call :=
  let '(st, c) := confirmRollback_begin st in
  confirmRollback_end (invoke c) st.

End Wired.

End Panel.

(** ** The index panel in front of the index service *)

Module IndexService.
Import JS IndexManagement.

(** Modelled from the spec: the Index Manager of section 4.3 behind the
    index endpoints of section 6, and the [api] methods that reach them
    ([getIndexStatus], [rebuildIndexes], [rollbackIndex]), none of which
    is in the frontend sources.  A snapshot is kept as its document count,
    build time and hybrid flag. *)
Record Snapshot := {
  document_count : Z;
  built : string;
  hybrid : bool;
}.

(** Modelled from the spec: the live snapshot and the single retained
    backup of section 3. *)
Record Server := {
  live : option Snapshot;
  backup : option Snapshot;
}.


(** Modelled from the spec: the errors of section 7 that the index
    endpoints answer with. *)
Inductive failure :=
| NoBackupError
| RebuildError
| RebuildInProgressError.

(** Modelled from the spec: [status()] of section 4.3, as the body of
    [GET index/status] of section 6. *)
Definition status (s : Server) : Status :=
  {| total_documents := from_option document_count 0 (live s);
     last_updated := built <$> live s;
     using_hybrid := hybrid <$> live s;
     has_backup := bool_decide (is_Some (backup s));
     backup_info := built <$> backup s |}.

(** Modelled from the spec: the course a rebuild takes.  A fresh
    snapshot is built, or the rebuild fails ([RebuildError]), or another
    one is in progress ([RebuildInProgressError]). *)
Inductive rebuild_course :=
| Built (fresh : Snapshot)
| Failed
| Busy.

(** Modelled from the spec: [rebuild] of section 4.3.  On success the
    snapshot about to be replaced becomes the backup and [fresh] becomes
    live; a failure leaves both untouched. *)
Definition rebuild (course : rebuild_course) (s : Server) : Server + failure :=
  match course with
  | Built fresh =>
      inl {| live := Some fresh;
             backup := match live s with
                       | Some replaced => Some replaced
                       | None => backup s
                       end |}
  | Failed => inr RebuildError
  | Busy => inr RebuildInProgressError
  end.

(** Modelled from the spec: [rollback] of section 4.3.  It exchanges
    live and backup, and fails with [NoBackupError] when there is no
    backup. *)
Definition rollback (s : Server) : Server + failure :=
  match backup s with
  | Some previous => inl {| live := Some previous; backup := live s |}
  | None => inr NoBackupError
  end.

(** Modelled from the spec: what the server answers to a call. *)
Inductive reply :=
| StatusReply (status : Status)
| Done (message : string)
| Refused (f : failure).

Definition failure_name (f : failure) : string :=
  match f with
  | NoBackupError => "NoBackupError"
  | RebuildError => "RebuildError"
  | RebuildInProgressError => "RebuildInProgressError"
  end.

(** Modelled from the spec: the server handles call [c] ([GET
    index/status], [POST index/rebuild], [POST index/rollback]); [course]
    is the course of a rebuild. *)
Definition serve (c : api_call) (course : rebuild_course) (s : Server) : Server * reply :=
  match c with
  | getIndexStatus => (s, StatusReply (status s))
  | rebuildIndexes _ =>
      match rebuild course s with
      | inl s' => (s', Done "Index rebuilt")
      | inr f => (s, Refused f)
      end
  | rollbackIndex =>
      match rollback s with
      | inl s' => (s', Done "Index rolled back")
      | inr f => (s, Refused f)
      end
  end.

(** Modelled from the spec: what the awaited api call settles to, for
    each reply.  An error response makes [handleResponse] throw an
    [Error]. *)
Definition settled_status (r : reply) : outcome Status :=
  match r with
  | StatusReply st => Return st
  | Done _ => Throw (Error "unexpected reply")
  | Refused f => Throw (Error (failure_name f))
  end.

Definition settled (r : reply) : outcome value :=
  match r with
  | StatusReply _ => Return (VObj [])
  | Done message => Return (VObj [("message", VStr message)])
  | Refused f => Throw (Error (failure_name f))
  end.

(** *** The panel, the network and the server together *)

Inductive packet :=
| Request (c : api_call)
| Response (c : api_call) (r : reply).

Record System := {
  panel : State;
  server : Server;
  wire : list packet;                (* calls in flight *)
  notes : list notification;         (* onSuccess / onError calls so far *)
  refusals : list (api_call * failure);   (* failures answered to the panel *)
}.

(** The panel has mounted: its effect has called [fetchIndexStatus()]. *)
Definition mounted (s : Server) : System :=
  let '(st, c) := fetchIndexStatus_begin initial in
  {| panel := st; server := s; wire := [Request c]; notes := []; refusals := [] |}.

Inductive event :=
| ClickRefresh
| ClickRebuild
| ClickRollback
| CancelRebuild
| CancelRollback
| CheckParagraphs (checked : bool)
| ConfirmRebuild
| ConfirmRollback
| Serve (i : nat) (course : rebuild_course)     (* the server handles request [i] *)
| Deliver (i : nat)                              (* response [i] reaches the panel *)
| Lose (i : nat)                                 (* packet [i] is lost: fetch rejects *)
| Elsewhere (c : api_call) (course : rebuild_course).   (* another client's call *)

Definition with_panel (st : State) (calls : list api_call) (new : list notification)
    (sys : System) : System :=
  {| panel := st; server := server sys;
     wire := wire sys ++ map Request calls;
     notes := notes sys ++ new; refusals := refusals sys |}.

Definition without (i : nat) (sys : System) : System :=
  {| panel := panel sys; server := server sys; wire := delete i (wire sys);
     notes := notes sys; refusals := refusals sys |}.

(** The handler waiting for call [c] resumes. *)
Definition resume (c : api_call) (r : outcome Status * outcome value) (sys : System) : System :=
  match c with
  | getIndexStatus =>
      let '(st, new) := fetchIndexStatus_end (fst r) (panel sys) in
      with_panel st [] new sys
  | rebuildIndexes _ =>
      let '(st, new, calls) := confirmRebuild_end (snd r) (panel sys) in
      with_panel st calls new sys
  | rollbackIndex =>
      let '(st, new, calls) := confirmRollback_end (snd r) (panel sys) in
      with_panel st calls new sys
  end.

(** One step; [None] when the event cannot happen in this state (a
    disabled button is not clicked, a dialog that is not shown has no
    buttons). *)
Definition step (ev : event) (sys : System) : option System :=
  let st := panel sys in
  match ev with
  | ClickRefresh =>
      if isLoadingStatus st then None
      else let '(st', c) := fetchIndexStatus_begin st in Some (with_panel st' [c] [] sys)
  | ClickRebuild =>
      if rebuild_button_disabled st then None
      else Some (with_panel (handleRebuildClick st) [] [] sys)
  | ClickRollback =>
      if rollback_button_disabled st then None
      else Some (with_panel (handleRollbackClick st) [] [] sys)
  | CancelRebuild =>
      if showRebuildConfirmation st && negb (isRebuildingIndex st)
      then Some (with_panel (cancelRebuild st) [] [] sys) else None
  | CancelRollback =>
      if showRollbackConfirmation st && negb (isRollingBack st)
      then Some (with_panel (cancelRollback st) [] [] sys) else None
  | CheckParagraphs checked =>
      if showRebuildConfirmation st
      then Some (with_panel (setUseParagraphs checked st) [] [] sys) else None
  | ConfirmRebuild =>
      if showRebuildConfirmation st && negb (isRebuildingIndex st)
      then let '(st', c) := confirmRebuild_begin st in Some (with_panel st' [c] [] sys)
      else None
  | ConfirmRollback =>
      if showRollbackConfirmation st && negb (isRollingBack st)
      then let '(st', c) := confirmRollback_begin st in Some (with_panel st' [c] [] sys)
      else None
  | Serve i course =>
      match wire sys !! i with
      | Some (Request c) =>
          let '(s', r) := serve c course (server sys) in
          Some {| panel := st; server := s';
                  wire := <[i := Response c r]> (wire sys);
                  notes := notes sys;
                  refusals := refusals sys ++ match r with
                                              | Refused f => [(c, f)]
                                              | _ => []
                                              end |}
      | _ => None
      end
  | Deliver i =>
      match wire sys !! i with
      | Some (Response c r) => Some (resume c (settled_status r, settled r) (without i sys))
      | _ => None
      end
  | Lose i =>
      match wire sys !! i with
      | Some (Request c) | Some (Response c _) =>
          Some (resume c (Throw TypeError_fetch, Throw TypeError_fetch) (without i sys))
      | None => None
      end
  | Elsewhere c course =>
      Some {| panel := st; server := fst (serve c course (server sys));
              wire := wire sys; notes := notes sys; refusals := refusals sys |}
  end.

Fixpoint run (evs : list event) (sys : System) : option System :=
  match evs with
  | [] => Some sys
  | ev :: evs' => sys' ← step ev sys; run evs' sys'
  end.

End IndexService.

(** ** components/PaperList.jsx: the table of papers *)

Module Papers.
Import JS.

(** A paper of the list, as the table reads it. *)
Record Paper := {
  id : string;
  title : string;
  authors : option (list string);
  publication_year : option Z;
}.

(** What [result.papers] can be when it is not an array. *)
Inductive other_value :=
| OUndefined
| ONull
| OBool (b : bool)
| ONum (n : number)
| OStr (s : string)
| OObj (fields : list (string * value)).

(** What [setPapers] is given: the array of the reply, whose items are
    taken to be papers, or whatever else [result.papers] is. *)
Inductive listing :=
| Listed (rows : list Paper)
| NotArray (v : other_value).

(** [error] holds the text [`${prefix}${err.message}`], kept as the
    prefix and the error; it is never the empty text. *)
Record State := {
  papers : listing;
  loading : bool;
  error : option (string * exn);
  selectedPapers : list string;
  showConfirmation : bool;
  isDeleting : bool;
}.

Definition initial : State :=
  {| papers := Listed []; loading := true; error := None; selectedPapers := [];
     showConfirmation := false; isDeleting := false |}.

Definition setPapers (v : listing) (st : State) : State :=
  {| papers := v; loading := loading st; error := error st;
     selectedPapers := selectedPapers st; showConfirmation := showConfirmation st;
     isDeleting := isDeleting st |}.

Definition setLoading (v : bool) (st : State) : State :=
  {| papers := papers st; loading := v; error := error st;
     selectedPapers := selectedPapers st; showConfirmation := showConfirmation st;
     isDeleting := isDeleting st |}.

Definition setError (v : option (string * exn)) (st : State) : State :=
  {| papers := papers st; loading := loading st; error := v;
     selectedPapers := selectedPapers st; showConfirmation := showConfirmation st;
     isDeleting := isDeleting st |}.

Definition setSelectedPapers (update : list string -> list string) (st : State) : State :=
  {| papers := papers st; loading := loading st; error := error st;
     selectedPapers := update (selectedPapers st);
     showConfirmation := showConfirmation st; isDeleting := isDeleting st |}.

Definition setShowConfirmation (v : bool) (st : State) : State :=
  {| papers := papers st; loading := loading st; error := error st;
     selectedPapers := selectedPapers st; showConfirmation := v;
     isDeleting := isDeleting st |}.

Definition setIsDeleting (v : bool) (st : State) : State :=
  {| papers := papers st; loading := loading st; error := error st;
     selectedPapers := selectedPapers st; showConfirmation := showConfirmation st;
     isDeleting := v |}.

(** The [api] methods the table calls: [api.listAllPapers()] and
    [api.deletePaper(paperId)]. *)
Inductive api_call :=
| listAllPapers
| deletePaper (paperId : string).

(** *** The handlers *)

Definition fetchPapers_begin (st : State) : State * api_call :=
  (setLoading true st, listAllPapers).

(** [settled]: [result.papers] of what the call resolves to, or what is
    thrown (by the call, or by reading [papers] of a [null] result).
    Whatever [result.papers] is, it is stored. *)
Definition fetchPapers_end (settled : outcome listing) (st : State) : State :=
  setLoading false
    match settled with
    | Return listed => setError None (setPapers listed st)
    | Throw err => setError (Some ("Error loading papers: ", err)) st
    end.

Definition togglePaperSelection (paperId : string) : list string -> list string :=
  fun prev =>
    if bool_decide (paperId ∈ prev)
    then filter (fun id => id ≠ paperId) prev
    else prev ++ [paperId].

(** [toggleSelectAll] belongs to the table, which is rendered for an
    array of papers only: [rows] is the [papers] of its render. *)
Definition toggleSelectAll (rows : list Paper) (st : State) : State :=
  if (length (selectedPapers st) =? length rows)%nat
  then setSelectedPapers (fun _ => []) st
  else setSelectedPapers (fun _ => map id rows) st.

Definition handleDeleteClick (st : State) : State :=
  if (length (selectedPapers st) =? 0)%nat then st
  else setShowConfirmation true st.

Definition cancelDelete (st : State) : State := setShowConfirmation false st.

(** [confirmDelete] up to its [await]: one [api.deletePaper] call for
    each selected paper, in the order of the selection. *)
Definition confirmDelete_begin (st : State) : State * list api_call :=
  (setIsDeleting true st, map deletePaper (selectedPapers st)).

(** [confirmDelete] after its [await], on what [Promise.all] settled
    to (fulfilled when every call is, rejected with the first rejection).
    [selected] is the selection of the render the handler belongs to,
    [onDeleteSuccess] says whether the prop was passed; the result holds
    the messages passed to the prop and the call [fetchPapers()] starts. *)
Definition confirmDelete_end (onDeleteSuccess : bool) (selected : list string)
    (settled : outcome (list value)) (st : State) : State * list string * list api_call :=
  let '(st, notes, calls) :=
    match settled with
    | Return _ =>
        let '(st, c) := fetchPapers_begin (setSelectedPapers (fun _ => []) st) in
        (st,
         if onDeleteSuccess
         then ["Successfully deleted " +:+ pretty (Z.of_nat (length selected)) +:+ " paper(s)"]
         else [],
         [c])
    | Throw err => (setError (Some ("Error deleting papers: ", err)) st, [], [])
    end in
  (setShowConfirmation false (setIsDeleting false st), notes, calls).

(** *** What is rendered *)

Inductive view :=
| LoadingView
| ErrorView (message : string * exn)
| EmptyView
| TableView (rows : list Paper).

(** [papers.length], for what is not an array. *)
Definition length_of (v : other_value) : outcome value :=
  match v with
  | OUndefined => Throw (TypeError_read VUndefined "length")
  | ONull => Throw (TypeError_read VNull "length")
  | OBool _ | ONum _ => Return VUndefined
  | OStr s => Return (VNum (Num (Z.of_nat (String.length s))))
  | OObj fields => Return (default VUndefined (assoc "length" fields))
  end.

(** [v === 0] *)
Definition is_zero (v : value) : bool :=
  match v with
  | VNum (Num 0) => true
  | _ => false
  end.

(** The render.  With [papers] not an array it throws: on reading
    [papers.length] of [undefined] or [null], or else on calling
    [papers.map], which is not a function, unless the length read is 0
    and the empty view is returned before. *)
Definition view_of (st : State) : outcome view :=
  if loading st then Return LoadingView
  else match error st with
       | Some message => Return (ErrorView message)
       | None =>
           match papers st with
           | Listed rows =>
               Return (if (length rows =? 0)%nat then EmptyView else TableView rows)
           | NotArray v =>
               n ← length_of v;
               if is_zero n then Return EmptyView
               else Throw (TypeError_call "papers.map")
           end
       end.

(** The [checked] attribute of a row's checkbox. *)
Definition checked (st : State) (paper : Paper) : bool :=
  bool_decide (id paper ∈ selectedPapers st).

Definition select_all_label (rows : list Paper) (st : State) : string :=
  if (length (selectedPapers st) =? length rows)%nat
  then "Deselect All" else "Select All".

Definition delete_button_disabled (st : State) : bool :=
  (length (selectedPapers st) =? 0)%nat.

(** [{paper.publication_year || 'Unknown'}] *)
Definition year_cell (paper : Paper) : string :=
  match publication_year paper with
  | Some year => if year =? 0 then "Unknown" else pretty year
  | None => "Unknown"
  end.

Section Wired.
Variable VITE_API_BASE_URL : option string.
Variable fetch : Api.Request -> outcome Api.Response.

Definition api_name (c : api_call) : string :=
  match c with
  | listAllPapers => "listAllPapers"
  | deletePaper _ => "deletePaper"
  end.

Definition arguments (c : api_call) : list value :=
  match c with
  | listAllPapers => []
  | deletePaper paperId => [VStr paperId]
  end.

Definition invoke (c : api_call) : outcome value :=
  Api.call VITE_API_BASE_URL fetch (api_name c) (arguments c).

(** The [href] of a row's download link: [api.getPaperDownloadUrl(paper.id)]. *)
Definition download_href (paper : Paper) : outcome value :=
  Api.call VITE_API_BASE_URL fetch "getPaperDownloadUrl" [VStr (id paper)].

End Wired.

End Papers.

(** ** The table of papers and its calls in flight *)

Module PapersRun.
Import JS Papers.

(** A call that has not settled yet.  A [deletePaper] call carries the
    number of the confirmation that made it. *)
Inductive packet :=
| List_call
| Delete_call (batch : nat) (paperId : string).

(** A [confirmDelete] suspended at its [await]: the number of the
    confirmation, the selection of its render, and how many of its calls
    have not been fulfilled yet. *)
Record Await := {
  batch : nat;
  selected : list string;
  outstanding : nat;
}.

Record System := {
  panel : State;
  wire : list packet;
  awaited : option Await;
  confirmations : nat;
  notes : list string;               (* the messages passed to onDeleteSuccess *)
}.

(** The component has mounted: its effect has called [fetchPapers()]. *)
Definition mounted : System :=
  let '(st, _) := fetchPapers_begin initial in
  {| panel := st; wire := [List_call]; awaited := None; confirmations := 0; notes := [] |}.

Inductive event :=
| ListSettles (i : nat) (settled : outcome listing)
| DeleteSettles (i : nat) (settled : outcome value)
| TogglePaper (paperId : string)
| ToggleAll
| ClickDelete
| ClickCancel
| ClickConfirm
| ClickTryAgain.

Definition with_panel (st : State) (sys : System) : System :=
  {| panel := st; wire := wire sys; awaited := awaited sys;
     confirmations := confirmations sys; notes := notes sys |}.

Definition packet_of (b : nat) (c : api_call) : packet :=
  match c with
  | listAllPapers => List_call
  | deletePaper paperId => Delete_call b paperId
  end.

Section Props.
(** Whether the [onDeleteSuccess] prop is passed. *)
Variable onDeleteSuccess : bool.

(** The suspended [confirmDelete] resumes with what [Promise.all]
    settled to. *)
Definition resume (a : Await) (settled : outcome (list value)) (sys : System) : System :=
  let '(st, messages, calls) :=
    confirmDelete_end onDeleteSuccess (selected a) settled (panel sys) in
  {| panel := st; wire := wire sys ++ map (packet_of (batch a)) calls; awaited := None;
     confirmations := confirmations sys; notes := notes sys ++ messages |}.

(** The papers of the table, when the table is what is rendered. *)
Definition table_of (st : State) : option (list Paper) :=
  match view_of st with
  | Return (TableView rows) => Some rows
  | _ => None
  end.

Definition table_shown (st : State) : bool :=
  match table_of st with
  | Some _ => true
  | None => false
  end.

(** A render that throws takes the component off the page: React
    unmounts it.  Its handlers are not called any more, and the state
    updates of the calls that settle later are dropped. *)
Definition unmounted (st : State) : bool :=
  match view_of st with
  | Throw _ => true
  | Return _ => false
  end.

(** One step of the mounted component; [None] when the event cannot
    happen in this state: a control that is not rendered or is disabled
    is not clicked, and only a call in flight settles. *)
Definition step_mounted (ev : event) (sys : System) : option System :=
  let st := panel sys in
  match ev with
  | ListSettles i settled =>
      match wire sys !! i with
      | Some List_call =>
          Some {| panel := fetchPapers_end settled st; wire := delete i (wire sys);
                  awaited := awaited sys; confirmations := confirmations sys;
                  notes := notes sys |}
      | _ => None
      end
  | DeleteSettles i settled =>
      match wire sys !! i with
      | Some (Delete_call b _) =>
          let sys := {| panel := st; wire := delete i (wire sys); awaited := awaited sys;
                        confirmations := confirmations sys; notes := notes sys |} in
          match awaited sys with
          | Some a =>
              if (batch a =? b)%nat then
                match settled with
                | Throw err => Some (resume a (Throw err) sys)
                | Return _ =>
                    if (outstanding a =? 1)%nat then Some (resume a (Return []) sys)
                    else Some {| panel := panel sys; wire := wire sys;
                                 awaited := Some {| batch := batch a; selected := selected a;
                                                    outstanding := outstanding a - 1 |};
                                 confirmations := confirmations sys; notes := notes sys |}
                end
              else Some sys
          | None => Some sys
          end
      | _ => None
      end
  | TogglePaper paperId =>
      match table_of st with
      | Some rows =>
          if bool_decide (paperId ∈ map id rows)
          then Some (with_panel (setSelectedPapers (togglePaperSelection paperId) st) sys)
          else None
      | None => None
      end
  | ToggleAll =>
      match table_of st with
      | Some rows => Some (with_panel (toggleSelectAll rows st) sys)
      | None => None
      end
  | ClickDelete =>
      if table_shown st && negb (delete_button_disabled st)
      then Some (with_panel (handleDeleteClick st) sys) else None
  | ClickCancel =>
      if table_shown st && showConfirmation st && negb (isDeleting st)
      then Some (with_panel (cancelDelete st) sys) else None
  | ClickConfirm =>
      if table_shown st && showConfirmation st && negb (isDeleting st) then
        let '(st', calls) := confirmDelete_begin st in
        let b := confirmations sys in
        let a := {| batch := b; selected := selectedPapers st;
                    outstanding := length calls |} in
        let sys' := {| panel := st'; wire := wire sys ++ map (packet_of b) calls;
                       awaited := Some a; confirmations := S b; notes := notes sys |} in
        (* Promise.all of no promise is fulfilled at once *)
        if (length calls =? 0)%nat then Some (resume a (Return []) sys') else Some sys'
      else None
  | ClickTryAgain =>
      match view_of st with
      | Return (ErrorView _) =>
          let '(st', c) := fetchPapers_begin st in
          Some {| panel := st'; wire := wire sys ++ [packet_of 0 c]; awaited := awaited sys;
                  confirmations := confirmations sys; notes := notes sys |}
      | _ => None
      end
  end.

(** One step.  Once the component is unmounted nothing is clicked, and a
    call that settles runs its continuation without effect on the
    state. *)
Definition step (ev : event) (sys : System) : option System :=
  if unmounted (panel sys) then
    match ev with
    | ListSettles _ _ | DeleteSettles _ _ =>
        with_panel (panel sys) <$> step_mounted ev sys
    | _ => None
    end
  else step_mounted ev sys.

Fixpoint run (evs : list event) (sys : System) : option System :=
  match evs with
  | [] => Some sys
  | ev :: evs' => sys' ← step ev sys; run evs' sys'
  end.

End Props.

End PapersRun.

(** ** The index panel on services/api.js, click by click *)

Module PanelRun.
Import JS IndexManagement.

Record System := {
  panel : State;
  wire : list api_call;              (* the api calls awaited *)
  notes : list notification;         (* onSuccess / onError calls so far *)
}.

Inductive event :=
| ClickRefresh
| ClickRebuild
| ClickRollback
| CancelRebuild
| CancelRollback
| CheckParagraphs (checked : bool)
| ConfirmRebuild
| ConfirmRollback
| Settle (i : nat).                  (* the handler awaiting call [i] resumes *)

Definition with_panel (st : State) (calls : list api_call) (new : list notification)
    (sys : System) : System :=
  {| panel := st; wire := wire sys ++ calls; notes := notes sys ++ new |}.

(** The panel has mounted: its effect has called [fetchIndexStatus()]. *)
Definition mounted : System :=
  let '(st, c) := fetchIndexStatus_begin initial in
  {| panel := st; wire := [c]; notes := [] |}.

Section Wired.
Variable VITE_API_BASE_URL : option string.
Variable fetch : Api.Request -> outcome Api.Response.

(** The handler awaiting [c] resumes with what the call on the [api]
    object of services/api.js settles to. *)
Definition resume (c : api_call) (sys : System) : System :=
  let settled := Panel.invoke VITE_API_BASE_URL fetch c in
  match c with
  | getIndexStatus =>
      let '(st, new) := fetchIndexStatus_end (Panel.read_status <$> settled) (panel sys) in
      with_panel st [] new sys
  | rebuildIndexes _ =>
      let '(st, new, calls) := confirmRebuild_end settled (panel sys) in
      with_panel st calls new sys
  | rollbackIndex =>
      let '(st, new, calls) := confirmRollback_end settled (panel sys) in
      with_panel st calls new sys
  end.

(** One step; [None] when the event cannot happen in this state (a
    disabled button is not clicked, a dialog that is not shown has no
    buttons). *)
Definition step (ev : event) (sys : System) : option System :=
  let st := panel sys in
  match ev with
  | ClickRefresh =>
      if isLoadingStatus st then None
      else let '(st', c) := fetchIndexStatus_begin st in Some (with_panel st' [c] [] sys)
  | ClickRebuild =>
      if rebuild_button_disabled st then None
      else Some (with_panel (handleRebuildClick st) [] [] sys)
  | ClickRollback =>
      if rollback_button_disabled st then None
      else Some (with_panel (handleRollbackClick st) [] [] sys)
  | CancelRebuild =>
      if showRebuildConfirmation st && negb (isRebuildingIndex st)
      then Some (with_panel (cancelRebuild st) [] [] sys) else None
  | CancelRollback =>
      if showRollbackConfirmation st && negb (isRollingBack st)
      then Some (with_panel (cancelRollback st) [] [] sys) else None
  | CheckParagraphs checked =>
      if showRebuildConfirmation st
      then Some (with_panel (setUseParagraphs checked st) [] [] sys) else None
  | ConfirmRebuild =>
      if showRebuildConfirmation st && negb (isRebuildingIndex st)
      then let '(st', c) := confirmRebuild_begin st in Some (with_panel st' [c] [] sys)
      else None
  | ConfirmRollback =>
      if showRollbackConfirmation st && negb (isRollingBack st)
      then let '(st', c) := confirmRollback_begin st in Some (with_panel st' [c] [] sys)
      else None
  | Settle i =>
      match wire sys !! i with
      | Some c =>
          Some (resume c {| panel := st; wire := delete i (wire sys); notes := notes sys |})
      | None => None
      end
  end.

Fixpoint run (evs : list event) (sys : System) : option System :=
  match evs with
  | [] => Some sys
  | ev :: evs' => sys' ← step ev sys; run evs' sys'
  end.

End Wired.

End PanelRun.

(** ** components/UploadForm.jsx *)

Module UploadForm.
Import JS.

(** What the form reads of a selected file. *)
Record File := {
  name : string;
  type : string;
}.

Record Metadata := {
  title : string;
  authors : list string;
  abstract : string;
  publication_year : string;
  doi : string;
  keywords : list string;
  conference : string;
  journal : string;
}.

Record State := {
  file : option File;
  extractMetadata : bool;
  useCustomMetadata : bool;
  useParagraphProcessing : bool;
  customMetadata : Metadata;
}.

Definition noMetadata : Metadata :=
  {| title := EmptyString; authors := []; abstract := EmptyString;
     publication_year := EmptyString; doi := EmptyString; keywords := [];
     conference := EmptyString; journal := EmptyString |}.

Definition initial : State :=
  {| file := None; extractMetadata := true; useCustomMetadata := false;
     useParagraphProcessing := true; customMetadata := noMetadata |}.

Definition setFile (v : option File) (st : State) : State :=
  {| file := v; extractMetadata := extractMetadata st;
     useCustomMetadata := useCustomMetadata st;
     useParagraphProcessing := useParagraphProcessing st;
     customMetadata := customMetadata st |}.

Definition setExtractMetadata (v : bool) (st : State) : State :=
  {| file := file st; extractMetadata := v; useCustomMetadata := useCustomMetadata st;
     useParagraphProcessing := useParagraphProcessing st;
     customMetadata := customMetadata st |}.

Definition setUseCustomMetadata (v : bool) (st : State) : State :=
  {| file := file st; extractMetadata := extractMetadata st; useCustomMetadata := v;
     useParagraphProcessing := useParagraphProcessing st;
     customMetadata := customMetadata st |}.

Definition setUseParagraphProcessing (v : bool) (st : State) : State :=
  {| file := file st; extractMetadata := extractMetadata st;
     useCustomMetadata := useCustomMetadata st; useParagraphProcessing := v;
     customMetadata := customMetadata st |}.

Definition setCustomMetadata (update : Metadata -> Metadata) (st : State) : State :=
  {| file := file st; extractMetadata := extractMetadata st;
     useCustomMetadata := useCustomMetadata st;
     useParagraphProcessing := useParagraphProcessing st;
     customMetadata := update (customMetadata st) |}.

(** *** The file *)

(** [handleFileChange], on [event.target.files[0]] ([None] when no file
    is chosen): the new state and the alerts raised. *)
Definition handleFileChange (selectedFile : option File) (st : State)
  : State * list string :=
  match selectedFile with
  | Some f =>
      if String.eqb (type f) "application/pdf" then (setFile (Some f) st, [])
      else (setFile None st, ["Please select a PDF file."])
  | None => (setFile None st, ["Please select a PDF file."])
  end.

(** *** The form data *)

(** The value of a [FormData] entry: a file, or a text.  A text made by
    [JSON.stringify] is kept as the tree it denotes. *)
Inductive part :=
| FilePart (f : File)
| TextPart (s : string)
| JSONPart (text : option json_value).

Definition FormData : Type := list (string * part).

(** The text [append] stores for a boolean. *)
Definition bool_text (b : bool) : string := if b then "true" else "false".

Definition strings (l : list string) : value := VArr (map VStr l).

(** [{...customMetadata, publication_year: ... ? parseInt(...) : null}] *)
Definition cleanedMetadata (customMetadata : Metadata) : value :=
  VObj [ ("title", VStr (title customMetadata));
         ("authors", strings (authors customMetadata));
         ("abstract", VStr (abstract customMetadata));
         ("publication_year",
          if truthy_str (publication_year customMetadata)
          then VNum (SearchForm.parseInt (publication_year customMetadata))
          else VNull);
         ("doi", VStr (doi customMetadata));
         ("keywords", strings (keywords customMetadata));
         ("conference", VStr (conference customMetadata));
         ("journal", VStr (journal customMetadata)) ].

(** [handleSubmit]: the alerts raised, and the arguments of the
    [onUpload] call if it is made. *)
Definition handleSubmit (st : State) : list string * option (FormData * bool) :=
  match file st with
  | None => (["Please select a PDF file to upload."], None)
  | Some f =>
      let formData :=
        [ ("file", FilePart f);
          ("extract_metadata", TextPart (bool_text (extractMetadata st))) ]
        ++ (if useCustomMetadata st
            then [("custom_metadata",
                   JSONPart (stringify (cleanedMetadata (customMetadata st))))]
            else []) in
      ([], Some (formData, useParagraphProcessing st))
  end.

(** *** The custom metadata *)

(** The names [handleMetadataChange] is called with from the text inputs. *)
Inductive field := F_title | F_abstract | F_publication_year | F_doi | F_conference | F_journal.

Definition handleMetadataChange (name : field) (v : string) (prev : Metadata) : Metadata :=
  {| title := match name with F_title => v | _ => title prev end;
     authors := authors prev;
     abstract := match name with F_abstract => v | _ => abstract prev end;
     publication_year :=
       match name with F_publication_year => v | _ => publication_year prev end;
     doi := match name with F_doi => v | _ => doi prev end;
     keywords := keywords prev;
     conference := match name with F_conference => v | _ => conference prev end;
     journal := match name with F_journal => v | _ => journal prev end |}.

(** [handleMetadataChange('authors', l)] and [handleMetadataChange('keywords', l)] *)
Definition with_authors (l : list string) (prev : Metadata) : Metadata :=
  {| title := title prev; authors := l; abstract := abstract prev;
     publication_year := publication_year prev; doi := doi prev;
     keywords := keywords prev; conference := conference prev; journal := journal prev |}.

Definition with_keywords (l : list string) (prev : Metadata) : Metadata :=
  {| title := title prev; authors := authors prev; abstract := abstract prev;
     publication_year := publication_year prev; doi := doi prev;
     keywords := l; conference := conference prev; journal := journal prev |}.

(** [updated[index] = value] on a copy of the list.  Written at the
    length the array grows by one; written further out it would grow with
    empty slots in between, which a list of texts cannot hold: the result
    is then [None].  The handlers are attached to the rows of the list, so
    their index is below the length. *)
Definition assign (index : nat) (v : string) (l : list string) : option (list string) :=
  if (index <? length l)%nat then Some (<[index := v]> l)
  else if (index =? length l)%nat then Some (l ++ [v])
  else None.

(** [l.filter((_, i) => i !== index)] *)
Fixpoint filter_index_from (i : nat) (index : nat) (l : list string) : list string :=
  match l with
  | [] => []
  | x :: l' =>
      if (i =? index)%nat then filter_index_from (S i) index l'
      else x :: filter_index_from (S i) index l'
  end.

Definition filter_index (index : nat) (l : list string) : list string :=
  filter_index_from 0 index l.

(** The handlers read [customMetadata], the state of the render they
    were created in, and pass the list they build to [handleMetadataChange]. *)
Definition handleAuthorChange (customMetadata : Metadata) (index : nat) (v : string)
  : option (Metadata -> Metadata) :=
  with_authors <$> assign index v (authors customMetadata).

Definition addAuthorField (customMetadata : Metadata) : Metadata -> Metadata :=
  with_authors (authors customMetadata ++ [EmptyString]).

Definition removeAuthorField (customMetadata : Metadata) (index : nat)
  : Metadata -> Metadata :=
  with_authors (filter_index index (authors customMetadata)).

Definition handleKeywordChange (customMetadata : Metadata) (index : nat) (v : string)
  : option (Metadata -> Metadata) :=
  with_keywords <$> assign index v (keywords customMetadata).

Definition addKeywordField (customMetadata : Metadata) : Metadata -> Metadata :=
  with_keywords (keywords customMetadata ++ [EmptyString]).

Definition removeKeywordField (customMetadata : Metadata) (index : nat)
  : Metadata -> Metadata :=
  with_keywords (filter_index index (keywords customMetadata)).

(** *** The user's actions on the form *)

Inductive event :=
| FileChange (selectedFile : option File)
| CheckExtractMetadata (checked : bool)
| CheckCustomMetadata (checked : bool)
| CheckParagraphProcessing (checked : bool)
| MetadataChange (name : field) (v : string)
| AuthorChange (index : nat) (v : string)
| AddAuthor
| RemoveAuthor (index : nat)
| KeywordChange (index : nat) (v : string)
| AddKeyword
| RemoveKeyword (index : nat).

(** One action; [None] when the control is not rendered (the metadata
    inputs are there only when custom metadata is asked for, an author or
    keyword row only below the length of its list). *)
Definition handle (ev : event) (st : State) : option State :=
  let metadata := customMetadata st in
  let shown := useCustomMetadata st in
  match ev with
  | FileChange selectedFile => Some (handleFileChange selectedFile st).1
  | CheckExtractMetadata checked => Some (setExtractMetadata checked st)
  | CheckCustomMetadata checked => Some (setUseCustomMetadata checked st)
  | CheckParagraphProcessing checked => Some (setUseParagraphProcessing checked st)
  | MetadataChange name v =>
      if shown then Some (setCustomMetadata (handleMetadataChange name v) st) else None
  | AuthorChange index v =>
      if shown && (index <? length (authors metadata))%nat
      then update ← handleAuthorChange metadata index v; Some (setCustomMetadata update st)
      else None
  | AddAuthor =>
      if shown then Some (setCustomMetadata (addAuthorField metadata) st) else None
  | RemoveAuthor index =>
      if shown && (index <? length (authors metadata))%nat
      then Some (setCustomMetadata (removeAuthorField metadata index) st)
      else None
  | KeywordChange index v =>
      if shown && (index <? length (keywords metadata))%nat
      then update ← handleKeywordChange metadata index v; Some (setCustomMetadata update st)
      else None
  | AddKeyword =>
      if shown then Some (setCustomMetadata (addKeywordField metadata) st) else None
  | RemoveKeyword index =>
      if shown && (index <? length (keywords metadata))%nat
      then Some (setCustomMetadata (removeKeywordField metadata index) st)
      else None
  end.

Fixpoint run (evs : list event) (st : State) : option State :=
  match evs with
  | [] => Some st
  | ev :: evs' => st' ← handle ev st; run evs' st'
  end.

End UploadForm.

(** ** App.jsx: the state of the application and its notifications *)

Module AppShell.
Import JS.

(** The text of a notification: a text, or [`${prefix}${error.message}`],
    kept as the prefix and the error. *)
Inductive text :=
| Plain (s : string)
| Failure (prefix : string) (err : exn).

Record Notification := {
  type : string;
  message : text;
}.

Record State := {
  activeTab : string;
  searchResults : value;             (* null, or what api.search resolved to *)
  isSearching : bool;
  isUploading : bool;
  notification : option Notification;
  useParagraphs : value;
}.

Definition initial : State :=
  {| activeTab := "search"; searchResults := VNull; isSearching := false;
     isUploading := false; notification := None; useParagraphs := VBool false |}.

Definition setActiveTab (v : string) (st : State) : State :=
  {| activeTab := v; searchResults := searchResults st; isSearching := isSearching st;
     isUploading := isUploading st; notification := notification st;
     useParagraphs := useParagraphs st |}.

Definition setSearchResults (v : value) (st : State) : State :=
  {| activeTab := activeTab st; searchResults := v; isSearching := isSearching st;
     isUploading := isUploading st; notification := notification st;
     useParagraphs := useParagraphs st |}.

Definition setIsSearching (v : bool) (st : State) : State :=
  {| activeTab := activeTab st; searchResults := searchResults st; isSearching := v;
     isUploading := isUploading st; notification := notification st;
     useParagraphs := useParagraphs st |}.

Definition setIsUploading (v : bool) (st : State) : State :=
  {| activeTab := activeTab st; searchResults := searchResults st;
     isSearching := isSearching st; isUploading := v; notification := notification st;
     useParagraphs := useParagraphs st |}.

Definition setNotification (v : option Notification) (st : State) : State :=
  {| activeTab := activeTab st; searchResults := searchResults st;
     isSearching := isSearching st; isUploading := isUploading st; notification := v;
     useParagraphs := useParagraphs st |}.

Definition setUseParagraphs (v : value) (st : State) : State :=
  {| activeTab := activeTab st; searchResults := searchResults st;
     isSearching := isSearching st; isUploading := isUploading st;
     notification := notification st; useParagraphs := v |}.

(** The application in time: its state, the clock (in milliseconds) and
    the times at which the pending [setTimeout] callbacks are due, in the
    order in which they were set. *)
Record World := {
  app : State;
  clock : Z;
  timers : list Z;
}.

Definition started : World := {| app := initial; clock := 0; timers := [] |}.

Definition on_app (update : State -> State) (w : World) : World :=
  {| app := update (app w); clock := clock w; timers := timers w |}.

(** [showNotification]: the notification is set and a callback that
    clears it is set to run in 5 seconds. *)
Definition showNotification (type : string) (message : text) (w : World) : World :=
  {| app := setNotification (Some {| type := type; message := message |}) (app w);
     clock := clock w;
     timers := timers w ++ [clock w + 5000] |}.

Definition dismissNotification (w : World) : World := on_app (setNotification None) w.

(** Time passes: the clock advances by [delay] and the callbacks due by
    then run, each clearing the notification. *)
Definition elapse (delay : Z) (w : World) : World :=
  let now := clock w + delay in
  let due := filter (fun t => t <= now) (timers w) in
  {| app := match due with
            | [] => app w
            | _ => setNotification None (app w)
            end;
     clock := now;
     timers := filter (fun t => now < t) (timers w) |}.

(** *** handleSearch *)

(** [handleSearch] up to its [await]: the new state, and the argument of
    the [api.search] call (or what is thrown before the call). *)
Definition handleSearch_begin (searchRequest : value) (w : World)
  : World * outcome value :=
  let w := on_app (fun st => setSearchResults VNull (setIsSearching true st)) w in
  match get searchRequest "useParagraphs" with
  | Throw err => (w, Throw err)
  | Return flag => (on_app (setUseParagraphs flag) w, App.handleSearch_request searchRequest)
  end.

(** [handleSearch] after its [await], on what the call settled to. *)
Definition handleSearch_end (settled : outcome value) (w : World) : World :=
  on_app (setIsSearching false)
    match settled with
    | Return results => on_app (setSearchResults results) w
    | Throw error => showNotification "error" (Failure "Search failed: " error) w
    end.

(** *** handleUpload *)

(** [handleUpload] up to its [await]: the form data [api.uploadPaper] is
    called with. *)
Definition handleUpload_begin (formData : UploadForm.FormData)
    (useParagraphProcessing : bool) (w : World) : World * UploadForm.FormData :=
  (on_app (setIsUploading true) w,
   formData ++ [("use_paragraphs",
                 UploadForm.TextPart (UploadForm.bool_text useParagraphProcessing))]).



(** *** What the search tab passes to the result list *)

(** The [useParagraphs] prop: [None] when the state is [undefined], so
    that the default of the component applies. *)
Definition ResultList_useParagraphs (st : State) : option bool :=
  match useParagraphs st with
  | VUndefined => None
  | flag => Some (truthy flag)
  end.

(** Whether the result list is rendered: [!isSearching && searchResults]. *)
Definition results_shown (st : State) : bool :=
  negb (isSearching st) && truthy (searchResults st).

(** Whether the note on paragraph-level search is rendered. *)
Definition paragraph_note_shown (st : State) : bool :=
  results_shown st && truthy (useParagraphs st).

(** *** The application over time *)

Inductive event :=
| Show (type : string) (message : text)   (* a handler calls showNotification *)
| Dismiss
| Elapse (delay : Z).

Definition step (ev : event) (w : World) : option World :=
  match ev with
  | Show type message => Some (showNotification type message w)
  | Dismiss =>
      match notification (app w) with
      | Some _ => Some (dismissNotification w)
      | None => None
      end
  | Elapse delay => if 0 <=? delay then Some (elapse delay w) else None
  end.

Fixpoint run (evs : list event) (w : World) : option World :=
  match evs with
  | [] => Some w
  | ev :: evs' => w' ← step ev w; run evs' w'
  end.

End AppShell.

(** * Properties *)

(** ** Integers as binary64 numbers *)

Module Num64Facts.

Lemma digits2_bounds (m : positive) :
  2 ^ (Z.pos (digits2_pos m) - 1) <= Z.pos m < 2 ^ Z.pos (digits2_pos m).
Proof.
  induction m as [m IH|m IH|]; cbn [digits2_pos].
  - rewrite Pos2Z.inj_succ. change (Z.pos m~1) with (2 * Z.pos m + 1).
    replace (Z.succ (Z.pos (digits2_pos m)) - 1) with (Z.succ (Z.pos (digits2_pos m) - 1)) by lia.
    rewrite !Z.pow_succ_r by lia.
    set (a := 2 ^ (Z.pos (digits2_pos m) - 1)) in *. set (b := 2 ^ Z.pos (digits2_pos m)) in *.
    clearbody a b. lia.
  - rewrite Pos2Z.inj_succ. change (Z.pos m~0) with (2 * Z.pos m).
    replace (Z.succ (Z.pos (digits2_pos m)) - 1) with (Z.succ (Z.pos (digits2_pos m) - 1)) by lia.
    rewrite !Z.pow_succ_r by lia.
    set (a := 2 ^ (Z.pos (digits2_pos m) - 1)) in *. set (b := 2 ^ Z.pos (digits2_pos m)) in *.
    clearbody a b. lia.
  - cbn. lia.
Qed.






Lemma integer_to_string_small (n : Z) :
  Z.abs n <= 2 ^ 53 -> Num64.integer_to_string n = pretty n.
Proof.
  intros Hn. unfold Num64.integer_to_string.
  replace (Z.abs n <=? 2 ^ 53) with true by (symmetry; apply Z.leb_le; exact Hn).
  reflexivity.
Qed.

(** Beyond [2^53]: the digits of the shortest decimal, and an exponent
    from 10^21 on. *)
Example integer_to_string_examples :
  Num64.integer_to_string 9007199254740993 = "9007199254740992"
  /\ Num64.integer_to_string 18446744073709551616 = "18446744073709552000"
  /\ Num64.integer_to_string (10 ^ 21) = "1e+21"
  /\ Num64.integer_to_string (- 2 ^ 70) = "-1.1805916207174113e+21"
  /\ Num64.toFixed2 (Num64.of_Z (10 ^ 21)) = "1e+21"
  /\ Num64.toFixed2 (Num64.div (Num64.of_Z 42) Num64.thousand) = "0.04".
Proof. repeat split; vm_compute; reflexivity. Qed.

End Num64Facts.

(** ** formatAuthors *)

Module AuthorsFacts.

Lemma formatAuthors_copies_agree (authors : option (list string)) :
  ResultListPlain.formatAuthors authors = ResultList.formatAuthors authors
  ∧ PaperList.formatAuthors authors = ResultList.formatAuthors authors.
Proof. split; reflexivity. Qed.

Lemma formatAuthors_by_shape (a b c : string) (rest : list string) :
  ResultList.formatAuthors None = "Unknown Authors"
  ∧ ResultList.formatAuthors (Some []) = "Unknown Authors"
  ∧ ResultList.formatAuthors (Some [a]) = a
  ∧ ResultList.formatAuthors (Some [a; b]) = a +:+ " and " +:+ b
  ∧ ResultList.formatAuthors (Some (a :: b :: c :: rest)) = a +:+ " et al.".
Proof. repeat split; reflexivity. Qed.

(** C8.  [formatAuthors] is a total function of its argument, the same in
    its three copies: it gives 'Unknown Authors' for a missing ([null] or
    [undefined]) or empty list, the sole name for a list of one, the two
    names joined by ' and ' for a list of two, the first name followed by
    ' et al.' for three or more; and two lists of the same length with
    the same first two elements get the same text. *)
Theorem formatAuthors_total_by_length_and_first_two :
  ∀ authors : option (list string),
    (ResultListPlain.formatAuthors authors = ResultList.formatAuthors authors
     ∧ PaperList.formatAuthors authors = ResultList.formatAuthors authors)
    ∧ ResultList.formatAuthors authors =
        match authors with
        | None | Some [] => "Unknown Authors"
        | Some [a] => a
        | Some [a; b] => a +:+ " and " +:+ b
        | Some (a :: _ :: _ :: _) => a +:+ " et al."
        end
    ∧ ∀ l l' : list string,
        authors = Some l → length l = length l' → take 2 l = take 2 l' →
        ResultList.formatAuthors (Some l') = ResultList.formatAuthors (Some l).
Proof.
  intros authors. split; [apply formatAuthors_copies_agree|]. split.
  - destruct authors as [[|a [|b [|c rest]]]|]; reflexivity.
  - intros l l' _ Hlen Htake.
    destruct l as [|a [|b [|c rest]]], l' as [|a' [|b' [|c' rest']]];
      simplify_eq/=; reflexivity.
Qed.

End AuthorsFacts.

Lemma formatAuthors_witness :
  ResultList.formatAuthors (Some ["Ada"; "Bob"; "Cyd"; "Eve"])
  = ResultList.formatAuthors (Some ["Ada"; "Bob"; "Dan"; "Flo"]).
Proof.
  apply (proj2 (proj2 (AuthorsFacts.formatAuthors_total_by_length_and_first_two
                         (Some ["Ada"; "Bob"; "Dan"; "Flo"]))));
    reflexivity.
Defined.

(** ** The search form *)

Module SearchFormFacts.
Import JS SearchForm.

Lemma truthy_str_spec (s : string) : truthy_str s = true ↔ s ≠ EmptyString.
Proof.
  unfold truthy_str. destruct (String.eqb_spec s EmptyString); simpl; split; congruence.
Qed.

Lemma filter_ne_absent (a : string) (l : list string) :
  a ∉ l → filter (fun x => x ≠ a) l = l.
Proof.
  induction l as [|x l IH]; intros Hnot; [reflexivity|].
  apply not_elem_of_cons in Hnot as [Hne Hnot].
  rewrite filter_cons_True by congruence. f_equal. auto.
Qed.

Lemma filter_ne_snoc (a : string) (l : list string) :
  a ∉ l → filter (fun x => x ≠ a) (l ++ [a]) = l.
Proof.
  intros Hnot. rewrite filter_app, filter_ne_absent by assumption.
  rewrite filter_cons_False by (intros H; apply H; reflexivity).
  rewrite filter_nil. apply app_nil_r.
Qed.

Lemma addAuthorFilter_cases (filters : Filters) (a : string) :
  ((a = EmptyString ∨ a ∈ authors filters) ∧ addAuthorFilter filters a = None)
  ∨ (a ≠ EmptyString ∧ (a ∉ authors filters)
     ∧ addAuthorFilter filters a
       = Some (fun prev => with_authors (authors prev ++ [a]) prev)).
Proof.
  unfold addAuthorFilter.
  destruct (truthy_str a) eqn:Ht; simpl.
  - apply truthy_str_spec in Ht.
    case_bool_decide; simpl; [left|right]; auto.
  - left. split; [|reflexivity]. left.
    destruct (String.eqb_spec a EmptyString) as [|Hne]; [assumption|].
    apply truthy_str_spec in Hne. congruence.
Qed.

Lemma addKeywordFilter_cases (filters : Filters) (k : string) :
  ((k = EmptyString ∨ k ∈ keywords filters) ∧ addKeywordFilter filters k = None)
  ∨ (k ≠ EmptyString ∧ (k ∉ keywords filters)
     ∧ addKeywordFilter filters k
       = Some (fun prev => with_keywords (keywords prev ++ [k]) prev)).
Proof.
  unfold addKeywordFilter.
  destruct (truthy_str k) eqn:Ht; simpl.
  - apply truthy_str_spec in Ht.
    case_bool_decide; simpl; [left|right]; auto.
  - left. split; [|reflexivity]. left.
    destruct (String.eqb_spec k EmptyString) as [|Hne]; [assumption|].
    apply truthy_str_spec in Hne. congruence.
Qed.

(** Every handler keeps the two lists free of duplicates. *)
Definition duplicate_free (st : State) : Prop :=
  NoDup (authors (filters st)) ∧ NoDup (keywords (filters st)).

Lemma handle_duplicate_free (ev : event) (st : State) :
  duplicate_free st → duplicate_free (handle ev st).
Proof.
  intros [Ha Hk]. unfold duplicate_free.
  destruct ev as [v| | |name v|a|a|k|k]; simpl; try (split; assumption).
  - split; apply NoDup_nil_2.
  - destruct name; simpl; split; assumption.
  - destruct (addAuthorFilter_cases (filters st) a) as [[_ ->]|(_ & Hnot & ->)];
      simpl; split; try assumption.
    apply NoDup_app. split; [assumption|]. split.
    + intros x Hx Hx'. apply list_elem_of_singleton in Hx'. subst. auto.
    + apply NoDup_singleton.
  - split; [apply NoDup_filter|]; assumption.
  - destruct (addKeywordFilter_cases (filters st) k) as [[_ ->]|(_ & Hnot & ->)];
      simpl; split; try assumption.
    apply NoDup_app. split; [assumption|]. split.
    + intros x Hx Hx'. apply list_elem_of_singleton in Hx'. subst. auto.
    + apply NoDup_singleton.
  - split; [|apply NoDup_filter]; assumption.
Qed.

Lemma run_duplicate_free (evs : list event) (st : State) :
  duplicate_free st → duplicate_free (run evs st).
Proof.
  revert st. induction evs as [|ev evs IH]; intros st H; [assumption|].
  apply IH, handle_duplicate_free, H.
Qed.

Lemma state_eta (st : State) :
  {| query := query st; showFilters := showFilters st;
     filters := {| year_min := year_min (filters st); year_max := year_max (filters st);
                   authors := authors (filters st); keywords := keywords (filters st);
                   conference := conference (filters st);
                   journal := journal (filters st) |} |} = st.
Proof. destruct st as [q s []]; reflexivity. Qed.

(** C9.  Adding an author (a keyword) leaves the form state unchanged
    when the text is empty or already in the list; otherwise the new
    state has the old list of authors (of keywords) with the text
    appended once at its end, and every other part of the state as it
    was.  Adding is idempotent; in every state the form reaches from its
    initial state the two lists have no duplicates; and removing a name
    just added, to a state that did not contain it, gives the state
    back. *)
Theorem add_filter_idempotent_duplicate_free :
  (∀ st a,
      ((a = EmptyString ∨ a ∈ authors (filters st)) → handle (AddAuthor a) st = st)
      ∧ (a ≠ EmptyString → a ∉ authors (filters st) →
         handle (AddAuthor a) st
         = {| query := query st; showFilters := showFilters st;
              filters := {| year_min := year_min (filters st);
                            year_max := year_max (filters st);
                            authors := authors (filters st) ++ [a];
                            keywords := keywords (filters st);
                            conference := conference (filters st);
                            journal := journal (filters st) |} |})
      ∧ handle (AddAuthor a) (handle (AddAuthor a) st) = handle (AddAuthor a) st
      ∧ (a ∉ authors (filters st) →
         handle (RemoveAuthor a) (handle (AddAuthor a) st) = st))
  ∧ (∀ st k,
      ((k = EmptyString ∨ k ∈ keywords (filters st)) → handle (AddKeyword k) st = st)
      ∧ (k ≠ EmptyString → k ∉ keywords (filters st) →
         handle (AddKeyword k) st
         = {| query := query st; showFilters := showFilters st;
              filters := {| year_min := year_min (filters st);
                            year_max := year_max (filters st);
                            authors := authors (filters st);
                            keywords := keywords (filters st) ++ [k];
                            conference := conference (filters st);
                            journal := journal (filters st) |} |})
      ∧ handle (AddKeyword k) (handle (AddKeyword k) st) = handle (AddKeyword k) st
      ∧ (k ∉ keywords (filters st) →
         handle (RemoveKeyword k) (handle (AddKeyword k) st) = st))
  ∧ (∀ evs, NoDup (authors (filters (run evs initial)))
            ∧ NoDup (keywords (filters (run evs initial)))).
Proof.
  split; [|split].
  - intros st a. repeat split.
    + intros H. simpl.
      destruct (addAuthorFilter_cases (filters st) a) as [[_ ->]|(Hne & Hnot & _)];
        [reflexivity|]. destruct H; contradiction.
    + intros Hne Hnot. simpl.
      destruct (addAuthorFilter_cases (filters st) a) as [[[?|?] _]|(_ & _ & ->)];
        try contradiction. reflexivity.
    + simpl.
      destruct (addAuthorFilter_cases (filters st) a) as [[H E]|(Hne & Hnot & E)];
        rewrite E; [rewrite E; reflexivity|].
      simpl.
      destruct (addAuthorFilter_cases
                  (with_authors (authors (filters st) ++ [a]) (filters st)) a)
        as [[_ ->]|(_ & Hnot' & _)]; [reflexivity|].
      exfalso. apply Hnot'. simpl. apply elem_of_app. right. apply list_elem_of_singleton.
      reflexivity.
    + intros Hnot. simpl.
      destruct (addAuthorFilter_cases (filters st) a) as [[_ ->]|(_ & _ & ->)]; simpl.
      * unfold setFilters, removeAuthorFilter, with_authors; simpl.
        rewrite filter_ne_absent by assumption. apply state_eta.
      * unfold setFilters, removeAuthorFilter, with_authors; simpl.
        rewrite filter_ne_snoc by assumption. apply state_eta.
  - intros st k. repeat split.
    + intros H. simpl.
      destruct (addKeywordFilter_cases (filters st) k) as [[_ ->]|(Hne & Hnot & _)];
        [reflexivity|]. destruct H; contradiction.
    + intros Hne Hnot. simpl.
      destruct (addKeywordFilter_cases (filters st) k) as [[[?|?] _]|(_ & _ & ->)];
        try contradiction. reflexivity.
    + simpl.
      destruct (addKeywordFilter_cases (filters st) k) as [[H E]|(Hne & Hnot & E)];
        rewrite E; [rewrite E; reflexivity|].
      simpl.
      destruct (addKeywordFilter_cases
                  (with_keywords (keywords (filters st) ++ [k]) (filters st)) k)
        as [[_ ->]|(_ & Hnot' & _)]; [reflexivity|].
      exfalso. apply Hnot'. simpl. apply elem_of_app. right. apply list_elem_of_singleton.
      reflexivity.
    + intros Hnot. simpl.
      destruct (addKeywordFilter_cases (filters st) k) as [[_ ->]|(_ & _ & ->)]; simpl.
      * unfold setFilters, removeKeywordFilter, with_keywords; simpl.
        rewrite filter_ne_absent by assumption. apply state_eta.
      * unfold setFilters, removeKeywordFilter, with_keywords; simpl.
        rewrite filter_ne_snoc by assumption. apply state_eta.
  - intros evs. apply (run_duplicate_free evs initial).
    split; apply NoDup_nil_2.
Qed.

End SearchFormFacts.

Lemma add_filter_witness :
  SearchForm.authors
    (SearchForm.filters (SearchForm.handle (SearchForm.AddAuthor "Knuth") SearchForm.initial))
  = ["Knuth"]
  ∧ SearchForm.handle (SearchForm.RemoveAuthor "Knuth")
      (SearchForm.handle (SearchForm.AddAuthor "Knuth") SearchForm.initial)
    = SearchForm.initial.
Proof.
  pose proof (proj1 SearchFormFacts.add_filter_idempotent_duplicate_free
                SearchForm.initial "Knuth") as (_ & Hadd & _ & Hremove).
  split.
  - rewrite Hadd; [reflexivity | discriminate | apply not_elem_of_nil].
  - apply Hremove. apply not_elem_of_nil.
Defined.

(** ** What a search submission transmits *)

Module SubmitFacts.
Import JS SearchForm.

(** The JSON of a year field, of a list field and of a text field. *)
Definition year_json (y : string) : json_value :=
  if String.eqb y EmptyString then JNull
  else match parseInt y with
       | Num z => JNum z
       | _ => JNull
       end.







(** *** A year typed in digits is sent as that number *)





Definition decimal_digit (c : ascii) : bool :=
  let n := Z.of_nat (nat_of_ascii c) in (48 <=? n) && (n <=? 57).







(** *** What a year text is sent as *)

(** The text of a list of decimal digits, and the integer they write. *)
Definition digits_text (ds : list N) : string :=
  foldr (fun d s => String (pretty_N_char d) s) EmptyString ds.

Definition digits_value (ds : list N) : Z :=
  foldl (fun acc d => 10 * acc + Z.of_N d) 0 ds.

(** What follows the leading digits of a text: nothing, or a character
    that is not a digit; after a single 0, not the [x] that makes a
    hexadecimal prefix of it either. *)
Definition ends_digits (ds : list N) (tail : string) : Prop :=
  tail = EmptyString
  ∨ ∃ c rest, tail = String c rest ∧ decimal_digit c = false
              ∧ (ds = [0%N] → c ≠ "x"%char ∧ c ≠ "X"%char).

(** The reading of a year text: what is sent for it. *)
Inductive year_reading : string -> json_value -> Prop :=
| year_empty : year_reading EmptyString JNull
| year_digits (ds : list N) (tail : string) :
    ds ≠ [] → Forall (fun d => (d < 10)%N) ds → ends_digits ds tail →
    digits_value ds <= 2 ^ 53 →
    year_reading (digits_text ds +:+ tail) (JNum (digits_value ds))
| year_minus_digits (ds : list N) (tail : string) :
    ds ≠ [] → Forall (fun d => (d < 10)%N) ds → ends_digits ds tail →
    digits_value ds <= 2 ^ 53 →
    year_reading ("-" +:+ digits_text ds +:+ tail) (JNum (- digits_value ds))
| year_plus_digits (ds : list N) (tail : string) :
    ds ≠ [] → Forall (fun d => (d < 10)%N) ds → ends_digits ds tail →
    digits_value ds <= 2 ^ 53 →
    year_reading ("+" +:+ digits_text ds +:+ tail) (JNum (digits_value ds))
| year_no_digit (c : ascii) (rest : string) :
    decimal_digit c = false → is_white_space c = false →
    c ≠ "+"%char → c ≠ "-"%char →
    year_reading (String c rest) JNull
| year_sign_no_digit (sign : ascii) (tail : string) :
    sign = "+"%char ∨ sign = "-"%char →
    (tail = EmptyString ∨ ∃ c rest, tail = String c rest ∧ decimal_digit c = false) →
    year_reading (String sign tail) JNull
| year_space (c : ascii) (y : string) (j : json_value) :
    is_white_space c = true → year_reading y j → year_reading (String c y) j.















(** The readings of some year texts. *)
Example year_readings :
  year_reading "2019" (JNum 2019)
  ∧ year_reading "2019.7" (JNum 2019)
  ∧ year_reading "1e3" (JNum 1)
  ∧ year_reading "007" (JNum 7)
  ∧ year_reading "-12.5" (JNum (-12))
  ∧ year_reading ".5" JNull
  ∧ year_reading "-.5" JNull.
Proof.
  split; [|split; [|split; [|split; [|split; [|split]]]]].
  - apply (year_digits [2; 0; 1; 9]%N EmptyString);
      [discriminate | repeat constructor | left; reflexivity | vm_compute; discriminate].
  - apply (year_digits [2; 0; 1; 9]%N ".7");
      [discriminate | repeat constructor | | vm_compute; discriminate].
    right. exists "."%char, "7". repeat split; discriminate.
  - apply (year_digits [1]%N "e3");
      [discriminate | repeat constructor | | vm_compute; discriminate].
    right. exists "e"%char, "3". repeat split; discriminate.
  - apply (year_digits [0; 0; 7]%N EmptyString);
      [discriminate | repeat constructor | left; reflexivity | vm_compute; discriminate].
  - apply (year_minus_digits [1; 2]%N ".5");
      [discriminate | repeat constructor | | vm_compute; discriminate].
    right. exists "."%char, "5". repeat split; discriminate.
  - apply year_no_digit; [reflexivity | reflexivity | discriminate | discriminate].
  - apply (year_sign_no_digit "-"%char ".5"); [right; reflexivity|].
    right. exists "."%char, "5". split; reflexivity.
Qed.



(** Beyond [2^53] the digits are read as the nearest number, and as an
    infinity when they are too many. *)
Example parseInt_rounds :
  parseInt "9007199254740993" = Num 9007199254740992
  ∧ parseInt "-9007199254740995" = Num (-9007199254740996)
  ∧ parseInt "0x1F" = Num 31
  ∧ parseInt "  42abc" = Num 42
  ∧ parseInt "1e3" = Num 1.
Proof. repeat split; vm_compute; reflexivity. Qed.

End SubmitFacts.

Definition demo_form : SearchForm.State :=
  SearchForm.run
    [ SearchForm.SetQuery "graph neural networks";
      SearchForm.FilterChange SearchForm.F_year_min "2019";
      SearchForm.AddAuthor "Hinton" ]
    SearchForm.initial.


(** ** The API client *)

Module ApiFacts.
Import JS Api.

Lemma assoc_props (k : string) (fields : list (string * value)) :
  NoDup (map fst fields) →
  assoc k
    ((fix props (l : list (string * value)) : list (string * json_value) :=
        match l with
        | [] => []
        | (k, x) :: l' =>
            match stringify x with
            | Some j => (k, j) :: props l'
            | None => props l'
            end
        end) fields)
  = assoc k fields ≫= stringify.
Proof.
  induction fields as [|[k' x] fields IH]; intros Hnd; [reflexivity|].
  cbn [map fst] in Hnd. apply NoDup_cons in Hnd as [Hfresh Hnd]. specialize (IH Hnd).
  cbn [assoc]. destruct (String.eqb_spec k k') as [->|Hne].
  - cbn [mbind option_bind].
    destruct (stringify x) as [j|] eqn:Hx.
    + cbn [assoc]. rewrite String.eqb_refl. reflexivity.
    + rewrite IH.
      destruct (assoc k' fields) as [y|] eqn:Hy; [|reflexivity].
      exfalso. apply Hfresh. clear -Hy.
      induction fields as [|[k'' z] fields IH]; [discriminate|]. cbn [assoc map fst] in *.
      destruct (String.eqb_spec k' k'') as [->|];
        [apply list_elem_of_here | apply list_elem_of_further; auto].
  - destruct (stringify x) as [j|]; [|exact IH].
    cbn [assoc]. destruct (String.eqb_spec k k'); [contradiction|exact IH].
Qed.

(** C2, as the code has it.  For every call of [api.search] on an object
    (no property name twice), the request is a POST to
    [API_BASE_URL/search] with a JSON content type; the paragraph flag
    travels in the URL, as the query string [?use_paragraphs=true],
    exactly when the [useParagraphs] property is truthy; and the JSON body
    has, for every name other than [useParagraphs], the property the
    caller passed ([query], [filters]) and nothing else: the client adds
    neither [use_paragraphs] nor a default [limit] or [offset]. *)
Theorem search_posts_caller_fields :
  ∀ (base : option string) (fields : list (string * value)),
    NoDup (map fst fields) →
    ∃ sent : list (string * json_value),
      search_request base (VObj fields)
      = Return {| url := API_BASE_URL base +:+ "/search"
                         +:+ (if truthy (default VUndefined (assoc "useParagraphs" fields))
                              then "?use_paragraphs=true" else EmptyString);
                  method := "POST";
                  headers := [("Content-Type", "application/json")];
                  body := Some (BodyJSON (Some (JObj sent))) |}
      ∧ ∀ k, k ≠ "useParagraphs" → assoc k sent = assoc k fields ≫= stringify.
Proof.
  intros base fields Hnd. eexists. split.
  - unfold search_request. simpl. reflexivity.
  - intros k _. apply assoc_props, Hnd.
Qed.

(** C2, as stated, fails: the request [api.search] builds for
    [{query: 'bert', filters: null, useParagraphs: true}], which is what
    [handleSearch] passes on for a paragraph search, has a body with no
    [use_paragraphs], no [limit] and no [offset] member; the flag is in
    the URL. *)
Lemma search_body_lacks_use_paragraphs_and_limit :
  ∃ r sent,
    (sent0 ← App.handleSearch_request
               (VObj [ ("query", VStr "bert"); ("filters", VNull);
                       ("useParagraphs", VBool true) ]);
     search_request None sent0) = Return r
    ∧ url r = "/api/search?use_paragraphs=true"
    ∧ body r = Some (BodyJSON (Some sent))
    ∧ json_member "query" sent = Some (JStr "bert")
    ∧ json_member "use_paragraphs" sent = None
    ∧ json_member "limit" sent = None
    ∧ json_member "offset" sent = None.
Proof. do 2 eexists. repeat split; reflexivity. Qed.

End ApiFacts.

Lemma search_posts_witness :
  ∃ sent : list (string * JS.json_value),
    Api.search_request None (JS.VObj [("query", JS.VStr "bert"); ("limit", JS.VNum (JS.Num 5))])
    = JS.Return {| Api.url := "/api/search"; Api.method := "POST";
                   Api.headers := [("Content-Type", "application/json")];
                   Api.body := Some (Api.BodyJSON (Some (JS.JObj sent))) |}
    ∧ ∀ k, k ≠ "useParagraphs" →
           JS.assoc k sent
           = JS.assoc k [("query", JS.VStr "bert"); ("limit", JS.VNum (JS.Num 5))]
               ≫= JS.stringify.
Proof.
  apply (ApiFacts.search_posts_caller_fields None
           [("query", JS.VStr "bert"); ("limit", JS.VNum (JS.Num 5))]).
  refine (bool_decide_unpack _ _). vm_compute. exact I.
Defined.

Module ResponseFacts.
Import JS Api.






Lemma includes_nil (needle : string) :
  needle ≠ EmptyString → includes needle EmptyString = false.
Proof. destruct needle; [contradiction|reflexivity]. Qed.



End ResponseFacts.



(** ** The index panel on the api object of services/api.js *)

Module PanelFacts.
Import JS IndexManagement.

(** C1, on the code.  The [api] object of services/api.js has six
    properties, none of them [getIndexStatus], [rebuildIndexes] or
    [rollbackIndex]; so each of the three calls the index panel makes
    throws a [TypeError] before any request is sent: on mount the panel
    reports an error and keeps no status, and confirming a rebuild or a
    rollback reports an error and sends nothing. *)
Theorem api_has_no_index_methods :
  ∀ (base : option string) (fetch : Api.Request -> outcome Api.Response),
    map fst (Api.api base fetch)
    = [ "search"; "getFilterOptions"; "uploadPaper"; "listAllPapers";
        "deletePaper"; "getPaperDownloadUrl" ]
    ∧ (∀ c, Panel.invoke base fetch c = Throw (TypeError_call ("api." +:+ api_name c)))
    ∧ Panel.mount base fetch
      = (initial,
         [onError "Error fetching index status: " (TypeError_call "api.getIndexStatus")])
    ∧ (∀ st, Panel.confirmRebuild base fetch st
             = (setShowRebuildConfirmation false
                  (setIsRebuildingIndex false (setIsRebuildingIndex true st)),
                [onError "Error rebuilding index: " (TypeError_call "api.rebuildIndexes")],
                []))
    ∧ (∀ st, Panel.confirmRollback base fetch st
             = (setShowRollbackConfirmation false
                  (setIsRollingBack false (setIsRollingBack true st)),
                [onError "Error rolling back index: " (TypeError_call "api.rollbackIndex")],
                [])).
Proof.
  intros base fetch. split; [reflexivity|]. split; [intros []; reflexivity|].
  repeat split; reflexivity.
Qed.

End PanelFacts.

(** ** The two result lists *)

Module ResultListFacts.
Import JS Dom SearchResult ResultList.

Lemma traverse_pure {A B} (f : A -> outcome B) (g : A -> B) (l : list A) :
  (∀ x, f x = Return (g x)) → traverse f l = Return (map g l).
Proof.
  intros Hf. induction l as [|x l IH]; [reflexivity|].
  cbn [traverse map]. rewrite Hf, IH. reflexivity.
Qed.

Lemma traverse_fmap {A B C} (h : A -> B) (f : B -> outcome C) (l : list A) :
  traverse f (h <$> l) = traverse (fun x => f (h x)) l.
Proof.
  induction l as [|x l IH]; [reflexivity|].
  cbn [fmap list_fmap traverse]. fold (h <$> l). rewrite IH. reflexivity.
Qed.

Section Engine.
Variable regexp_split : string -> string -> outcome (list (option string)).

Lemma matching_block_off (query : string) (st : State) (result : Result) :
  matching_block regexp_split false query st result = Return [].
Proof. unfold matching_block. destruct (matching_paragraphs result); reflexivity. Qed.

Lemma context_block_off (st : State) (result : Result) :
  context_block false st result = [].
Proof. unfold context_block. destruct (matching_paragraphs result); reflexivity. Qed.

Lemma card_off (query : string) (st : State) (result : Result) :
  card regexp_split false query st result
  = Return (ResultListPlain.card (expandedId st) result).
Proof.
  unfold card, ResultListPlain.card.
  rewrite matching_block_off, context_block_off.
  destruct (bool_decide (expandedId st = Some (paper_id result))); [|reflexivity].
  destruct (abstract result) as [a|]; [|reflexivity].
  cbn. destruct (String.eqb a EmptyString); reflexivity.
Qed.

(** C10.  Without paragraph search, the two versions of the component
    are the same: whenever the [useParagraphs] prop is absent or false,
    the extended [ResultList] renders, in every state, the tree the plain
    [ResultList] renders for the same props and the same expanded result
    (the empty-results message, the count header, and for each result the
    same card and the same expanded abstract, keywords and download link),
    without calling the highlighter; and clicking a card changes the expanded
    result in the same way in both. *)
Theorem result_lists_agree_without_paragraphs :
  ∀ (props : Props) (st : State),
    (useParagraphs props = None ∨ useParagraphs props = Some false) →
    ResultList regexp_split props st
    = Return (ResultListPlain.ResultList props (expandedId st))
    ∧ (∀ id, expandedId (toggleExpanded id st)
             = ResultListPlain.toggleExpanded id (expandedId st))
    ∧ (∀ score, formatScore score = ResultListPlain.formatScore score)
    ∧ (∀ authors, formatAuthors authors = ResultListPlain.formatAuthors authors).
Proof.
  intros props st Hoff. split; [|repeat split].
  unfold ResultList, ResultListPlain.ResultList.
  replace (default false (useParagraphs props)) with false
    by (destruct Hoff as [-> | ->]; reflexivity).
  destruct (length (results props) =? 0)%nat; [reflexivity|].
  rewrite (traverse_pure _ (ResultListPlain.card (expandedId st))) by apply card_off.
  reflexivity.
Qed.

End Engine.

End ResultListFacts.

(** ** The matching-paragraphs block *)

Module ParagraphFacts.
Import JS Dom SearchResult ResultList.

(** The entries of the matching-paragraphs list, and the show-more
    control, as they are found in a rendered tree. *)
Definition is_paragraph_hit : node -> bool :=
  has_class "div" "bg-white p-3 border border-blue-100 rounded-md".

Definition is_more_button : node -> bool := has_tag "button".

(** What the highlighter returns: text, or spans of text. *)
Definition inline (n : node) : Prop :=
  match n with
  | Text _ => True
  | Element tag _ _ _ [Text _] => tag = "span"
  | Element _ _ _ _ _ => False
  end.

Lemma select_inline (p : node -> bool) (nodes : list node) :
  (∀ s, p (Text s) = false) →
  (∀ c a o ch, p (Element "span" c a o ch) = false) →
  Forall inline nodes → select_all p nodes = [].
Proof.
  intros Htext Hspan Hall. unfold select_all.
  induction Hall as [|n nodes Hn _ IH]; [reflexivity|].
  cbn [map concat]. rewrite IH, app_nil_r.
  destruct n as [s|tag c a o [|[s|] [|]]]; cbn in Hn; try contradiction.
  - cbn. rewrite Htext. reflexivity.
  - subst tag. cbn. rewrite Hspan, Htext. reflexivity.
Qed.

Lemma select_spans (p : node -> bool) (c : string) (l : list string) :
  (∀ s, p (Text s) = false) →
  (∀ c a o ch, p (Element "span" c a o ch) = false) →
  concat (map (select p) (map (fun k => Element "span" c [] None [Text k]) l)) = [].
Proof.
  intros Htext Hspan. apply (select_inline p); [assumption..|].
  apply Forall_forall. intros n Hn. apply list_elem_of_fmap in Hn as (k & -> & _).
  reflexivity.
Qed.

(** The span the highlighter makes of a piece of text. *)
Definition span_of (queryTerms : list string) (part : string) : node :=
  if existsb (fun term => String.eqb (toLowerCase part) (toLowerCase term)) queryTerms
  then Element "span" "bg-yellow-200" [] None [Text part]
  else Element "span" EmptyString [] None [Text part].

(** The error of [part.toLowerCase()] on a piece that is [undefined]. *)
Definition undefined_piece : exn := TypeError_read VUndefined "toLowerCase".

Lemma spans_of_pieces (queryTerms : list string) (parts : list string) :
  traverse (fun part : option string =>
              match part with
              | None => Throw undefined_piece
              | Some part => Return (span_of queryTerms part)
              end) (Some <$> parts)
  = Return (span_of queryTerms <$> parts).
Proof.
  rewrite ResultListFacts.traverse_fmap.
  apply (ResultListFacts.traverse_pure _ (span_of queryTerms)). reflexivity.
Qed.

Lemma spans_returned (queryTerms : list string) (pieces : list (option string))
    (nodes : list node) :
  traverse (fun part : option string =>
              match part with
              | None => Throw undefined_piece
              | Some part => Return (span_of queryTerms part)
              end) pieces
  = Return nodes →
  ∃ parts, pieces = Some <$> parts ∧ nodes = span_of queryTerms <$> parts.
Proof.
  revert nodes. induction pieces as [|[part|] pieces IH]; intros nodes Hnodes.
  - injection Hnodes as <-. exists []. split; reflexivity.
  - cbn [traverse] in Hnodes.
    destruct (traverse _ pieces) as [spans|e] eqn:Hspans; [|discriminate].
    injection Hnodes as <-.
    destruct (IH spans eq_refl) as (parts & -> & ->).
    exists (part :: parts). split; reflexivity.
  - discriminate.
Qed.


Section Engine.
Variable regexp_split : string -> string -> outcome (list (option string)).
Variable query : string.
(** The query terms make a regular expression, and splitting a text by
    it gives pieces of text only. *)
Hypothesis pattern_splits :
  ∀ text, ∃ parts,
    regexp_split (pattern_of (queryTerms_of query)) text = Return (Some <$> parts).

Lemma highlightText_inline (text : string) :
  ∃ nodes, highlightText regexp_split text query = Return nodes ∧ Forall inline nodes.
Proof.
  unfold highlightText.
  destruct (negb (truthy_str query) || negb (truthy_str text)).
  { eexists. split; [reflexivity|]. repeat constructor. }
  destruct (length (queryTerms_of query) =? 0)%nat.
  { eexists. split; [reflexivity|]. repeat constructor. }
  destruct (pattern_splits text) as [parts ->]. cbn [mbind outcome_bind].
  exists (span_of (queryTerms_of query) <$> parts).
  split; [apply spans_of_pieces|].
  apply Forall_forall. intros n Hn. apply list_elem_of_fmap in Hn as (part & -> & _).
  unfold span_of. destruct (existsb _ _); reflexivity.
Qed.

Lemma paragraph_hit_selected (paragraph : Paragraph) :
  ∃ hit, paragraph_hit regexp_split query paragraph = Return hit
         ∧ select is_paragraph_hit hit = [hit]
         ∧ select is_more_button hit = [].
Proof.
  unfold paragraph_hit.
  destruct (highlightText_inline (text paragraph)) as (nodes & -> & Hinline). cbn.
  eexists. split; [reflexivity|]. split.
  - cbn. fold (select_all is_paragraph_hit nodes).
    rewrite (select_inline is_paragraph_hit) by (assumption || reflexivity).
    reflexivity.
  - cbn. fold (select_all is_more_button nodes).
    rewrite (select_inline is_more_button) by (assumption || reflexivity).
    reflexivity.
Qed.

Lemma paragraph_hits_selected (paragraphs : list Paragraph) :
  ∃ hits, traverse (paragraph_hit regexp_split query) paragraphs = Return hits
          ∧ length hits = length paragraphs
          ∧ select_all is_paragraph_hit hits = hits
          ∧ select_all is_more_button hits = [].
Proof.
  induction paragraphs as [|p l (hits & IH & Hlen & Hsel & Hbut)].
  { exists []. repeat split. }
  destruct (paragraph_hit_selected p) as (hit & Hhit & Hs & Hb).
  exists (hit :: hits). cbn [traverse]. rewrite Hhit, IH. cbn.
  split; [reflexivity|]. split; [congruence|].
  unfold select_all in *. cbn [map concat]. rewrite Hs, Hb, Hsel, Hbut.
  split; reflexivity.
Qed.

Lemma abstract_selected (p : node -> bool) (result : Result) :
  (∀ s, p (Text s) = false) →
  (∀ c a o ch, p (Element "span" c a o ch) = false) →
  (∀ c a o ch, p (Element "h4" c a o ch) = false) →
  (∀ c a o ch, p (Element "p" c a o ch) = false) →
  (∀ a o ch, p (Element "div" "mb-3" a o ch) = false) →
  ∃ block,
    match abstract result with
    | None => Return []
    | Some a =>
        if String.eqb a EmptyString then Return [Text a]
        else
          shown ← highlightText regexp_split a query;
          Return
            [ Element "div" "mb-3" [] None
                [ Element "h4" "text-sm font-semibold text-gray-700 mb-1" [] None
                    [Text "Abstract"];
                  Element "p" "text-sm text-gray-600" [] None shown ] ]
    end = Return block
    ∧ select_all p block = [].
Proof.
  intros Htext Hspan Hh4 Hp Hdiv.
  destruct (abstract result) as [a|]; [|exists []; split; reflexivity].
  destruct (String.eqb a EmptyString).
  { eexists. split; [reflexivity|]. cbn. rewrite Htext. reflexivity. }
  destruct (highlightText_inline a) as (nodes & -> & Hinline). cbn.
  eexists. split; [reflexivity|].
  cbn. rewrite Hdiv, Hh4, Hp, Htext. cbn.
  fold (select_all p nodes). rewrite (select_inline p) by assumption. reflexivity.
Qed.

Lemma keywords_selected (p : node -> bool) (result : Result) :
  (∀ s, p (Text s) = false) →
  (∀ c a o ch, p (Element "span" c a o ch) = false) →
  (∀ c a o ch, p (Element "h4" c a o ch) = false) →
  (∀ a o ch, p (Element "div" "mb-3" a o ch) = false) →
  (∀ a o ch, p (Element "div" "flex flex-wrap gap-1" a o ch) = false) →
  select_all p
    match keywords result with
    | None => []
    | Some ks =>
        when (0 <? length ks)%nat
          [ Element "div" "mb-3" [] None
              [ Element "h4" "text-sm font-semibold text-gray-700 mb-1" [] None
                  [Text "Keywords"];
                Element "div" "flex flex-wrap gap-1" [] None
                  (map (fun keyword =>
                          Element "span"
                            "bg-green-100 text-green-800 text-xs px-2 py-1 rounded-full"
                            [] None [Text keyword]) ks) ] ]
    end = [].
Proof.
  intros Htext Hspan Hh4 Hdiv Hflex.
  destruct (keywords result) as [ks|]; [|reflexivity].
  destruct (0 <? length ks)%nat; [|reflexivity].
  cbn. rewrite Hdiv, Hh4, Hflex, Htext. cbn.
  rewrite (select_spans p) by assumption. reflexivity.
Qed.

Lemma select_all_app (p : node -> bool) (l1 l2 : list node) :
  select_all p (l1 ++ l2) = select_all p l1 ++ select_all p l2.
Proof. unfold select_all. rewrite map_app, concat_app. reflexivity. Qed.

Lemma select_element (p : node -> bool) tag c a o ch :
  select p (Element tag c a o ch)
  = (if p (Element tag c a o ch) then [Element tag c a o ch] else []) ++ select_all p ch.
Proof. reflexivity. Qed.

Lemma header_line_selected (p : node -> bool) (result : Result) :
  (∀ s, p (Text s) = false) →
  select_all p
    (when_num (publication_year result) (fun y => [Text (" • " +:+ pretty y)])
     ++ when_str (conference result) (fun c => [Text (" • " +:+ c)])
     ++ when_str (journal result) (fun j => [Text (" • " +:+ j)])) = [].
Proof.
  intros Htext. unfold when_num, when_str.
  destruct (publication_year result) as [y|]; [destruct (y =? 0)|];
    (destruct (conference result) as [c|]; [destruct (String.eqb c EmptyString)|]);
    (destruct (journal result) as [j|]; [destruct (String.eqb j EmptyString)|]);
    cbn; rewrite ?Htext; reflexivity.
Qed.



End Engine.

Section Rejected.
Variable regexp_split : string -> string -> outcome (list (option string)).
Variable query : string.
Variable err : exn.
(** The query has terms, and they do not make a regular expression. *)
Hypothesis has_terms : queryTerms_of query ≠ [].
Hypothesis pattern_rejected :
  ∀ text, regexp_split (pattern_of (queryTerms_of query)) text = Throw err.





End Rejected.

Section Undefined.
Variable regexp_split : string -> string -> outcome (list (option string)).
Variable query : string.
(** The query has terms, they make a regular expression, and splitting
    [text] by it gives a piece that is [undefined]. *)
Hypothesis has_terms : queryTerms_of query ≠ [].



End Undefined.


End ParagraphFacts.

(** ** The rollback button and the backup *)

Module GatingFacts.
Import JS IndexManagement IndexService.

(** A backup is never kept without a live snapshot. *)
Definition well_formed (s : Server) : Prop :=
  is_Some (backup s) → is_Some (live s).





(** What a packet in flight says about the server. *)
Definition packet_ok (s : Server) (p : packet) : Prop :=
  match p with
  | Request rollbackIndex => is_Some (backup s)
  | Response _ (StatusReply st) => has_backup st = true → is_Some (backup s)
  | _ => True
  end.

Record invariant (sys : System) : Prop := {
  inv_server : well_formed (server sys);
  inv_status : ∀ st, indexStatus (panel sys) = Some st → has_backup st = true →
                     is_Some (backup (server sys));
  inv_dialog : showRollbackConfirmation (panel sys) = true → is_Some (backup (server sys));
  inv_wire : Forall (packet_ok (server sys)) (wire sys);
  inv_refusals : ∀ c, (c, NoBackupError) ∉ refusals sys;
}.











(** Scenario C of the spec, on the model of the server: a rollback with
    no backup is refused. *)
Lemma rollback_without_backup_refused (l : option Snapshot) :
  serve rollbackIndex Failed {| live := l; backup := None |}
  = ({| live := l; backup := None |}, Refused NoBackupError).
Proof. reflexivity. Qed.


End GatingFacts.




(** A result with three matching paragraphs, its card open. *)
Definition demo_paragraph (i : Z) (t : string) : SearchResult.Paragraph :=
  {| SearchResult.section := Some "Method"; SearchResult.paragraph_index := i;
     SearchResult.text := t; SearchResult.score := Num64.one;
     SearchResult.context := None |}.

Definition demo_result : SearchResult.Result :=
  {| SearchResult.paper_id := "p1"; SearchResult.title := "Attention";
     SearchResult.authors := Some ["Vaswani"; "Shazeer"; "Parmar"];
     SearchResult.publication_year := Some 2017;
     SearchResult.conference := Some "NeurIPS"; SearchResult.journal := None;
     SearchResult.abstract := Some "We propose the Transformer.";
     SearchResult.keywords := Some ["attention"];
     SearchResult.similarity_score := Num64.one;
     SearchResult.matching_paragraphs :=
       Some [ demo_paragraph 0 "alpha"; demo_paragraph 4 "beta";
              demo_paragraph 7 "gamma" ] |}.

Definition demo_state : ResultList.State :=
  {| ResultList.expandedId := Some "p1"; ResultList.expandedParagraphs := ∅ |}.

(** An engine on texts that hold none of the query terms: [split] gives
    the text back whole. *)
Definition no_match (pattern text : string) : JS.outcome (list (option string)) :=
  JS.Return [Some text].





(** With a query whose terms are plain words the same card shows two of
    its three paragraphs and the button. *)
Example collapsed_card_plain_query :
  ∃ tree,
    ResultList.card no_match true "sparse mixture" demo_state demo_result = JS.Return tree
    ∧ length (Dom.select ParagraphFacts.is_paragraph_hit tree) = 2%nat
    ∧ Dom.textContent <$> Dom.select ParagraphFacts.is_more_button tree
      = ["Show 1 more matching paragraphs"].
Proof. eexists. repeat split; vm_compute; reflexivity. Qed.

Definition demo_props : SearchResult.Props :=
  {| SearchResult.results := [demo_result]; SearchResult.totalCount := 1;
     SearchResult.query := "sparse mixture";
     SearchResult.executionTime := Num64.of_Z 42;
     SearchResult.useParagraphs := None |}.

Lemma result_lists_agree_witness :
  ResultList.ResultList no_match demo_props demo_state
  = JS.Return (ResultListPlain.ResultList demo_props (Some "p1")).
Proof.
  apply (ResultListFacts.result_lists_agree_without_paragraphs no_match demo_props demo_state).
  left. reflexivity.
Defined.

(** ** The score shown as a percentage *)

Module ScoreFacts.
Import Num64Facts.

(** *** The mantissa and its number of digits *)

Lemma digits2_log2 (m : positive) : Z.pos (digits2_pos m) = Z.log2 (Z.pos m) + 1.
Proof.
  pose proof (digits2_bounds m) as [Hlo Hhi].
  symmetry. rewrite (Z.log2_unique (Z.pos m) (Z.pos (digits2_pos m) - 1)); [lia|lia|].
  split; [exact Hlo|]. replace (Z.succ (Z.pos (digits2_pos m) - 1)) with (Z.pos (digits2_pos m)) by lia.
  exact Hhi.
Qed.

Section Shift.
Variable M : Z.
Hypothesis M_nonneg : 0 <= M.

(** After [k] right shifts of [M]: the quotient, and where the remainder
    stands with respect to half of [2^k]. *)
Definition shifted (k : Z) (mrs : shr_record) : Prop :=
  0 <= shr_m mrs /\
  exists R, M = shr_m mrs * 2 ^ k + R /\ 0 <= R < 2 ^ k
            /\ shr_r mrs = (1 <=? k) && (2 ^ k <=? 2 * R)
            /\ shr_s mrs = negb (R =? 0) && negb (2 * R =? 2 ^ k).

Lemma shifted_0 : shifted 0 {| shr_m := M; shr_r := false; shr_s := false |}.
Proof. split; [exact M_nonneg|]. exists 0. cbn. lia. Qed.

Lemma shifted_step k mrs : 0 <= k -> shifted k mrs -> shifted (k + 1) (shr_1 mrs).
Proof.
  intros Hk [Hm (R & HM & HR & Hr & Hs)].
  assert (HP : 0 < 2 ^ k) by (apply Z.pow_pos_nonneg; lia).
  assert (HP1 : 2 ^ (k + 1) = 2 * 2 ^ k) by (rewrite Z.pow_add_r by lia; lia).
  destruct mrs as [m r s]. cbn [shr_m shr_r shr_s] in *.
  assert (Hrs : r || s = negb (R =? 0)).
  { rewrite Hr, Hs.
    destruct (Z.leb_spec 1 k), (Z.leb_spec (2 ^ k) (2 * R)), (Z.eqb_spec R 0),
      (Z.eqb_spec (2 * R) (2 ^ k)); cbn; try reflexivity; try lia.
    assert (k = 0) by lia. subst k. cbn in *. lia. }
  unfold shifted. rewrite HP1. 
  replace (1 <=? k + 1) with true by (symmetry; apply Z.leb_le; lia).
  clear Hr Hs. set (P := 2 ^ k) in *. clearbody P.
  destruct m as [|[p|p|]|p]; cbn [shr_1 shr_m shr_r shr_s]; try lia; rewrite Hrs.
  - split; [lia|]. exists R.
    destruct (Z.leb_spec (2 * P) (2 * R)), (Z.eqb_spec R 0), (Z.eqb_spec (2 * R) (2 * P));
      cbn [andb negb]; repeat split; try reflexivity; try lia.
  - split; [lia|]. exists (R + P). change (Z.pos p~1) with (2 * Z.pos p + 1) in HM.
    destruct (Z.leb_spec (2 * P) (2 * (R + P))), (Z.eqb_spec R 0), (Z.eqb_spec (R + P) 0),
      (Z.eqb_spec (2 * (R + P)) (2 * P)); cbn [andb negb]; repeat split; try reflexivity; try lia.
  - split; [lia|]. exists R. change (Z.pos p~0) with (2 * Z.pos p) in HM.
    destruct (Z.leb_spec (2 * P) (2 * R)), (Z.eqb_spec R 0), (Z.eqb_spec (2 * R) (2 * P));
      cbn [andb negb]; repeat split; try reflexivity; try lia.
  - split; [lia|]. exists (R + P).
    destruct (Z.leb_spec (2 * P) (2 * (R + P))), (Z.eqb_spec R 0), (Z.eqb_spec (R + P) 0),
      (Z.eqb_spec (2 * (R + P)) (2 * P)); cbn [andb negb]; repeat split; try reflexivity; try lia.
Qed.

Lemma iter_pos_shifted (n : positive) : forall k mrs,
  0 <= k -> shifted k mrs -> shifted (k + Z.pos n) (SpecFloat.iter_pos shr_1 n mrs).
Proof.
  induction n as [n IH|n IH|]; intros k mrs Hk H; cbn [SpecFloat.iter_pos].
  - replace (k + Z.pos n~1) with (k + 1 + Z.pos n + Z.pos n) by lia.
    apply IH; [lia|]. apply IH; [lia|]. apply shifted_step; assumption.
  - replace (k + Z.pos n~0) with (k + Z.pos n + Z.pos n) by lia.
    apply IH; [lia|]. apply IH; assumption.
  - apply shifted_step; assumption.
Qed.


Definition nearest_even (q R G : Z) : Z :=
  if 2 * R <? G then q
  else if G <? 2 * R then q + 1
  else if Z.even q then q else q + 1.

Lemma round_shifted (k : Z) (mrs : shr_record) :
  0 <= k -> shifted k mrs ->
  shr_m mrs = M / 2 ^ k
  /\ round_nearest_even (shr_m mrs) (loc_of_shr_record mrs)
     = nearest_even (M / 2 ^ k) (M mod 2 ^ k) (2 ^ k).
Proof.
  intros Hk [Hm (R & HM & HR & Hr & Hs)].
  assert (HP : 0 < 2 ^ k) by (apply Z.pow_pos_nonneg; lia).
  assert (Hq : M / 2 ^ k = shr_m mrs).
  { symmetry. apply (Z.div_unique_pos M (2 ^ k) (shr_m mrs) R); lia. }
  assert (Hrem : M mod 2 ^ k = R).
  { symmetry. apply (Z.mod_unique_pos M (2 ^ k) (shr_m mrs) R); lia. }
  rewrite Hq, Hrem. split; [reflexivity|].
  destruct mrs as [m r s]. cbn [shr_m shr_r shr_s loc_of_shr_record] in *.
  unfold nearest_even. subst r s.
  assert (Hk0 : k = 0 -> R = 0) by (intros ->; cbn in HR; lia).
  destruct (Z.leb_spec 1 k), (Z.leb_spec (2 ^ k) (2 * R)), (Z.eqb_spec R 0),
    (Z.eqb_spec (2 * R) (2 ^ k)), (Z.ltb_spec (2 * R) (2 ^ k)), (Z.ltb_spec (2 ^ k) (2 * R));
    cbn [andb negb round_nearest_even]; try reflexivity; try lia.
Qed.

End Shift.

(** Rounding a scaled value to 53 significant bits on a grid no finer
    than [2^46], ties to even. *)
Definition grid_exp (X : Z) : Z := Z.max (Z.log2 X + 1 - 53) 46.

Definition rne (X : Z) : Z :=
  let G := 2 ^ grid_exp X in
  nearest_even (X / G) (X mod G) G * G.

Lemma nearest_even_scale q R G K :
  0 < K -> nearest_even q (R * K) (G * K) = nearest_even q R G.
Proof.
  intros HK. unfold nearest_even.
  destruct (Z.ltb_spec (2 * (R * K)) (G * K)), (Z.ltb_spec (2 * R) G),
    (Z.ltb_spec (G * K) (2 * (R * K))), (Z.ltb_spec G (2 * R)); try reflexivity; nia.
Qed.

Lemma shr_shifted (M : Z) (E n : Z) :
  0 <= M -> 0 <= n ->
  exists mrs,
    shr {| shr_m := M; shr_r := false; shr_s := false |} E n = (mrs, E + n)
    /\ shifted M n mrs.
Proof.
  intros HM Hn. destruct n as [|p|p]; [| |lia].
  - eexists. split; [cbn; rewrite Z.add_0_r; reflexivity|]. apply shifted_0. assumption.
  - eexists. split; [reflexivity|].
    apply (iter_pos_shifted M HM p 0); [lia|]. apply shifted_0. assumption.
Qed.

Lemma nearest_even_range q R G :
  q <= nearest_even q R G <= q + 1.
Proof. unfold nearest_even. repeat destruct (_ <? _); try destruct (Z.even q); lia. Qed.

Lemma binary_round_aux_value (M : positive) (E : Z) :
  -1120 <= E -> 2 ^ 52 <= Z.pos M -> Z.pos M * 2 ^ (E + 1120) <= 2 ^ 1127 ->
  exists q e,
    binary_round_aux 53 1024 false (Z.pos M) E loc_Exact = S754_finite false q e
    /\ -1120 <= e
    /\ Z.pos q * 2 ^ (e + 1120) = rne (Z.pos M * 2 ^ (E + 1120)).
Proof.
  intros HE HM HX.
  set (d := Z.pos (digits2_pos M)).
  pose proof (digits2_bounds M) as [Hdlo Hdhi]. fold d in Hdlo, Hdhi.
  assert (Hd : 53 <= d).
  { destruct (Z.lt_ge_cases d 53) as [Hlt|]; [|assumption].
    assert (2 ^ d <= 2 ^ 52) by (apply Z.pow_le_mono_r; lia). lia. }
  set (e1 := Z.max (d + E - 53) (-1074)).
  set (n := e1 - E).
  assert (Hn : 0 <= n) by (unfold n, e1; lia).
  set (K := 2 ^ (E + 1120)).
  assert (HK : 0 < K) by (apply Z.pow_pos_nonneg; lia).
  set (P := 2 ^ n).
  assert (HP : 0 < P) by (apply Z.pow_pos_nonneg; lia).
  (* the grid of the exact value *)
  assert (Hlog : Z.log2 (Z.pos M * K) = Z.log2 (Z.pos M) + (E + 1120)).
  { unfold K. rewrite <- Z.shiftl_mul_pow2 by lia. apply Z.log2_shiftl; lia. }
  assert (Hgrid : grid_exp (Z.pos M * K) = e1 + 1120).
  { unfold grid_exp. rewrite Hlog. pose proof (digits2_log2 M). fold d in H. unfold e1. lia. }
  assert (HG : 2 ^ (e1 + 1120) = P * K).
  { unfold P, K, n. rewrite <- Z.pow_add_r by lia. f_equal. lia. }
  assert (Hrne : rne (Z.pos M * K)
                 = nearest_even (Z.pos M / P) (Z.pos M mod P) P * (P * K)).
  { unfold rne. rewrite Hgrid, HG. cbv zeta.
    rewrite Z.div_mul_cancel_r by lia. rewrite Z.mul_mod_distr_r by lia.
    rewrite nearest_even_scale by lia. reflexivity. }
  (* the first shift *)
  destruct (shr_shifted (Z.pos M) E n) as (mrs1 & Hshr1 & Hshifted); [lia|lia|].
  destruct (round_shifted (Z.pos M) n mrs1 Hn Hshifted) as [_ Hround].
  fold P in Hround.
  set (q1 := nearest_even (Z.pos M / P) (Z.pos M mod P) P) in *.
  pose proof (nearest_even_range (Z.pos M / P) (Z.pos M mod P) P) as Hrange. fold q1 in Hrange.
  assert (Hq_lo : 1 <= Z.pos M / P).
  { apply Z.div_le_lower_bound; [lia|].
    assert (P <= 2 ^ (d - 1)) by (apply Z.pow_le_mono_r; unfold n, e1; lia). lia. }
  assert (Hq_hi : Z.pos M / P < 2 ^ 53).
  { apply Z.div_lt_upper_bound; [lia|].
    assert (2 ^ d <= P * 2 ^ 53).
    { unfold P. rewrite <- Z.pow_add_r by lia. apply Z.pow_le_mono_r; unfold n, e1; lia. }
    lia. }
  assert (He1 : -1074 <= e1 <= -45).
  { split; [unfold e1; lia|].
    assert (Hlt : d + E + 1120 - 1 < 1128).
    { apply (Z.pow_lt_mono_r_iff 2); [lia|lia|].
      assert (2 ^ (d + E + 1120 - 1) = 2 ^ (d - 1) * K).
      { unfold K. rewrite <- Z.pow_add_r by lia. f_equal. lia. }
      assert (2 ^ 1127 < 2 ^ 1128) by (apply Z.pow_lt_mono_r; lia).
      nia. }
    unfold e1. lia. }
  unfold binary_round_aux, shr_fexp. cbn [shr_record_of_loc].
  change (Zdigits2 (Z.pos M)) with d.
  replace (fexp 53 1024 (d + E) - E) with n by (unfold fexp, emin, n, e1; lia).
  rewrite Hshr1. replace (E + n) with e1 by (unfold n; lia).
  rewrite Hround. cbn [shr_record_of_loc].
  destruct (Z.eq_dec q1 (2 ^ 53)) as [Htop|Hlow].
  - (* the mantissa overflowed to 2^53: one more shift *)
    rewrite Htop. change (2 ^ 53) with 9007199254740992.
    change (Zdigits2 9007199254740992) with 54.
    replace (fexp 53 1024 (54 + e1) - e1) with 1 by (unfold fexp, emin; lia).
    cbn [shr SpecFloat.iter_pos shr_1 shr_m].
    replace (e1 + 1 <=? 1024 - 53) with true by (symmetry; apply Z.leb_le; lia).
    do 2 eexists. split; [reflexivity|]. split; [lia|].
    rewrite Hrne. fold q1. rewrite Htop.
    replace (e1 + 1 + 1120) with (1 + (e1 + 1120)) by lia.
    rewrite Z.pow_add_r, HG by lia. change (2 ^ 53) with 9007199254740992. lia.
  - assert (Hq1 : 1 <= q1 < 2 ^ 53) by lia.
    destruct q1 as [|q1p|q1p] eqn:Eq1; [lia| |lia].
    pose proof (digits2_bounds q1p) as [Hqlo Hqhi].
    assert (Hdq : Z.pos (digits2_pos q1p) <= 53).
    { destruct (Z.le_gt_cases (Z.pos (digits2_pos q1p)) 53) as [|Hgt]; [assumption|].
      assert (2 ^ 53 <= 2 ^ (Z.pos (digits2_pos q1p) - 1)) by (apply Z.pow_le_mono_r; lia).
      lia. }
    cbn [Zdigits2].
    assert (Hn2 : fexp 53 1024 (Z.pos (digits2_pos q1p) + e1) - e1 <= 0)
      by (unfold fexp, emin; lia).
    destruct (fexp 53 1024 (Z.pos (digits2_pos q1p) + e1) - e1) as [|p2|p2] eqn:En2;
      [| lia |]; cbn [shr shr_m];
      (replace (e1 <=? 1024 - 53) with true by (symmetry; apply Z.leb_le; lia));
      do 2 eexists; (split; [reflexivity|]); (split; [lia|]);
      rewrite Hrne; fold q1; rewrite HG; lia.
Qed.

(** ** Rounding is monotone *)

Lemma grid_exp_mono X Y : X <= Y -> grid_exp X <= grid_exp Y.
Proof. intros H. unfold grid_exp. pose proof (Z.log2_le_mono X Y H). lia. Qed.

Lemma grid_exp_ge X : 46 <= grid_exp X.
Proof. unfold grid_exp. lia. Qed.

Section Grid.
Variable G : Z.
Hypothesis G_pos : 0 < G.

Definition on_grid (X : Z) : Z := nearest_even (X / G) (X mod G) G * G.

Lemma on_grid_below (X a : Z) : X <= a * G -> on_grid X <= a * G.
Proof.
  intros H. unfold on_grid.
  pose proof (Z.div_mod X G ltac:(lia)) as Hdm.
  pose proof (Z.mod_pos_bound X G G_pos) as Hr.
  pose proof (nearest_even_range (X / G) (X mod G) G) as Hne.
  destruct (Z.lt_ge_cases (X / G) a) as [Hlt|Hge]; [nia|].
  assert (X / G = a) by nia.
  assert (HR : X mod G = 0) by nia.
  unfold nearest_even in *. rewrite HR in *.
  replace (2 * 0 <? G) with true in * by (symmetry; apply Z.ltb_lt; lia). nia.
Qed.

Lemma on_grid_above (X a : Z) : a * G <= X -> a * G <= on_grid X.
Proof.
  intros H. unfold on_grid.
  pose proof (Z.div_mod X G ltac:(lia)) as Hdm.
  pose proof (Z.mod_pos_bound X G G_pos) as Hr.
  pose proof (nearest_even_range (X / G) (X mod G) G) as Hne.
  assert (a <= X / G) by (apply Z.div_le_lower_bound; lia).
  nia.
Qed.

Lemma on_grid_mono (X Y : Z) : X <= Y -> on_grid X <= on_grid Y.
Proof.
  intros H.
  pose proof (Z.div_mod X G ltac:(lia)) as HX.
  pose proof (Z.div_mod Y G ltac:(lia)) as HY.
  pose proof (Z.mod_pos_bound X G G_pos) as HRX.
  pose proof (Z.mod_pos_bound Y G G_pos) as HRY.
  assert (Hq : X / G <= Y / G) by (apply Z.div_le_mono; lia).
  destruct (Z.eq_dec (X / G) (Y / G)) as [Heq|Hne].
  - unfold on_grid. rewrite <- Heq. apply Z.mul_le_mono_nonneg_r; [lia|].
    assert (X mod G <= Y mod G) by nia.
    unfold nearest_even.
    destruct (Z.ltb_spec (2 * (X mod G)) G), (Z.ltb_spec (2 * (Y mod G)) G),
      (Z.ltb_spec G (2 * (X mod G))), (Z.ltb_spec G (2 * (Y mod G)));
      try destruct (Z.even (X / G)); lia.
  - transitivity ((Y / G) * G).
    + apply on_grid_below. nia.
    + apply on_grid_above. nia.
Qed.

End Grid.

Lemma rne_on_grid X : rne X = on_grid (2 ^ grid_exp X) X.
Proof. reflexivity. Qed.

Lemma pow2_pos k : 0 <= k -> 0 < 2 ^ k.
Proof. intros. apply Z.pow_pos_nonneg; lia. Qed.

Lemma pow2_split a b : 0 <= b <= a -> 2 ^ a = 2 ^ (a - b) * 2 ^ b.
Proof. intros. rewrite <- Z.pow_add_r by lia. f_equal. lia. Qed.

Lemma rne_mono X Y : 0 < X -> X <= Y -> rne X <= rne Y.
Proof.
  intros HX HXY. rewrite !rne_on_grid.
  pose proof (grid_exp_mono X Y HXY) as Hg.
  pose proof (grid_exp_ge X) as HgX.
  destruct (Z.eq_dec (grid_exp X) (grid_exp Y)) as [Heq|Hne].
  - rewrite Heq. apply on_grid_mono; [apply pow2_pos; lia|assumption].
  - (* the grids differ: a power of two lies between the two values *)
    assert (Hlt : grid_exp X < grid_exp Y) by lia.
    assert (HlogY : grid_exp Y = Z.log2 Y + 1 - 53) by (unfold grid_exp in *; lia).
    assert (HlogX : Z.log2 X + 1 - 53 <= grid_exp X) by (unfold grid_exp; lia).
    pose proof (Z.log2_spec X HX) as [_ HXhi].
    pose proof (Z.log2_spec Y ltac:(lia)) as [HYlo _].
    pose proof (Z.log2_nonneg X). pose proof (Z.log2_nonneg Y).
    transitivity (2 ^ (grid_exp X + 53)).
    + rewrite (pow2_split (grid_exp X + 53) (grid_exp X)) by lia.
      apply on_grid_below; [apply pow2_pos; lia|].
      rewrite <- pow2_split by lia.
      assert (2 ^ Z.succ (Z.log2 X) <= 2 ^ (grid_exp X + 53))
        by (apply Z.pow_le_mono_r; lia).
      lia.
    + transitivity (2 ^ (grid_exp Y + 52)); [apply Z.pow_le_mono_r; lia|].
      rewrite (pow2_split (grid_exp Y + 52) (grid_exp Y)) by lia.
      apply on_grid_above; [apply pow2_pos; lia|].
      rewrite <- pow2_split by lia.
      replace (grid_exp Y + 52) with (Z.log2 Y) by lia. assumption.
Qed.

Lemma rne_0 : rne 0 = 0.
Proof. reflexivity. Qed.

Lemma rne_nonneg X : 0 <= X -> 0 <= rne X.
Proof.
  intros H. rewrite rne_on_grid. pose proof (grid_exp_ge X) as Hg.
  assert (HG : 0 < 2 ^ grid_exp X) by (apply pow2_pos; lia).
  apply (on_grid_above (2 ^ grid_exp X) HG X 0). lia.
Qed.

Lemma rne_le_hundred X : 0 <= X <= 100 * 2 ^ 1120 -> rne X <= 100 * 2 ^ 1120.
Proof.
  intros [H0 H]. rewrite rne_on_grid.
  pose proof (grid_exp_ge X) as Hg.
  assert (Hgx : grid_exp X <= 1120).
  { destruct (Z.eq_dec X 0) as [->|]; [unfold grid_exp; change (Z.log2 0) with 0; lia|].
    pose proof (Z.log2_spec X ltac:(lia)) as [Hlo _].
    assert (Z.log2 X < 1127).
    { apply (Z.pow_lt_mono_r_iff 2); [lia|lia|].
      assert (0 < 2 ^ 1120) by (apply pow2_pos; lia).
      assert (100 * 2 ^ 1120 < 2 ^ 1127).
      { rewrite (pow2_split 1127 1120) by lia. change (2 ^ (1127 - 1120)) with 128. lia. }
      lia. }
    unfold grid_exp. lia. }
  rewrite (pow2_split 1120 (grid_exp X)) by lia. rewrite Z.mul_assoc.
  apply on_grid_below; [apply pow2_pos; lia|].
  rewrite <- Z.mul_assoc, <- pow2_split by lia. assumption.
Qed.

(** *** From a score to its percentage *)

(** The value of a non-negative number, scaled by [2^1120]. *)
Definition scaled (x : spec_float) : Z :=
  match x with
  | S754_finite false m e => Z.pos m * 2 ^ (e + 1120)
  | _ => 0
  end.

(** The percentage as a function of the scaled score: the product with
    100 is rounded to a binary64 number, then to an integer. *)
Definition percent_of (V : Z) : Z := (2 * rne (100 * V) + 2 ^ 1120) / 2 ^ 1121.

Lemma scaled_round_scaled (m e : Z) :
  -1120 <= e ->
  Num64.scaled_round 1 m e = (2 * (m * 2 ^ (e + 1120)) + 2 ^ 1120) / 2 ^ 1121.
Proof.
  intros He. unfold Num64.scaled_round.
  assert (HT : 0 < 2 ^ 1120) by (apply pow2_pos; lia).
  assert (H1121 : 2 ^ 1121 = 2 * 2 ^ 1120).
  { rewrite (pow2_split 1121 1120) by lia. reflexivity. }
  destruct (Z.leb_spec 0 e) as [Hpos|Hneg].
  - rewrite (Z.pow_add_r 2 e 1120), H1121 by lia.
    set (T := 2 ^ 1120) in *. set (A := m * 2 ^ e).
    replace (1 * m * 2 ^ e) with A by (unfold A; lia).
    replace (2 * (m * (2 ^ e * T)) + T) with ((2 * A + 1) * T) by (unfold A; lia).
    rewrite Z.div_mul_cancel_r by lia.
    apply (Z.div_unique_pos (2 * A + 1) 2 A 1); lia.
  - assert (HD : 0 < 2 ^ (- e)) by (apply pow2_pos; lia).
    assert (HK : 0 < 2 ^ (e + 1120)) by (apply pow2_pos; lia).
    assert (Hsplit : 2 ^ 1120 = 2 ^ (- e) * 2 ^ (e + 1120)).
    { rewrite <- Z.pow_add_r by lia. f_equal. lia. }
    rewrite H1121, Hsplit.
    set (D := 2 ^ (- e)) in *. set (K := 2 ^ (e + 1120)) in *.
    replace (2 * (m * K) + D * K) with ((2 * 1 * m + D) * K) by lia.
    replace (2 * (D * K)) with (2 * D * K) by lia.
    rewrite Z.div_mul_cancel_r by lia. reflexivity.
Qed.

Lemma canonical_mantissa_bounds (m : positive) (e : Z) :
  canonical_mantissa 53 1024 m e = true ->
  -1074 <= e /\ Z.pos m < 2 ^ 53 /\ (-1074 < e -> 2 ^ 52 <= Z.pos m).
Proof.
  unfold canonical_mantissa, fexp, emin. intros H. apply Z.eqb_eq in H.
  pose proof (digits2_bounds m) as [Hlo Hhi].
  set (d := Z.pos (digits2_pos m)) in *.
  assert (Hd : d <= 53) by lia.
  split; [lia|]. split.
  - assert (2 ^ d <= 2 ^ 53) by (apply Z.pow_le_mono_r; lia). lia.
  - intros He. replace d with 53 in Hlo by lia. exact Hlo.
Qed.

Lemma leb_scaled (m1 m2 : positive) (e1 e2 : Z) :
  canonical_mantissa 53 1024 m1 e1 = true ->
  canonical_mantissa 53 1024 m2 e2 = true ->
  Num64.leb (S754_finite false m1 e1) (S754_finite false m2 e2) = true ->
  scaled (S754_finite false m1 e1) <= scaled (S754_finite false m2 e2).
Proof.
  intros H1 H2. apply canonical_mantissa_bounds in H1 as (He1 & Hm1 & _).
  apply canonical_mantissa_bounds in H2 as (He2 & _ & Hm2).
  unfold Num64.leb, SFleb, SFcompare. cbn [scaled].
  destruct (Z.compare_spec e1 e2) as [->|Hlt|Hgt]; [| |discriminate].
  - change (Pos.compare_cont Eq m1 m2) with (m1 ?= m2)%positive.
    destruct (Pos.compare_spec m1 m2) as [->|Hm|Hm]; intros Hc; try discriminate Hc.
    + lia.
    + assert (0 < 2 ^ (e2 + 1120)) by (apply pow2_pos; lia). nia.
  - intros _. specialize (Hm2 ltac:(lia)).
    assert (HK1 : 0 < 2 ^ (e1 + 1120)) by (apply pow2_pos; lia).
    assert (HK2 : 2 ^ (e2 + 1120) = 2 ^ (e2 - e1) * 2 ^ (e1 + 1120)).
    { rewrite <- Z.pow_add_r by lia. f_equal. lia. }
    assert (Hstep : 2 ^ 1 <= 2 ^ (e2 - e1)) by (apply Z.pow_le_mono_r; lia).
    change (2 ^ 1) with 2 in Hstep. change (2 ^ 53) with (2 * 2 ^ 52) in Hm1.
    rewrite HK2. set (K := 2 ^ (e1 + 1120)) in *. set (S := 2 ^ (e2 - e1)) in *.
    set (B := 2 ^ 52) in *.
    assert (Z.pos m1 * K <= 2 * B * K) by nia.
    assert (2 * B * K <= Z.pos m2 * (S * K)) by nia.
    lia.
Qed.

Lemma scaled_one : scaled Num64.one = 2 ^ 1120.
Proof. reflexivity. Qed.

(** The product of a score in [0,1] with 100, rounded to an integer. *)
Lemma percent_of_score (s : spec_float) :
  Num64.valid s = true ->
  Num64.leb Num64.zero s = true -> Num64.leb s Num64.one = true ->
  0 <= scaled s <= 2 ^ 1120
  /\ Num64.Math_round (Num64.mul s Num64.hundred) = Num64.RInt (percent_of (scaled s)).
Proof.
  intros Hvalid Hlo Hhi.
  assert (HT : 0 < 2 ^ 1120) by (apply pow2_pos; lia).
  destruct s as [b|b| |[|] m e]; try discriminate.
  - split; [cbn; lia|]. destruct b; reflexivity.
  - destruct b; discriminate.
  - unfold Num64.valid, valid_binary, bounded in Hvalid.
    apply andb_prop in Hvalid as [Hcanon _].
    pose proof (leb_scaled m 4503599627370496 e (-52) Hcanon eq_refl Hhi) as Hle.
    change (scaled (S754_finite false 4503599627370496 (-52))) with (2 ^ 1120) in Hle.
    pose proof (canonical_mantissa_bounds m e Hcanon) as (He & _ & _).
    assert (HK : 0 < 2 ^ (e + 1120)) by (apply pow2_pos; lia).
    split; [cbn [scaled] in *; lia|].
    (* the exact product, scaled *)
    assert (HX : Z.pos (m * 7036874417766400) * 2 ^ (e + -46 + 1120)
                 = 100 * scaled (S754_finite false m e)).
    { cbn [scaled]. rewrite Pos2Z.inj_mul.
      change (Z.pos 7036874417766400) with (100 * 2 ^ 46).
      replace (e + 1120) with (46 + (e + -46 + 1120)) by lia.
      rewrite (Z.pow_add_r 2 46) by lia. lia. }
    destruct (binary_round_aux_value (m * 7036874417766400) (e + -46))
      as (q & e' & Hmul & He' & Hvalue).
    + lia.
    + rewrite Pos2Z.inj_mul. change (Z.pos 7036874417766400) with (100 * 2 ^ 46).
      change (2 ^ 52) with (64 * 2 ^ 46). nia.
    + rewrite HX. rewrite (pow2_split 1127 1120) by lia.
      change (2 ^ (1127 - 1120)) with 128. lia.
    + change (Num64.mul (S754_finite false m e) Num64.hundred)
        with (binary_round_aux 53 1024 false (Z.pos (m * 7036874417766400)) (e + -46)
                loc_Exact).
      rewrite Hmul. cbn [Num64.Math_round]. f_equal.
      rewrite scaled_round_scaled by assumption.
      unfold percent_of. rewrite Hvalue, HX. reflexivity.
Qed.

Lemma percent_of_mono (V W : Z) : 0 <= V -> V <= W -> percent_of V <= percent_of W.
Proof.
  intros HV HVW. unfold percent_of.
  apply Z.div_le_mono; [apply pow2_pos; lia|].
  destruct (Z.eq_dec V 0) as [->|Hne].
  - change (rne (100 * 0)) with 0. pose proof (rne_nonneg (100 * W)). lia.
  - pose proof (rne_mono (100 * V) (100 * W)). lia.
Qed.

Lemma percent_of_range (V : Z) : 0 <= V <= 2 ^ 1120 -> 0 <= percent_of V <= 100.
Proof.
  intros [H0 H1]. unfold percent_of.
  assert (HT : 0 < 2 ^ 1120) by (apply pow2_pos; lia).
  assert (H1121 : 2 ^ 1121 = 2 * 2 ^ 1120).
  { rewrite (pow2_split 1121 1120) by lia. reflexivity. }
  pose proof (rne_nonneg (100 * V) ltac:(lia)) as Hlo.
  pose proof (rne_le_hundred (100 * V) ltac:(lia)) as Hhi.
  rewrite H1121. set (T := 2 ^ 1120) in *. split.
  - apply Z.div_pos; lia.
  - apply Z.lt_succ_r. apply Z.div_lt_upper_bound; lia.
Qed.

Lemma leb_scaled_unit (s t : spec_float) :
  Num64.valid s = true -> Num64.valid t = true ->
  Num64.leb Num64.zero s = true -> Num64.leb t Num64.one = true ->
  Num64.leb s t = true -> scaled s <= scaled t.
Proof.
  intros Hs Ht Hlo Hhi Hle.
  destruct s as [b|b| |[|] m e]; try discriminate;
    destruct t as [b'|b'| |[|] m' e']; try discriminate; try (destruct b'; discriminate);
    try (destruct b; discriminate); cbn [scaled]; try lia.
  unfold Num64.valid, valid_binary, bounded in Hs, Ht.
  apply andb_prop in Hs as [Hcs _]. apply andb_prop in Ht as [Hct _].
  apply (leb_scaled m m' e e'); assumption.
Qed.

(** The percentage the claim names: [round(100 * s)] on the exact
    product, a tie going up. *)
Definition exact_percent (V : Z) : Z := (2 * (100 * V) + 2 ^ 1120) / 2 ^ 1121.

Lemma grid_exp_hundred (X : Z) : 0 <= X <= 100 * 2 ^ 1120 -> grid_exp X <= 1074.
Proof.
  intros [H0 H].
  destruct (Z.eq_dec X 0) as [->|]; [unfold grid_exp; change (Z.log2 0) with 0; lia|].
  pose proof (Z.log2_spec X ltac:(lia)) as [Hlo _].
  assert (Z.log2 X < 1127).
  { apply (Z.pow_lt_mono_r_iff 2); [lia|lia|].
    assert (0 < 2 ^ 1120) by (apply pow2_pos; lia).
    assert (100 * 2 ^ 1120 < 2 ^ 1127).
    { rewrite (pow2_split 1127 1120) by lia. change (2 ^ (1127 - 1120)) with 128. lia. }
    lia. }
  unfold grid_exp. lia.
Qed.

(** The percentage shown is the claimed one or the next: the rounding
    of the product never crosses a half, which is a binary64 number,
    but it can reach one from below. *)
Lemma percent_of_exact (V : Z) :
  0 <= V <= 2 ^ 1120 -> exact_percent V <= percent_of V <= exact_percent V + 1.
Proof.
  intros [H0 H1]. unfold exact_percent, percent_of.
  set (X := 100 * V).
  assert (HX : 0 <= X <= 100 * 2 ^ 1120) by (unfold X; lia).
  pose proof (grid_exp_hundred X HX) as Hg. pose proof (grid_exp_ge X) as Hg'.
  set (g := grid_exp X) in *.
  assert (HG : 0 < 2 ^ g) by (apply pow2_pos; lia).
  assert (HH : 2 ^ 1119 = 2 ^ (1119 - g) * 2 ^ g) by (apply pow2_split; lia).
  assert (HT : 2 ^ 1120 = 2 * 2 ^ 1119).
  { rewrite (pow2_split 1120 1119) by lia. reflexivity. }
  assert (HT' : 2 ^ 1121 = 2 * 2 ^ 1120).
  { rewrite (pow2_split 1121 1120) by lia. reflexivity. }
  assert (Hpos : 0 < 2 ^ 1119) by (apply pow2_pos; lia).
  set (k := (2 * X + 2 ^ 1120) / 2 ^ 1121).
  assert (Hk : k * 2 ^ 1121 <= 2 * X + 2 ^ 1120 < (k + 1) * 2 ^ 1121).
  { unfold k. pose proof (Z.div_mod (2 * X + 2 ^ 1120) (2 ^ 1121) ltac:(lia)) as Hdm.
    pose proof (Z.mod_pos_bound (2 * X + 2 ^ 1120) (2 ^ 1121) ltac:(lia)) as Hr. lia. }
  assert (Hlow : (2 * k - 1) * 2 ^ 1119 <= rne X).
  { rewrite rne_on_grid. fold g. rewrite HH, Z.mul_assoc.
    apply on_grid_above; [exact HG|]. rewrite <- Z.mul_assoc, <- HH. lia. }
  assert (Hhigh : rne X <= (2 * k + 1) * 2 ^ 1119).
  { rewrite rne_on_grid. fold g. rewrite HH, Z.mul_assoc.
    apply on_grid_below; [exact HG|]. rewrite <- Z.mul_assoc, <- HH. lia. }
  split.
  - apply Z.div_le_lower_bound; lia.
  - apply Z.lt_succ_r. apply Z.div_lt_upper_bound; lia.
Qed.

Lemma formatScore_percent (s : spec_float) :
  Num64.valid s = true ->
  Num64.leb Num64.zero s = true -> Num64.leb s Num64.one = true ->
  ResultList.formatScore s = pretty (percent_of (scaled s)) +:+ "%"
  /\ ResultListPlain.formatScore s = pretty (percent_of (scaled s)) +:+ "%".
Proof.
  intros Hvalid Hlo Hhi.
  destruct (percent_of_score s Hvalid Hlo Hhi) as [Hrange Hround].
  pose proof (percent_of_range (scaled s) Hrange) as Hn.
  unfold ResultList.formatScore, ResultListPlain.formatScore. rewrite Hround.
  cbn [Num64.rounded_to_string].
  rewrite Num64Facts.integer_to_string_small; [split; reflexivity|].
  change (2 ^ 53) with 9007199254740992. lia.
Qed.

(** C7.  A score is a binary64 number.  Write [V] for the value of a
    score [s], scaled by [2^1120] so that it is an integer.  For every
    [s] with [0 <= s <= 1], [formatScore] (in both versions of the result
    list) gives the decimal digits of the integer [n] followed by '%',
    where [n] is [percent_of V]: the product [100 * s] rounded to the
    nearest binary64 number (ties to even), then to the nearest integer
    (ties up).  [n] lies between 0 and 100; it is the integer nearest to
    the exact product [100 * s], or the next one; and for every score [t]
    of that range with [s <= t] the integer shown for [t] is at least
    [n]. *)
Theorem formatScore_percentage_monotone :
  ∀ s : spec_float,
    Num64.valid s = true →
    Num64.leb Num64.zero s = true → Num64.leb s Num64.one = true →
    let n := percent_of (scaled s) in
    ResultList.formatScore s = pretty n +:+ "%"
    ∧ ResultListPlain.formatScore s = pretty n +:+ "%"
    ∧ 0 <= n <= 100
    ∧ exact_percent (scaled s) <= n <= exact_percent (scaled s) + 1
    ∧ ∀ t : spec_float,
        Num64.valid t = true →
        Num64.leb Num64.zero t = true → Num64.leb t Num64.one = true →
        Num64.leb s t = true →
        n <= percent_of (scaled t)
        ∧ ResultList.formatScore t = pretty (percent_of (scaled t)) +:+ "%"
        ∧ ResultListPlain.formatScore t = pretty (percent_of (scaled t)) +:+ "%".
Proof.
  intros s Hvalid Hlo Hhi n. subst n.
  destruct (percent_of_score s Hvalid Hlo Hhi) as [Hrange _].
  destruct (formatScore_percent s Hvalid Hlo Hhi) as [Hshown Hplain].
  split; [exact Hshown|]. split; [exact Hplain|].
  split; [apply percent_of_range; exact Hrange|].
  split; [apply percent_of_exact; exact Hrange|].
  intros t Hvalid' Hlo' Hhi' Hle.
  destruct (formatScore_percent t Hvalid' Hlo' Hhi') as [Hshown' Hplain'].
  split; [|split; assumption].
  apply percent_of_mono; [lia|]. apply leb_scaled_unit; assumption.
Qed.

End ScoreFacts.

(** The scores 0.285, 0.29 and 0.015, as the numbers nearest to these
    decimals. *)
Definition score_0_285 : spec_float :=
  Eval vm_compute in Num64.div (Num64.of_Z 285) Num64.thousand.
Definition score_0_29 : spec_float :=
  Eval vm_compute in Num64.div (Num64.of_Z 29) Num64.hundred.
Definition score_0_015 : spec_float :=
  Eval vm_compute in Num64.div (Num64.of_Z 15) Num64.thousand.

(** The product is a binary64 product: 0.285 * 100 is just below 28.5
    and shows as 28%. *)
Example formatScore_examples :
  ResultList.formatScore score_0_285 = "28%"
  ∧ ResultList.formatScore score_0_29 = "29%"
  ∧ ResultList.formatScore Num64.one = "100%"
  ∧ ResultList.formatScore Num64.zero = "0%".
Proof. repeat split; vm_compute; reflexivity. Qed.

(** The number nearest to 0.015 is 8646911284551352 / 2^59.  A hundred
    times that is below 1.5, so the integer nearest to [100 * s] is 1;
    the binary64 product is 1.5 and [formatScore] shows 2%. *)
Example formatScore_rounds_the_product :
  score_0_015 = S754_finite false 8646911284551352 (-59)
  ∧ 2 * (100 * 8646911284551352) < 3 * 2 ^ 59
  ∧ ScoreFacts.exact_percent (ScoreFacts.scaled score_0_015) = 1
  ∧ Num64.mul score_0_015 Num64.hundred = S754_finite false 6755399441055744 (-52)
  ∧ ResultList.formatScore score_0_015 = "2%"
  ∧ ResultListPlain.formatScore score_0_015 = "2%".
Proof. repeat split; vm_compute; reflexivity. Qed.

Lemma formatScore_witness :
  ResultList.formatScore score_0_285 = "28%"
  ∧ ResultListPlain.formatScore score_0_285 = "28%"
  ∧ ScoreFacts.exact_percent (ScoreFacts.scaled score_0_285) = 28
  ∧ ∀ t : spec_float,
      Num64.valid t = true →
      Num64.leb Num64.zero t = true → Num64.leb t Num64.one = true →
      Num64.leb score_0_285 t = true →
      28 <= ScoreFacts.percent_of (ScoreFacts.scaled t).
Proof.
  pose proof (ScoreFacts.formatScore_percentage_monotone score_0_285
                eq_refl eq_refl eq_refl) as (Hshown & Hplain & _ & _ & Hmono).
  assert (Hn : ScoreFacts.percent_of (ScoreFacts.scaled score_0_285) = 28)
    by (vm_compute; reflexivity).
  rewrite Hn in *.
  split; [exact Hshown|]. split; [exact Hplain|].
  split; [vm_compute; reflexivity|].
  intros t Hvalid Hlo Hhi Hle. apply (Hmono t Hvalid Hlo Hhi Hle).
Defined.

(** ** Error responses that carry no message *)

Module ErrorBodyFacts.
Import JS Api.

(** A body that is read but has no [detail] and no [message] to offer:
    a text, a number, a boolean or an array. *)
Definition without_properties (data : value) : bool :=
  match data with
  | VBool _ | VNum _ | VStr _ | VArr _ => true
  | VUndefined | VNull | VObj _ => false
  end.


Lemma read_body_text (response : Response) (t : string) :
  match content_type response with
  | Some contentType => includes "application/json" contentType = false
  | None => True
  end →
  text response = Return t → read_body response = Return (VStr t).
Proof.
  intros Hct Ht. unfold read_body. rewrite Ht.
  destruct (content_type response) as [ct|]; [|reflexivity].
  rewrite Hct, andb_false_r. reflexivity.
Qed.

Lemma handleResponse_without_properties (response : Response) (data : value) :
  ok response = false → read_body response = Return data →
  without_properties data = true →
  handleResponse response = Throw (Error (status_line response)).
Proof.
  intros Hok Hbody Hdata. unfold handleResponse. rewrite Hbody, Hok.
  destruct data; try discriminate; reflexivity.
Qed.

(** X1.  An error response whose body is not a JSON object never shows
    its body: when a response that is not ok is read as text (its
    content type is missing or does not include application/json), or as
    a JSON text, number, boolean or array, [handleResponse] throws an
    [Error] whose message is the fallback 'Error: <status> <statusText>',
    whatever the body says. *)
Theorem error_body_without_properties_gives_status_line :
  ∀ response : Response,
    ok response = false →
    (∀ t, match content_type response with
          | Some contentType => includes "application/json" contentType = false
          | None => True
          end →
          text response = Return t →
          handleResponse response = Throw (Error (status_line response)))
    ∧ (∀ data, read_body response = Return data → without_properties data = true →
               handleResponse response = Throw (Error (status_line response))).
Proof.
  intros response Hok. split.
  - intros t Hct Ht.
    apply (handleResponse_without_properties response (VStr t) Hok);
      [apply read_body_text; assumption | reflexivity].
  - intros data. apply handleResponse_without_properties. exact Hok.
Qed.



End ErrorBodyFacts.

Definition bad_gateway_response : Api.Response :=
  {| Api.ok := false; Api.status := 502; Api.statusText := "Bad Gateway";
     Api.content_type := Some "text/html";
     Api.json := JS.Throw (JS.SyntaxError "Unexpected token <");
     Api.text := JS.Return "<html><h1>502 Bad Gateway</h1></html>" |}.

Lemma error_body_without_properties_witness :
  Api.handleResponse bad_gateway_response = JS.Throw (JS.Error "Error: 502 Bad Gateway").
Proof.
  apply (proj1 (ErrorBodyFacts.error_body_without_properties_gives_status_line
                  bad_gateway_response eq_refl)
           "<html><h1>502 Bad Gateway</h1></html>");
    reflexivity.
Defined.




(** ** The selection of papers *)

Module SelectionFacts.
Import JS Papers.

Lemma elem_of_togglePaperSelection (paperId other : string) (prev : list string) :
  other ∈ togglePaperSelection paperId prev
  ↔ (other = paperId ∧ paperId ∉ prev) ∨ (other ≠ paperId ∧ other ∈ prev).
Proof.
  unfold togglePaperSelection. case_bool_decide as Hin.
  - rewrite list_elem_of_filter. split.
    + intros [Hne Hother]. right. auto.
    + intros [[-> Hnot]|[Hne Hother]]; [contradiction|auto].
  - rewrite elem_of_app, list_elem_of_singleton. split.
    + intros [Hother| ->]; [|left; auto].
      right. split; [|assumption]. intros ->. contradiction.
    + intros [[-> _]|[_ Hother]]; auto.
Qed.

(** X9.  Clicking the checkbox of a paper flips that checkbox and no
    other: after [togglePaperSelection paperId] the paper is selected
    exactly when it was not before, and every other paper is selected
    exactly when it was; a selection without duplicates stays without
    duplicates; and toggling twice a paper that was not selected gives the
    selection back. *)
Theorem togglePaperSelection_flips_one :
  ∀ (paperId : string) (st : State),
    let st' := setSelectedPapers (togglePaperSelection paperId) st in
    (∀ paper, id paper = paperId → checked st' paper = negb (checked st paper))
    ∧ (∀ paper, id paper ≠ paperId → checked st' paper = checked st paper)
    ∧ (NoDup (selectedPapers st) → NoDup (selectedPapers st'))
    ∧ (paperId ∉ selectedPapers st →
       togglePaperSelection paperId (selectedPapers st') = selectedPapers st).
Proof.
  intros paperId st st'. subst st'. unfold checked. cbn [selectedPapers setSelectedPapers].
  repeat split.
  - intros paper <-.
    apply eq_true_iff_eq. rewrite negb_true_iff, bool_decide_eq_true, bool_decide_eq_false.
    rewrite elem_of_togglePaperSelection. split.
    + intros [[_ H]|[H _]]; [assumption|contradiction].
    + intros H. left. auto.
  - intros paper Hne.
    apply eq_true_iff_eq. rewrite !bool_decide_eq_true, elem_of_togglePaperSelection.
    split.
    + intros [[H _]|[_ H]]; [contradiction|assumption].
    + intros H. right. auto.
  - intros Hnd. unfold togglePaperSelection. case_bool_decide as Hin.
    + apply NoDup_filter, Hnd.
    + apply NoDup_app. split; [assumption|]. split; [|apply NoDup_singleton].
      intros x Hx Hx'. apply list_elem_of_singleton in Hx'. subst x. contradiction.
  - intros Hnot. unfold togglePaperSelection at 2.
    rewrite bool_decide_eq_false_2 by assumption.
    unfold togglePaperSelection.
    rewrite bool_decide_eq_true_2
      by (apply elem_of_app; right; apply list_elem_of_singleton; reflexivity).
    apply SearchFormFacts.filter_ne_snoc, Hnot.
Qed.

Lemma all_selected_length (selected ids : list string) :
  NoDup ids → NoDup selected → (∀ x, x ∈ selected → x ∈ ids) →
  (length selected = length ids ↔ ∀ x, x ∈ ids → x ∈ selected).
Proof.
  intros Hids Hsel Hsub.
  assert (Hsm : selected ⊆+ ids) by (apply NoDup_submseteq; assumption).
  split.
  - intros Hlen x Hx.
    assert (Hp : selected ≡ₚ ids)
      by (apply submseteq_length_Permutation; [assumption|lia]).
    rewrite Hp. exact Hx.
  - intros Hall.
    assert (Hms : ids ⊆+ selected) by (apply NoDup_submseteq; assumption).
    apply submseteq_length in Hsm, Hms. lia.
Qed.

(** X10.  [toggleSelectAll] decides by the two lengths alone: it clears
    the selection when as many ids are selected as there are papers, and
    otherwise selects every listed paper.  When the listed ids are
    distinct and the selection is a duplicate-free part of them, this is
    'deselect all' exactly when every paper is selected, and the label of
    the button says so.  The papers are those of the table that is
    rendered, which are the ones the state holds. *)
Theorem toggleSelectAll_by_length :
  ∀ (st : State) (rows : list Paper),
    NoDup (map id rows) →
    NoDup (selectedPapers st) →
    (∀ x, x ∈ selectedPapers st → x ∈ map id rows) →
    ((∀ paper, paper ∈ rows → checked st paper = true) →
     selectedPapers (toggleSelectAll rows st) = []
     ∧ select_all_label rows st = "Deselect All")
    ∧ (∀ paper, paper ∈ rows → checked st paper = false →
       selectedPapers (toggleSelectAll rows st) = map id rows
       ∧ select_all_label rows st = "Select All"
       ∧ ∀ other, other ∈ rows → checked (toggleSelectAll rows st) other = true)
    ∧ (view_of st = Return (TableView rows) → papers st = Listed rows).
Proof.
  intros st rows Hids Hsel Hsub.
  pose proof (all_selected_length _ _ Hids Hsel Hsub) as Hlen.
  rewrite length_map in Hlen. unfold toggleSelectAll, select_all_label.
  split; [|split].
  - intros Hall.
    replace (length (selectedPapers st) =? length rows)%nat with true; [auto|].
    symmetry. apply Nat.eqb_eq, Hlen. intros x Hx.
    apply list_elem_of_fmap in Hx as (paper & -> & Hpaper).
    specialize (Hall paper Hpaper). unfold checked in Hall.
    apply bool_decide_eq_true in Hall. exact Hall.
  - intros paper Hpaper Hnot.
    replace (length (selectedPapers st) =? length rows)%nat with false.
    + cbn [selectedPapers setSelectedPapers]. repeat split.
      intros other Hother. unfold checked. cbn [selectedPapers setSelectedPapers].
      apply bool_decide_eq_true. apply list_elem_of_fmap. eauto.
    + symmetry. apply Nat.eqb_neq. intros Heq.
      unfold checked in Hnot. apply bool_decide_eq_false in Hnot. apply Hnot.
      apply Hlen; [exact Heq|]. apply list_elem_of_fmap. eauto.
  - unfold view_of. destruct (loading st); [discriminate|].
    destruct (error st); [discriminate|].
    destruct (papers st) as [listed|v].
    + destruct (length listed =? 0)%nat; [discriminate|]. intros [= ->]. reflexivity.
    + destruct (length_of v) as [n|e]; [|discriminate].
      cbn [mbind outcome_bind]. destruct (is_zero n); discriminate.
Qed.

End SelectionFacts.

Definition three_papers : list Papers.Paper :=
  [ {| Papers.id := "p1"; Papers.title := "Attention"; Papers.authors := None;
       Papers.publication_year := Some 2017 |};
    {| Papers.id := "p2"; Papers.title := "BERT"; Papers.authors := None;
       Papers.publication_year := Some 2018 |};
    {| Papers.id := "p3"; Papers.title := "GPT"; Papers.authors := None;
       Papers.publication_year := None |} ].

Definition two_of_three_selected : Papers.State :=
  {| Papers.papers := Papers.Listed three_papers; Papers.loading := false; Papers.error := None;
     Papers.selectedPapers := ["p3"; "p1"]; Papers.showConfirmation := false;
     Papers.isDeleting := false |}.

Lemma togglePaperSelection_witness :
  Papers.togglePaperSelection "p2"
    (Papers.selectedPapers
       (Papers.setSelectedPapers (Papers.togglePaperSelection "p2") two_of_three_selected))
  = ["p3"; "p1"].
Proof.
  apply (proj2 (proj2 (proj2
           (SelectionFacts.togglePaperSelection_flips_one "p2" two_of_three_selected)))).
  refine (bool_decide_unpack _ _). vm_compute. exact I.
Defined.

Lemma toggleSelectAll_witness :
  Papers.selectedPapers (Papers.toggleSelectAll three_papers two_of_three_selected)
  = ["p1"; "p2"; "p3"]
  ∧ Papers.select_all_label three_papers two_of_three_selected = "Select All"
  ∧ ∀ other, other ∈ three_papers →
             Papers.checked (Papers.toggleSelectAll three_papers two_of_three_selected) other
             = true.
Proof.
  refine (proj1 (proj2 (SelectionFacts.toggleSelectAll_by_length two_of_three_selected
                          three_papers _ _ _))
            {| Papers.id := "p2"; Papers.title := "BERT"; Papers.authors := None;
               Papers.publication_year := Some 2018 |} _ eq_refl).
  - refine (bool_decide_unpack _ _). vm_compute. exact I.
  - refine (bool_decide_unpack _ _). vm_compute. exact I.
  - intros x Hx. revert x Hx. apply Forall_forall.
    repeat constructor; apply bool_decide_unpack with (P := _ ∈ _); vm_compute; exact I.
  - apply list_elem_of_further, list_elem_of_here.
Defined.

(** ** The calls of the table of papers never overlap *)

Module PapersRunFacts.
Import JS Papers PapersRun.

Definition is_list_call (p : packet) : bool :=
  match p with
  | List_call => true
  | Delete_call _ _ => false
  end.

(** The number of [listAllPapers] calls in flight. *)
Fixpoint list_calls (w : list packet) : nat :=
  match w with
  | [] => 0
  | p :: w' => (if is_list_call p then 1 else 0) + list_calls w'
  end.

Lemma list_calls_app (w w' : list packet) :
  list_calls (w ++ w') = (list_calls w + list_calls w')%nat.
Proof. induction w as [|p w IH]; cbn [app list_calls]; lia. Qed.

Lemma list_calls_delete (i : nat) (w : list packet) (p : packet) :
  w !! i = Some p →
  list_calls w = ((if is_list_call p then 1 else 0) + list_calls (delete i w))%nat.
Proof.
  revert i. induction w as [|q w IH]; intros [|i] Hi; try discriminate.
  - cbn in Hi. injection Hi as ->. reflexivity.
  - cbn in Hi. specialize (IH i Hi).
    change (delete (S i) (q :: w)) with (q :: delete i w). cbn [list_calls]. lia.
Qed.

Lemma list_calls_deletes (b : nat) (ids : list string) :
  list_calls (map (packet_of b) (map deletePaper ids)) = 0%nat.
Proof. induction ids as [|x ids IH]; [reflexivity|exact IH]. Qed.

Lemma list_calls_elem (w : list packet) : List_call ∈ w ↔ (0 < list_calls w)%nat.
Proof.
  induction w as [|p w IH]; [split; [inversion 1|cbn; lia]|].
  rewrite elem_of_cons. destruct p; cbn [list_calls is_list_call].
  - split; [intros _; lia|auto].
  - rewrite IH. split; [intros [?|?]; [discriminate|assumption]|auto].
Qed.

Record invariant (sys : System) : Prop := {
  inv_list : list_calls (wire sys) = if loading (panel sys) then 1%nat else 0%nat;
  inv_deleting : isDeleting (panel sys) = bool_decide (is_Some (awaited sys));
  inv_await : is_Some (awaited sys) →
              loading (panel sys) = false ∧ error (panel sys) = None;
  inv_other : ∀ v, papers (panel sys) = NotArray v →
              loading (panel sys) = false ∧ error (panel sys) = None
              ∧ awaited sys = None;
}.

Lemma papers_mounted_invariant : invariant mounted.
Proof.
  split; [reflexivity|reflexivity| |].
  - intros [a Ha]. discriminate Ha.
  - intros v Hv. discriminate Hv.
Qed.

Lemma table_of_inv (st : State) (rows : list Paper) :
  table_of st = Some rows →
  loading st = false ∧ error st = None ∧ papers st = Listed rows.
Proof.
  unfold table_of, view_of. destruct (loading st); [discriminate|].
  destruct (error st); [discriminate|].
  destruct (papers st) as [listed|v].
  - destruct (length listed =? 0)%nat; [discriminate|]. intros [= ->]. auto.
  - destruct (length_of v) as [n|e]; [|discriminate].
    cbn [mbind outcome_bind]. destruct (is_zero n); discriminate.
Qed.

Lemma table_shown_inv (st : State) :
  table_shown st = true →
  loading st = false ∧ error st = None ∧ ∃ rows, papers st = Listed rows.
Proof.
  unfold table_shown. destruct (table_of st) as [rows|] eqn:Htable; [|discriminate].
  intros _. destruct (table_of_inv st rows Htable) as (Hl & He & Hp). eauto.
Qed.

(** What is rendered once [papers] is not an array. *)
Definition view_of_other (v : other_value) : outcome view :=
  n ← length_of v;
  if is_zero n then Return EmptyView else Throw (TypeError_call "papers.map").

Lemma view_of_NotArray (st : State) (v : other_value) :
  papers st = NotArray v → loading st = false → error st = None →
  view_of st = view_of_other v.
Proof. intros Hp Hl He. unfold view_of. rewrite Hl, He, Hp. reflexivity. Qed.

Lemma unmounted_inv (st : State) :
  unmounted st = true →
  loading st = false ∧ error st = None ∧ ∃ v, papers st = NotArray v.
Proof.
  unfold unmounted, view_of. destruct (loading st); [discriminate|].
  destruct (error st); [discriminate|].
  destruct (papers st) as [listed|v]; [discriminate|]. eauto.
Qed.

Lemma no_table_of_other (st : State) (v : other_value) :
  papers st = NotArray v → table_of st = None.
Proof.
  intros Hp. destruct (table_of st) as [rows|] eqn:Htable; [|reflexivity].
  destruct (table_of_inv st rows Htable) as (_ & _ & Hrows). congruence.
Qed.

Section Props.
Variable onDeleteSuccess : bool.

Lemma papers_resume_invariant (a : Await) (settled : outcome (list value)) (sys : System) :
  list_calls (wire sys) = 0%nat → loading (panel sys) = false → error (panel sys) = None →
  (∃ rows, papers (panel sys) = Listed rows) →
  invariant (resume onDeleteSuccess a settled sys).
Proof.
  intros Hw Hl He [rows Hp]. unfold resume, confirmDelete_end.
  destruct settled as [done|err]; cbn.
  - split; cbn; [rewrite list_calls_app, Hw; reflexivity|reflexivity| |].
    + intros [x Hx]. discriminate Hx.
    + intros v Hv. rewrite Hp in Hv. discriminate Hv.
  - split; cbn; [rewrite app_nil_r, Hw, Hl; reflexivity|reflexivity| |].
    + intros [x Hx]. discriminate Hx.
    + intros v Hv. rewrite Hp in Hv. discriminate Hv.
Qed.

Lemma papers_step_mounted_invariant (ev : event) (sys sys' : System) :
  invariant sys → step_mounted onDeleteSuccess ev sys = Some sys' → invariant sys'.
Proof.
  intros [Hlist Hdel Haw Hother] Hstep.
  destruct ev as [i settled|i settled|paperId| | | | | ]; cbn [step_mounted] in Hstep.
  - (* a list call settles *)
    destruct (wire sys !! i) as [[|b x]|] eqn:Hi; try discriminate.
    injection Hstep as <-.
    pose proof (list_calls_delete i _ _ Hi) as Hn. cbn [is_list_call] in Hn.
    assert (Hloading : loading (panel sys) = true).
    { destruct (loading (panel sys)); [reflexivity|]. rewrite Hlist in Hn. lia. }
    assert (Hnone : awaited sys = None).
    { destruct (awaited sys) as [a|] eqn:Ha; [|reflexivity].
      destruct (Haw (mk_is_Some _ _ eq_refl)) as [Hl _]. congruence. }
    rewrite Hloading in Hlist.
    split; cbn.
    + destruct settled; cbn; lia.
    + rewrite Hnone in *. destruct settled; cbn; exact Hdel.
    + rewrite Hnone. intros [x Hx]. discriminate Hx.
    + intros v Hv. destruct settled as [listed|err]; cbn in *; [auto|].
      destruct (Hother v Hv) as (Hl & _). congruence.
  - (* a delete call settles *)
    destruct (wire sys !! i) as [[|b x]|] eqn:Hi; try discriminate.
    pose proof (list_calls_delete i _ _ Hi) as Hn. cbn [is_list_call] in Hn.
    cbn [awaited] in Hstep.
    destruct (awaited sys) as [a|] eqn:Ha.
    2:{ injection Hstep as <-. split; cbn; [lia|exact Hdel|exact Haw|exact Hother]. }
    destruct (Haw (mk_is_Some _ _ eq_refl)) as [Hl He].
    assert (Hrows : ∃ rows, papers (panel sys) = Listed rows).
    { destruct (papers (panel sys)) as [rows|v] eqn:Hp; [eauto|].
      destruct (Hother v eq_refl) as (_ & _ & Hnone). discriminate Hnone. }
    destruct (batch a =? b)%nat.
    2:{ injection Hstep as <-. split; cbn; [lia|exact Hdel|exact Haw|exact Hother]. }
    rewrite Hl in Hlist.
    destruct settled as [v|err].
    + destruct (outstanding a =? 1)%nat.
      * injection Hstep as <-. apply papers_resume_invariant; cbn; [lia|assumption..].
      * injection Hstep as <-. split; cbn; [rewrite Hl; lia|exact Hdel| |].
        -- intros _. auto.
        -- intros v' Hv'. destruct Hrows as [rows Hrows]. rewrite Hrows in Hv'.
           discriminate Hv'.
    + injection Hstep as <-. apply papers_resume_invariant; cbn; [lia|assumption..].
  - destruct (table_of (panel sys)) as [rows|]; [|discriminate].
    destruct (bool_decide (paperId ∈ _)); [|discriminate].
    injection Hstep as <-. split; cbn; assumption.
  - destruct (table_of (panel sys)) as [rows|]; [|discriminate].
    injection Hstep as <-. unfold toggleSelectAll.
    destruct (_ =? _)%nat; split; cbn; assumption.
  - destruct (table_shown (panel sys) && _); [|discriminate].
    injection Hstep as <-. unfold handleDeleteClick.
    destruct (_ =? _)%nat; split; cbn; assumption.
  - destruct (table_shown (panel sys) && _ && _); [|discriminate].
    injection Hstep as <-. split; cbn; assumption.
  - (* the deletion is confirmed *)
    destruct (table_shown (panel sys)) eqn:Htable; [|discriminate].
    destruct (showConfirmation (panel sys)); [|discriminate].
    destruct (isDeleting (panel sys)) eqn:Hdeleting; [discriminate|].
    cbn [andb negb confirmDelete_begin] in Hstep.
    destruct (table_shown_inv _ Htable) as (Hl & He & Hrows). rewrite Hl in Hlist.
    rewrite length_map in Hstep.
    destruct (length (selectedPapers (panel sys)) =? 0)%nat.
    + injection Hstep as <-. apply papers_resume_invariant; cbn; [|assumption..].
      rewrite list_calls_app, list_calls_deletes. lia.
    + injection Hstep as <-. split; cbn.
      * rewrite list_calls_app, list_calls_deletes, Hl. lia.
      * reflexivity.
      * intros _. auto.
      * intros v Hv. destruct Hrows as [rows Hrows]. rewrite Hrows in Hv.
        discriminate Hv.
  - (* Try Again *)
    unfold view_of in Hstep.
    destruct (loading (panel sys)) eqn:Hl; [discriminate|].
    destruct (error (panel sys)) as [message|] eqn:He.
    2:{ destruct (papers (panel sys)) as [rows|v].
        - destruct (_ =? _)%nat; discriminate.
        - destruct (length_of v) as [n|e]; [|discriminate].
          cbn [mbind outcome_bind] in Hstep. destruct (is_zero n); discriminate. }
    injection Hstep as <-.
    assert (Hnone : awaited sys = None).
    { destruct (awaited sys) as [a|] eqn:Ha; [|reflexivity].
      destruct (Haw (mk_is_Some _ _ eq_refl)) as [_ He']. congruence. }
    split; cbn.
    + rewrite list_calls_app, Hlist. reflexivity.
    + exact Hdel.
    + rewrite Hnone. intros [x Hx]. discriminate Hx.
    + intros v Hv. destruct (Hother v Hv) as (_ & He' & _). congruence.
Qed.

(** Once [papers] is not an array the state of the table never changes
    again: no control is rendered, and no call for the list is in
    flight. *)
Lemma papers_step_stuck (ev : event) (sys sys' : System) (v : other_value) :
  invariant sys → papers (panel sys) = NotArray v →
  step onDeleteSuccess ev sys = Some sys' →
  panel sys' = panel sys ∧ invariant sys'.
Proof.
  intros Hinv Hp Hstep.
  pose proof Hinv as [Hlist Hdel Haw Hother].
  destruct (Hother v Hp) as (Hl & He & Hnone).
  pose proof (no_table_of_other _ v Hp) as Htable.
  assert (Hsettle : ∀ sys1, step_mounted onDeleteSuccess ev sys = Some sys1 →
                            panel sys1 = panel sys).
  { intros sys1 H1.
    destruct ev as [i settled|i settled|paperId| | | | | ]; cbn [step_mounted] in H1.
    - destruct (wire sys !! i) as [[|b x]|] eqn:Hi; try discriminate.
      pose proof (list_calls_delete i _ _ Hi) as Hn. cbn [is_list_call] in Hn.
      rewrite Hlist, Hl in Hn. lia.
    - destruct (wire sys !! i) as [[|b x]|] eqn:Hi; try discriminate.
      cbn [awaited] in H1. rewrite Hnone in H1. injection H1 as <-. reflexivity.
    - rewrite Htable in H1. discriminate.
    - rewrite Htable in H1. discriminate.
    - unfold table_shown in H1. rewrite Htable in H1. discriminate.
    - unfold table_shown in H1. rewrite Htable in H1. discriminate.
    - unfold table_shown in H1. rewrite Htable in H1. discriminate.
    - rewrite (view_of_NotArray _ v Hp Hl He) in H1. unfold view_of_other in H1.
      destruct (length_of v) as [n|e]; [|discriminate].
      cbn [mbind outcome_bind] in H1. destruct (is_zero n); discriminate. }
  unfold step in Hstep. destruct (unmounted (panel sys)).
  - destruct ev as [i settled|i settled|paperId| | | | | ]; try discriminate;
      (destruct (step_mounted onDeleteSuccess _ sys) as [sys1|] eqn:H1; [|discriminate];
       injection Hstep as <-; split; [reflexivity|];
       pose proof (papers_step_mounted_invariant _ _ _ Hinv H1) as [Hlist1 Hdel1 Haw1 Hother1];
       rewrite (Hsettle sys1 eq_refl) in *; split; cbn; assumption).
  - split; [apply Hsettle, Hstep|].
    exact (papers_step_mounted_invariant _ _ _ Hinv Hstep).
Qed.

Lemma papers_step_invariant (ev : event) (sys sys' : System) :
  invariant sys → step onDeleteSuccess ev sys = Some sys' → invariant sys'.
Proof.
  intros Hinv Hstep.
  destruct (unmounted (panel sys)) eqn:Hun.
  - destruct (unmounted_inv _ Hun) as (_ & _ & v & Hp).
    exact (proj2 (papers_step_stuck ev sys sys' v Hinv Hp Hstep)).
  - unfold step in Hstep. rewrite Hun in Hstep.
    exact (papers_step_mounted_invariant _ _ _ Hinv Hstep).
Qed.

Lemma papers_run_invariant (evs : list event) (sys sys' : System) :
  invariant sys → run onDeleteSuccess evs sys = Some sys' → invariant sys'.
Proof.
  revert sys. induction evs as [|ev evs IH]; intros sys Hinv Hrun; cbn in Hrun.
  - injection Hrun as <-. assumption.
  - destruct (step onDeleteSuccess ev sys) as [sys1|] eqn:Hstep; [|discriminate].
    eapply IH; [|exact Hrun]. eapply papers_step_invariant; eassumption.
Qed.

Lemma papers_run_stuck (evs : list event) (sys sys' : System) (v : other_value) :
  invariant sys → papers (panel sys) = NotArray v →
  run onDeleteSuccess evs sys = Some sys' → panel sys' = panel sys.
Proof.
  revert sys. induction evs as [|ev evs IH]; intros sys Hinv Hp Hrun; cbn in Hrun.
  - injection Hrun as <-. reflexivity.
  - destruct (step onDeleteSuccess ev sys) as [sys1|] eqn:Hstep; [|discriminate].
    destruct (papers_step_stuck ev sys sys1 v Hinv Hp Hstep) as [Hsame Hinv1].
    rewrite <- Hsame. apply IH; [exact Hinv1|rewrite Hsame; exact Hp|exact Hrun].
Qed.

End Props.

(** X11.  In every run of the table of papers (any clicks on the controls
    that are rendered and enabled, the calls in flight settling in any
    order, each with any result: a rejection, a list of papers, or a
    reply whose [papers] is anything but an array): the loading view is
    shown exactly while a [listAllPapers] call is in flight, and there is
    never more than one such call, so a list that arrives is always the
    answer to the latest request; [isDeleting] holds exactly while a
    confirmed deletion is being awaited; and while it is, no
    [listAllPapers] call is in flight.  A reply whose [papers] is not an
    array ends the table: the value is stored, the next render throws a
    [TypeError] (or shows the empty view, if the value has a length that
    is 0), and from then on the state never changes. *)
Theorem list_calls_never_overlap :
  ∀ (onDeleteSuccess : bool) (evs : list event) (sys : System),
    run onDeleteSuccess evs mounted = Some sys →
    (loading (panel sys) = true ↔ List_call ∈ wire sys)
    ∧ (list_calls (wire sys) <= 1)%nat
    ∧ (isDeleting (panel sys) = true ↔ is_Some (awaited sys))
    ∧ (is_Some (awaited sys) → List_call ∉ wire sys)
    ∧ (∀ v, papers (panel sys) = NotArray v →
         view_of (panel sys)
         = (n ← length_of v;
            if is_zero n then Return EmptyView else Throw (TypeError_call "papers.map"))
         ∧ ∀ evs' sys', run onDeleteSuccess evs' sys = Some sys' → panel sys' = panel sys).
Proof.
  intros onDeleteSuccess evs sys Hrun.
  pose proof (papers_run_invariant onDeleteSuccess evs mounted sys
                papers_mounted_invariant Hrun) as Hinv.
  pose proof Hinv as [Hlist Hdel Haw Hother].
  split; [|split; [|split; [|split]]].
  - split.
    + intros Hl. apply list_calls_elem. rewrite Hlist, Hl. lia.
    + intros Hin. apply list_calls_elem in Hin. rewrite Hlist in Hin.
      destruct (loading (panel sys)); [reflexivity|lia].
  - rewrite Hlist. destruct (loading (panel sys)); lia.
  - rewrite Hdel. split; apply bool_decide_eq_true.
  - intros Ha Hin. apply list_calls_elem in Hin. destruct (Haw Ha) as [Hl _].
    rewrite Hlist, Hl in Hin. lia.
  - intros v Hp. destruct (Hother v Hp) as (Hl & He & _). split.
    + exact (view_of_NotArray _ v Hp Hl He).
    + intros evs' sys' Hrun'.
      exact (papers_run_stuck onDeleteSuccess evs' sys sys' v Hinv Hp Hrun').
Qed.

End PapersRunFacts.

(** The list arrives, two papers are selected and their deletion is
    confirmed; the first call fails. *)
Definition failed_deletion : list PapersRun.event :=
  [ PapersRun.ListSettles 0 (JS.Return (Papers.Listed three_papers));
    PapersRun.TogglePaper "p1"; PapersRun.TogglePaper "p3";
    PapersRun.ClickDelete; PapersRun.ClickConfirm;
    PapersRun.DeleteSettles 1 (JS.Return (JS.VObj []));
    PapersRun.DeleteSettles 0 (JS.Throw (JS.Error "Paper not found"));
    PapersRun.ClickTryAgain ].

(** The reply to the first request is [{}]: [result.papers] is
    [undefined]. *)
Definition reply_without_papers : list PapersRun.event :=
  [ PapersRun.ListSettles 0 (JS.Return (Papers.NotArray Papers.OUndefined)) ].

Lemma list_calls_never_overlap_witness :
  (∃ sys,
      PapersRun.run true failed_deletion PapersRun.mounted = Some sys
      ∧ Papers.loading (PapersRun.panel sys) = true
      ∧ PapersRun.wire sys = [PapersRun.List_call]
      ∧ Papers.selectedPapers (PapersRun.panel sys) = ["p1"; "p3"])
  ∧ (∃ sys,
       PapersRun.run true reply_without_papers PapersRun.mounted = Some sys
       ∧ Papers.view_of (PapersRun.panel sys)
         = JS.Throw (JS.TypeError_read JS.VUndefined "length")).
Proof.
  split.
  - eexists. split; [vm_compute; reflexivity|].
    split; [|split; reflexivity].
    apply (proj1 (PapersRunFacts.list_calls_never_overlap true failed_deletion _ eq_refl)).
    vm_compute. apply list_elem_of_here.
  - eexists. split; [vm_compute; reflexivity|].
    exact (proj1 (proj2 (proj2 (proj2 (proj2
             (PapersRunFacts.list_calls_never_overlap true reply_without_papers _ eq_refl))))
             Papers.OUndefined eq_refl)).
Defined.

(** ** The list request and the download links *)

Module LinkFacts.
Import JS Dom SearchResult.

Lemma length_append (s t : string) :
  String.length (s +:+ t) = (String.length s + String.length t)%nat.
Proof.
  induction s as [|c s IH]; [reflexivity|].
  change (String c s +:+ t) with (String c (s +:+ t)). cbn [String.length]. rewrite IH.
  reflexivity.
Qed.

Lemma append_inv_tail (u v s : string) : u +:+ s = v +:+ s → u = v.
Proof.
  revert v. induction u as [|c u IH]; intros [|d v] H.
  - reflexivity.
  - apply (f_equal String.length) in H. rewrite !length_append in H. cbn in H. lia.
  - apply (f_equal String.length) in H. rewrite !length_append in H. cbn in H. lia.
  - change (String c (u +:+ s) = String d (v +:+ s)) in H.
    injection H as -> H. f_equal. apply IH, H.
Qed.

(** The [href] of a link. *)
Definition href_of (n : node) : option string :=
  match n with
  | Element _ _ attrs _ _ => assoc "href" attrs
  | Text _ => None
  end.

(** The links of an open card: the download link alone. *)
Lemma open_card_links (result : Result) :
  ∃ link,
    select (has_tag "a") (ResultListPlain.card (Some (paper_id result)) result) = [link]
    ∧ href_of link = Some ("/api/papers/download/" +:+ paper_id result).
Proof.
  unfold ResultListPlain.card. rewrite bool_decide_eq_true_2 by reflexivity.
  eexists. split.
  - cbn -[ResultListPlain.formatAuthors ResultListPlain.formatScore when_num when_str Nat.ltb].
    repeat match goal with
           | |- context [concat (map (select ?p) ?l)] =>
               change (concat (map (select p) l)) with (select_all p l)
           end.
    rewrite (ParagraphFacts.header_line_selected _ result) by reflexivity.
    rewrite !ParagraphFacts.select_all_app.
    rewrite (ParagraphFacts.keywords_selected _ result) by reflexivity.
    assert (Habs : select_all (has_tag "a")
                     (when_str (abstract result) (fun a =>
                        [ Element "div" "mb-3" [] None
                            [ Element "h4" "text-sm font-semibold text-gray-700 mb-1" [] None
                                [Text "Abstract"];
                              Element "p" "text-sm text-gray-600" [] None [Text a] ] ])) = []).
    { unfold when_str. destruct (abstract result) as [a|]; [|reflexivity].
      destruct (String.eqb a EmptyString); reflexivity. }
    rewrite Habs. reflexivity.
  - reflexivity.
Qed.

(** X3.  The table of papers asks for the first hundred papers and no
    more: its call [api.listAllPapers()] is a GET of
    [API_BASE_URL/papers?limit=100&offset=0]; the defaults also replace a
    [limit] or [offset] that is 0, missing or otherwise falsy in the
    options; and options that are [null] make the call throw a
    [TypeError] before any request is made. *)
Theorem listAllPapers_first_hundred :
  ∀ (base : option string) (fetch : Api.Request -> outcome Api.Response),
    Papers.invoke base fetch Papers.listAllPapers
    = Api.send fetch
        (Return (Api.get_request (Api.API_BASE_URL base +:+ "/papers?limit=100&offset=0")))
    ∧ (∀ fields,
         truthy (default VUndefined (assoc "limit" fields)) = false →
         truthy (default VUndefined (assoc "offset" fields)) = false →
         Api.listAllPapers base fetch (VObj fields)
         = Papers.invoke base fetch Papers.listAllPapers)
    ∧ Api.listAllPapers base fetch VNull = Throw (TypeError_read VNull "limit").
Proof.
  intros base fetch. split; [reflexivity|]. split; [|reflexivity].
  intros fields Hlimit Hoffset. unfold Api.listAllPapers. cbn.
  unfold or_else. rewrite Hlimit, Hoffset. reflexivity.
Qed.

(** X4.  The two download links of a paper differ when a base URL is
    configured.  The table of papers builds its link with
    [api.getPaperDownloadUrl], from [API_BASE_URL]; the result list
    writes [/api/papers/download/<id>] out.  For the same paper the two
    are the same address exactly when [API_BASE_URL] is [/api], that is
    when [VITE_API_BASE_URL] is not set, is empty or is [/api]. *)
Theorem download_links_agree_iff_default_base :
  ∀ (base : option string) (fetch : Api.Request -> outcome Api.Response)
    (paper : Papers.Paper) (result : Result),
    Papers.id paper = paper_id result →
    (∃ link href,
        select (has_tag "a") (ResultListPlain.card (Some (paper_id result)) result) = [link]
        ∧ href_of link = Some href
        ∧ (Papers.download_href base fetch paper = Return (VStr href)
           ↔ Api.API_BASE_URL base = "/api"))
    ∧ (Api.API_BASE_URL base = "/api"
       ↔ base = None ∨ base = Some EmptyString ∨ base = Some "/api").
Proof.
  intros base fetch paper result Hid. split.
  - destruct (open_card_links result) as (link & Hlink & Hhref).
    exists link, ("/api/papers/download/" +:+ paper_id result).
    split; [exact Hlink|]. split; [exact Hhref|].
    change (Papers.download_href base fetch paper)
      with (@Return value
              (VStr (Api.API_BASE_URL base +:+ "/papers/download/" +:+ Papers.id paper))).
    rewrite Hid. split.
    + intros H. injection H as H.
      apply (append_inv_tail _ _ ("/papers/download/" +:+ paper_id result)).
      exact H.
    + intros ->. reflexivity.
  - unfold Api.API_BASE_URL, truthy_str. destruct base as [u|]; [|split; auto].
    destruct (String.eqb_spec u EmptyString) as [->|Hne]; cbn [negb].
    + split; auto.
    + split; [intros ->; auto|].
      intros [H|[H|H]]; try discriminate; injection H as ->; [contradiction|reflexivity].
Qed.

End LinkFacts.

(** A network that is down. *)
Definition no_network (request : Api.Request) : JS.outcome Api.Response :=
  JS.Throw JS.TypeError_fetch.

Definition attention_paper : Papers.Paper :=
  {| Papers.id := "p1"; Papers.title := "Attention"; Papers.authors := None;
     Papers.publication_year := Some 2017 |}.

Lemma download_links_witness :
  (∃ link href,
      Dom.select (Dom.has_tag "a")
        (ResultListPlain.card (Some (SearchResult.paper_id demo_result)) demo_result) = [link]
      ∧ LinkFacts.href_of link = Some href
      ∧ (Papers.download_href (Some "http://localhost:8000/api") no_network attention_paper
         = JS.Return (JS.VStr href)
         ↔ Api.API_BASE_URL (Some "http://localhost:8000/api") = "/api"))
  ∧ (Api.API_BASE_URL (Some "http://localhost:8000/api") = "/api"
     ↔ Some "http://localhost:8000/api" = None
       ∨ Some "http://localhost:8000/api" = Some EmptyString
       ∨ Some "http://localhost:8000/api" = Some "/api").
Proof.
  apply (LinkFacts.download_links_agree_iff_default_base
           (Some "http://localhost:8000/api") no_network attention_paper demo_result).
  reflexivity.
Defined.

(** ** The index panel never gets a status *)

Module PanelRunFacts.
Import JS IndexManagement PanelRun.

Definition is_call_error (n : notification) : Prop :=
  match n with
  | onError _ (TypeError_call _) => True
  | _ => False
  end.

Record invariant (sys : System) : Prop := {
  inv_status : indexStatus (panel sys) = None;
  inv_dialog : showRollbackConfirmation (panel sys) = false;
  inv_wire : rollbackIndex ∉ wire sys;
  inv_notes : Forall is_call_error (notes sys);
}.

Lemma panel_mounted_invariant : invariant mounted.
Proof.
  split; try reflexivity; [|constructor].
  cbn. intros H. apply list_elem_of_singleton in H. discriminate H.
Qed.

Lemma rollback_disabled_without_status (st : State) :
  indexStatus st = None → rollback_button_disabled st = true.
Proof.
  intros H. unfold rollback_button_disabled, no_backup. rewrite H.
  apply orb_true_r.
Qed.

Lemma not_elem_of_delete (c : api_call) (i : nat) (w : list api_call) :
  c ∉ w → c ∉ delete i w.
Proof.
  intros Hnot Hin. apply Hnot.
  eapply elem_of_sublist; [exact Hin|]. apply sublist_delete.
Qed.

Section Wired.
Variable VITE_API_BASE_URL : option string.
Variable fetch : Api.Request -> outcome Api.Response.

Lemma invoke_throws (c : api_call) :
  Panel.invoke VITE_API_BASE_URL fetch c = Throw (TypeError_call ("api." +:+ api_name c)).
Proof. destruct c; reflexivity. Qed.

Lemma panel_step_invariant (ev : event) (sys sys' : System) :
  invariant sys → step VITE_API_BASE_URL fetch ev sys = Some sys' → invariant sys'.
Proof.
  intros [Hstatus Hdialog Hwire Hnotes] Hstep.
  assert (Hsnoc : ∀ c, c ≠ rollbackIndex → rollbackIndex ∉ wire sys ++ [c]).
  { intros c Hc Hin. apply elem_of_app in Hin as [Hin|Hin]; [contradiction|].
    apply list_elem_of_singleton in Hin. congruence. }
  destruct ev as [ | | | | |checked| | |i]; cbn [step] in Hstep.
  - destruct (isLoadingStatus (panel sys)); [discriminate|]. injection Hstep as <-.
    split; cbn; rewrite ?app_nil_r; auto; apply Hsnoc; discriminate.
  - destruct (rebuild_button_disabled (panel sys)); [discriminate|]. injection Hstep as <-.
    split; cbn; rewrite ?app_nil_r; auto.
  - rewrite rollback_disabled_without_status in Hstep by assumption. discriminate.
  - destruct (_ && _); [|discriminate]. injection Hstep as <-.
    split; cbn; rewrite ?app_nil_r; auto.
  - rewrite Hdialog in Hstep. discriminate.
  - destruct (showRebuildConfirmation (panel sys)); [|discriminate]. injection Hstep as <-.
    split; cbn; rewrite ?app_nil_r; auto.
  - destruct (_ && _); [|discriminate]. injection Hstep as <-.
    split; cbn; rewrite ?app_nil_r; auto; apply Hsnoc; discriminate.
  - rewrite Hdialog in Hstep. discriminate.
  - destruct (wire sys !! i) as [c|] eqn:Hi; [|discriminate]. injection Hstep as <-.
    pose proof (not_elem_of_delete _ i _ Hwire) as Hwire'.
    unfold resume. rewrite invoke_throws.
    destruct c; cbn; split; cbn; rewrite ?app_nil_r; auto;
      apply Forall_app; split; auto; repeat constructor.
Qed.

Lemma panel_run_invariant (evs : list event) (sys sys' : System) :
  invariant sys → run VITE_API_BASE_URL fetch evs sys = Some sys' → invariant sys'.
Proof.
  revert sys. induction evs as [|ev evs IH]; intros sys Hinv Hrun; cbn in Hrun.
  - injection Hrun as <-. assumption.
  - destruct (step VITE_API_BASE_URL fetch ev sys) as [sys1|] eqn:Hstep; [|discriminate].
    eapply IH; [|exact Hrun]. eapply panel_step_invariant; eassumption.
Qed.

Lemma resume_any_network (fetch' : Api.Request -> outcome Api.Response)
    (c : api_call) (sys : System) :
  resume VITE_API_BASE_URL fetch c sys = resume VITE_API_BASE_URL fetch' c sys.
Proof. destruct c; reflexivity. Qed.

Lemma run_any_network (fetch' : Api.Request -> outcome Api.Response)
    (evs : list event) (sys : System) :
  run VITE_API_BASE_URL fetch evs sys = run VITE_API_BASE_URL fetch' evs sys.
Proof.
  revert sys. induction evs as [|ev evs IH]; intros sys; [reflexivity|].
  cbn [run].
  assert (Hstep : step VITE_API_BASE_URL fetch ev sys = step VITE_API_BASE_URL fetch' ev sys).
  { destruct ev; try reflexivity. cbn [step].
    destruct (wire sys !! i); [|reflexivity]. f_equal. apply resume_any_network. }
  rewrite Hstep. destruct (step VITE_API_BASE_URL fetch' ev sys); [apply IH|reflexivity].
Qed.

End Wired.

(** X12.  With the [api] object of services/api.js the index panel never
    gets a status.  In every run of the panel (any clicks on enabled
    buttons, the awaited calls resuming in any order): no index status is
    ever stored, so the rollback button stays disabled and the rollback
    dialog is never shown; [api.rollbackIndex] is never called; every
    notification of the panel is an [onError] carrying the [TypeError] of
    a call to a method the object does not have; and the run is the same
    whatever the network does, no request being made. *)
Theorem index_panel_never_gets_status :
  ∀ (base : option string) (fetch : Api.Request -> outcome Api.Response)
    (evs : list event) (sys : System),
    run base fetch evs mounted = Some sys →
    indexStatus (panel sys) = None
    ∧ rollback_button_disabled (panel sys) = true
    ∧ showRollbackConfirmation (panel sys) = false
    ∧ (rollbackIndex ∉ wire sys)
    ∧ (∀ n, n ∈ notes sys → ∃ prefix callee, n = onError prefix (TypeError_call callee))
    ∧ (∀ fetch', run base fetch' evs mounted = Some sys).
Proof.
  intros base fetch evs sys Hrun.
  destruct (panel_run_invariant base fetch evs mounted sys panel_mounted_invariant Hrun)
    as [Hstatus Hdialog Hwire Hnotes].
  split; [assumption|]. split; [apply rollback_disabled_without_status, Hstatus|].
  split; [assumption|]. split; [assumption|]. split.
  - intros n Hn. eapply Forall_forall in Hnotes; [|exact Hn].
    destruct n as [m|prefix [| | |callee|]]; try contradiction. eauto.
  - intros fetch'. rewrite <- Hrun. symmetry. apply run_any_network.
Qed.

End PanelRunFacts.

(** The status fails to load; a rebuild is confirmed and fails too. *)
Definition rebuild_attempt : list PanelRun.event :=
  [ PanelRun.Settle 0; PanelRun.ClickRebuild; PanelRun.CheckParagraphs true;
    PanelRun.ConfirmRebuild; PanelRun.Settle 0; PanelRun.ClickRefresh; PanelRun.Settle 0 ].

Lemma index_panel_witness :
  ∃ sys,
    PanelRun.run None no_network rebuild_attempt PanelRun.mounted = Some sys
    ∧ IndexManagement.rollback_button_disabled (PanelRun.panel sys) = true
    ∧ length (PanelRun.notes sys) = 3%nat.
Proof.
  eexists. split; [vm_compute; reflexivity|]. split; [|reflexivity].
  exact (proj1 (proj2 (PanelRunFacts.index_panel_never_gets_status
                         None no_network rebuild_attempt _ eq_refl))).
Defined.

(** ** Which queries the search form submits *)

Module QueryFacts.
Import JS SearchForm.

(** Nothing but white space. *)
Fixpoint blank (s : string) : bool :=
  match s with
  | EmptyString => true
  | String c s' => is_white_space c && blank s'
  end.

Lemma trim_start_blank (s : string) : blank s = true → trim_start s = EmptyString.
Proof.
  induction s as [|c s IH]; [reflexivity|]. cbn [blank trim_start].
  intros H. apply andb_prop in H as [-> H]. auto.
Qed.

Lemma trim_start_head (s : string) :
  trim_start s = EmptyString ∧ blank s = true
  ∨ ∃ c rest, trim_start s = String c rest ∧ is_white_space c = false ∧ blank s = false.
Proof.
  induction s as [|c s IH]; [left; split; reflexivity|].
  cbn [trim_start blank]. destruct (is_white_space c) eqn:Hc.
  - destruct IH as [[-> ->]|(c' & rest & -> & Hc' & ->)]; [left|right]; eauto.
  - right. exists c, s. auto.
Qed.

Lemma trim_end_head (c : ascii) (s : string) :
  is_white_space c = false → trim_end (String c s) ≠ EmptyString.
Proof.
  intros Hc. cbn [trim_end]. destruct (trim_end s); [rewrite Hc|]; discriminate.
Qed.

Lemma trim_blank (s : string) : trim s = EmptyString ↔ blank s = true.
Proof.
  unfold trim.
  destruct (trim_start_head s) as [[-> ->]|(c & rest & -> & Hc & ->)].
  - split; reflexivity.
  - split; [|discriminate]. intros H. exfalso. exact (trim_end_head c rest Hc H).
Qed.

(** X5.  The search form submits exactly the queries that are not blank:
    [handleSubmit] calls [onSearch] unless the query is empty or made of
    white space only; and the query it passes on is the text as typed,
    with its leading and trailing white space, not the trimmed one. *)
Theorem blank_query_not_submitted :
  ∀ st : State,
    (handleSubmit st = None ↔ blank (query st) = true)
    ∧ (∀ request, handleSubmit st = Some request →
                  get request "query" = Return (VStr (query st))).
Proof.
  intros st. unfold handleSubmit, truthy_str.
  destruct (String.eqb_spec (trim (query st)) EmptyString) as [Hblank|Hfull]; cbn [negb].
  - split; [|discriminate]. split; [|reflexivity]. intros _. apply trim_blank, Hblank.
  - split.
    + split; [discriminate|]. intros H. apply trim_blank in H. contradiction.
    + intros request [= <-]. reflexivity.
Qed.

End QueryFacts.

(** ** A year typed in digits *)

Module YearFacts.
Import JS.



End YearFacts.


(** ** Rendering the result list *)

Module RenderFacts.
Import JS Dom SearchResult ResultList.

Lemma append_empty (s : string) : s +:+ EmptyString = s.
Proof.
  induction s as [|c s IH]; [reflexivity|].
  change (String c s +:+ EmptyString) with (String c (s +:+ EmptyString)).
  rewrite IH. reflexivity.
Qed.

(** The text a list of nodes shows. *)
Definition text_of (nodes : list node) : string :=
  foldr (fun n acc => textContent n +:+ acc) EmptyString nodes.

Lemma queryTerms_of_short (query : string) :
  Forall (fun term => (String.length term <= 2)%nat) (split_ws query) →
  queryTerms_of query = [].
Proof.
  unfold queryTerms_of. induction 1 as [|term terms Hterm _ IH]; [reflexivity|].
  rewrite filter_cons_False by lia. exact IH.
Qed.

Section Engine.
Variable regexp_split : string -> string -> outcome (list (option string)).

Lemma highlightText_without_terms (text query : string) :
  queryTerms_of query = [] →
  highlightText regexp_split text query = Return [Text text].
Proof.
  intros Hterms. unfold highlightText. rewrite Hterms.
  destruct (negb (truthy_str query) || negb (truthy_str text)); reflexivity.
Qed.

Lemma traverse_returns {A B} (f : A -> outcome B) (l : list A) :
  (∀ x, ∃ y, f x = Return y) → ∃ ys, traverse f l = Return ys.
Proof.
  intros Hf. induction l as [|x l [ys IH]]; [exists []; reflexivity|].
  destruct (Hf x) as [y Hy]. exists (y :: ys). cbn [traverse]. rewrite Hy, IH. reflexivity.
Qed.

Lemma traverse_ext {A B} (f g : A -> outcome B) (l : list A) :
  (∀ x, f x = g x) → traverse f l = traverse g l.
Proof.
  intros Hfg. induction l as [|x l IH]; [reflexivity|].
  cbn [traverse]. rewrite Hfg, IH. reflexivity.
Qed.

End Engine.

Lemma card_without_terms (engine engine' : string -> string -> outcome (list (option string)))
    (useParagraphs : bool) (query : string) (st : State) (result : Result) :
  queryTerms_of query = [] →
  card engine useParagraphs query st result = card engine' useParagraphs query st result
  ∧ ∃ tree, card engine useParagraphs query st result = Return tree.
Proof.
  intros Hterms.
  assert (Hhit : ∀ e p, paragraph_hit e query p
                        = paragraph_hit (fun _ _ => Return []) query p
                        ∧ ∃ hit, paragraph_hit e query p = Return hit).
  { intros e p. unfold paragraph_hit. rewrite !highlightText_without_terms by assumption.
    split; [reflexivity|]. eexists. reflexivity. }
  assert (Hblock : ∀ e, matching_block e useParagraphs query st result
                        = matching_block (fun _ _ => Return []) useParagraphs query st result
                        ∧ ∃ block, matching_block e useParagraphs query st result
                                   = Return block).
  { intros e. unfold matching_block.
    destruct (matching_paragraphs result) as [paragraphs|];
      [|split; [reflexivity|eexists; reflexivity]].
    destruct (useParagraphs && (0 <? length paragraphs)%nat);
      [|split; [reflexivity|eexists; reflexivity]].
    rewrite (traverse_ext (paragraph_hit e query)
               (paragraph_hit (fun _ _ => Return []) query)) by (intros p; apply Hhit).
    split; [reflexivity|].
    destruct (traverse_returns (paragraph_hit (fun _ _ => Return []) query)
                (if paragraphs_expanded st (paper_id result)
                 then paragraphs else take 2 paragraphs)) as [hits ->];
      [intros p; apply Hhit|].
    eexists. reflexivity. }
  unfold card.
  destruct (bool_decide (expandedId st = Some (paper_id result)));
    [|split; [reflexivity|eexists; reflexivity]].
  destruct (Hblock engine) as [-> _]. destruct (Hblock engine') as [-> [block ->]].
  destruct (abstract result) as [a|]; [|split; [reflexivity|eexists; reflexivity]].
  destruct (String.eqb a EmptyString); [split; [reflexivity|eexists; reflexivity]|].
  destruct useParagraphs; [|split; [reflexivity|eexists; reflexivity]].
  rewrite !highlightText_without_terms by assumption.
  split; [reflexivity|eexists; reflexivity].
Qed.

(** X13.  A query without a word of three characters or more is never
    highlighted and always renders: when every piece of the query between
    white space has at most two characters, the result list renders to a
    tree, in paragraph mode or not, without consulting the
    regular-expression engine (the tree is the same for every engine), and
    [highlightText] gives the text back as it is. *)
Theorem short_query_renders_without_engine :
  ∀ (props : Props) (st : State),
    Forall (fun term => (String.length term <= 2)%nat) (split_ws (query props)) →
    (∃ tree, ∀ engine, ResultList engine props st = Return tree)
    ∧ (∀ engine text, highlightText engine text (query props) = Return [Text text]).
Proof.
  intros props st Hshort. apply queryTerms_of_short in Hshort. split.
  - assert (Hsame : ∀ engine,
               ResultList engine props st = ResultList (fun _ _ => Return []) props st).
    { intros engine. unfold ResultList.
      destruct (length (results props) =? 0)%nat; [reflexivity|].
      rewrite (traverse_ext
                 (card engine (default false (useParagraphs props)) (query props) st)
                 (card (fun _ _ => Return []) (default false (useParagraphs props))
                    (query props) st));
        [reflexivity|].
      intros result. apply card_without_terms, Hshort. }
    assert (Hreturns : ∃ tree, ResultList (fun _ _ => Return []) props st = Return tree).
    { unfold ResultList.
      destruct (length (results props) =? 0)%nat; [eexists; reflexivity|].
      destruct (traverse_returns
                  (card (fun _ _ => Return []) (default false (useParagraphs props))
                     (query props) st) (results props)) as [cards ->].
      - intros result.
        apply (card_without_terms (fun _ _ => Return []) (fun _ _ => Return [])), Hshort.
      - eexists. reflexivity. }
    destruct Hreturns as [tree Htree]. exists tree. intros engine.
    rewrite Hsame. exact Htree.
  - intros engine text. apply highlightText_without_terms, Hshort.
Qed.

Lemma text_of_spans (f : string -> string) (parts : list string) :
  text_of (map (fun part => Element "span" (f part) [] None [Text part]) parts)
  = join EmptyString parts.
Proof.
  induction parts as [|part parts IH]; [reflexivity|].
  change (text_of (map (fun part => Element "span" (f part) [] None [Text part])
                     (part :: parts)))
    with ((part +:+ EmptyString)
            +:+ text_of (map (fun part => Element "span" (f part) [] None [Text part]) parts)).
  rewrite append_empty, IH.
  destruct parts as [|next parts]; [apply append_empty|reflexivity].
Qed.

(** X14.  Highlighting never changes the text shown.  Whenever
    [highlightText] returns, and the pieces the engine splits the text
    into make up the text again, the nodes returned show the text, piece
    by piece; and a piece is marked (class [bg-yellow-200]) only if it
    equals one of the query terms, the case of letters apart. *)
Theorem highlightText_keeps_text :
  ∀ (engine : string -> string -> outcome (list (option string))) (text query : string)
    (nodes : list node),
    (∀ parts, engine (pattern_of (queryTerms_of query)) text = Return (Some <$> parts) →
              join EmptyString parts = text) →
    highlightText engine text query = Return nodes →
    text_of nodes = text
    ∧ ∀ n, n ∈ nodes → has_class "span" "bg-yellow-200" n = true →
           ∃ term, term ∈ queryTerms_of query
                   ∧ toLowerCase (textContent n) = toLowerCase term.
Proof.
  intros engine text query nodes Hsplit. unfold highlightText.
  destruct (negb (truthy_str query) || negb (truthy_str text)).
  { intros [= <-]. split; [apply append_empty|].
    intros n Hn. apply list_elem_of_singleton in Hn. subst n. discriminate. }
  destruct (length (queryTerms_of query) =? 0)%nat.
  { intros [= <-]. split; [apply append_empty|].
    intros n Hn. apply list_elem_of_singleton in Hn. subst n. discriminate. }
  destruct (engine (pattern_of (queryTerms_of query)) text) as [pieces|err] eqn:Hpieces;
    [|discriminate].
  cbn [mbind outcome_bind]. intros Hnodes.
  apply ParagraphFacts.spans_returned in Hnodes as (parts & -> & ->). split.
  - rewrite <- (Hsplit parts eq_refl).
    rewrite <- (text_of_spans
                  (fun part =>
                     if existsb (fun term => String.eqb (toLowerCase part) (toLowerCase term))
                          (queryTerms_of query)
                     then "bg-yellow-200" else EmptyString) parts).
    unfold text_of. f_equal. apply map_ext. intros part.
    unfold ParagraphFacts.span_of. destruct (existsb _ _); reflexivity.
  - intros n Hn Hmark. apply list_elem_of_fmap in Hn as (part & -> & _).
    unfold ParagraphFacts.span_of in *.
    destruct (existsb _ _) eqn:Hmatch; [|discriminate].
    apply existsb_exists in Hmatch as (term & Hterm & Heq).
    exists term. split; [apply list_elem_of_In, Hterm|].
    cbn [textContent foldr]. rewrite append_empty. apply String.eqb_eq, Heq.
Qed.

(** The details of an open card. *)
Definition is_details : node -> bool := has_class "div" "p-4 border-t bg-gray-50".

Lemma card_details (expandedId : option string) (result : Result) :
  length (select is_details (ResultListPlain.card expandedId result))
  = if bool_decide (expandedId = Some (paper_id result)) then 1%nat else 0%nat.
Proof.
  unfold ResultListPlain.card.
  destruct (bool_decide (expandedId = Some (paper_id result))).
  - cbn -[ResultListPlain.formatAuthors ResultListPlain.formatScore when_num when_str Nat.ltb].
    repeat match goal with
           | |- context [concat (map (select ?p) ?l)] =>
               change (concat (map (select p) l)) with (select_all p l)
           end.
    rewrite (ParagraphFacts.header_line_selected _ result) by reflexivity.
    rewrite !ParagraphFacts.select_all_app.
    rewrite (ParagraphFacts.keywords_selected _ result) by reflexivity.
    assert (Habs : select_all is_details
                     (when_str (abstract result) (fun a =>
                        [ Element "div" "mb-3" [] None
                            [ Element "h4" "text-sm font-semibold text-gray-700 mb-1" [] None
                                [Text "Abstract"];
                              Element "p" "text-sm text-gray-600" [] None [Text a] ] ])) = []).
    { unfold when_str. destruct (abstract result) as [a|]; [|reflexivity].
      destruct (String.eqb a EmptyString); reflexivity. }
    rewrite Habs. reflexivity.
  - cbn -[ResultListPlain.formatAuthors ResultListPlain.formatScore when_num when_str].
    repeat match goal with
           | |- context [concat (map (select ?p) ?l)] =>
               change (concat (map (select p) l)) with (select_all p l)
           end.
    rewrite (ParagraphFacts.header_line_selected _ result) by reflexivity.
    reflexivity.
Qed.

(** The number of results with a given id. *)
Fixpoint count_id (paperId : option string) (results : list Result) : nat :=
  match results with
  | [] => 0
  | result :: results' =>
      (if bool_decide (paperId = Some (paper_id result)) then 1 else 0)
      + count_id paperId results'
  end.

Lemma cards_details (expandedId : option string) (results : list Result) :
  length (select_all is_details (map (ResultListPlain.card expandedId) results))
  = count_id expandedId results.
Proof.
  induction results as [|result results IH]; [reflexivity|].
  change (map (ResultListPlain.card expandedId) (result :: results))
    with ([ResultListPlain.card expandedId result]
            ++ map (ResultListPlain.card expandedId) results).
  rewrite ParagraphFacts.select_all_app, length_app, IH.
  unfold select_all at 1. cbn [map concat]. rewrite app_nil_r, card_details.
  reflexivity.
Qed.

Lemma count_id_NoDup (paperId : option string) (results : list Result) :
  NoDup (map paper_id results) → (count_id paperId results <= 1)%nat.
Proof.
  induction results as [|result results IH]; intros Hnd; cbn [count_id]; [lia|].
  cbn [map] in Hnd. apply NoDup_cons in Hnd as [Hfresh Hnd]. specialize (IH Hnd).
  case_bool_decide as Hid; [|lia].
  assert (count_id paperId results = 0%nat); [|lia].
  clear IH Hnd. induction results as [|other results IH]; [reflexivity|].
  cbn [count_id]. cbn [map] in Hfresh. apply not_elem_of_cons in Hfresh as [Hne Hfresh].
  rewrite bool_decide_eq_false_2 by congruence. apply IH, Hfresh.
Qed.

(** X15.  At most one result is open at a time.  The result list shows
    the details (abstract, keywords, download link) of exactly the results
    whose [paper_id] is the expanded one: of none when no result is
    expanded, and of at most one when the ids of the results are
    distinct; and a click on the header of a result leaves that result
    open if it was closed, closed if it was open, and every other result
    closed. *)
Theorem at_most_one_result_open :
  ∀ (props : Props) (expandedId : option string),
    results props ≠ [] →
    length (select is_details (ResultListPlain.ResultList props expandedId))
    = count_id expandedId (results props)
    ∧ count_id None (results props) = 0%nat
    ∧ (NoDup (map paper_id (results props)) →
       (count_id expandedId (results props) <= 1)%nat)
    ∧ (∀ clicked other : Result,
         paper_id other ≠ paper_id clicked →
         let after := ResultListPlain.toggleExpanded (paper_id clicked) expandedId in
         select is_details (ResultListPlain.card after other) = []
         ∧ length (select is_details (ResultListPlain.card after clicked))
           = (1 - length (select is_details (ResultListPlain.card expandedId clicked)))%nat).
Proof.
  intros props expandedId Hsome. split; [|split; [|split]].
  - unfold ResultListPlain.ResultList.
    destruct (results props) as [|result results] eqn:Hresults; [contradiction|].
    cbn [length Nat.eqb]. rewrite <- cards_details.
    rewrite ParagraphFacts.select_element. unfold select_all at 1. cbn [map concat].
    rewrite (ParagraphFacts.select_element _ "div" "space-y-4").
    rewrite app_nil_r. reflexivity.
  - clear Hsome. induction (results props) as [|result results IH]; [reflexivity|exact IH].
  - apply count_id_NoDup.
  - intros clicked other Hne after. subst after. split.
    + apply nil_length_inv. rewrite card_details.
      unfold ResultListPlain.toggleExpanded.
      destruct (bool_decide (expandedId = Some (paper_id clicked))); [reflexivity|].
      rewrite bool_decide_eq_false_2 by congruence. reflexivity.
    + rewrite !card_details. unfold ResultListPlain.toggleExpanded.
      destruct (bool_decide (expandedId = Some (paper_id clicked))) eqn:Hopen.
      * reflexivity.
      * rewrite bool_decide_eq_true_2 by reflexivity. reflexivity.
Qed.

(** The box of the paragraph-context block. *)
Definition is_context_box : node -> bool :=
  has_class "div" "bg-gray-100 p-3 rounded-md text-sm text-gray-700 whitespace-pre-wrap".

(** [p.context && p.context !== p.text] *)
Definition has_own_context (p : Paragraph) : bool :=
  match context p with
  | Some c => truthy_str c && negb (String.eqb c (text p))
  | None => false
  end.

(** X16.  The context box shows the context of the first paragraph only.
    In paragraph mode, with the paragraph list of a result shown in full,
    the paragraph-context block is rendered exactly when some matching
    paragraph has a context that differs from its text; but the box then
    holds the context of the first matching paragraph, whichever
    paragraph that was: it is empty when the first one has no context. *)
Theorem context_box_shows_first_paragraph :
  ∀ (st : State) (result : Result) (first : Paragraph) (rest : list Paragraph),
    matching_paragraphs result = Some (first :: rest) →
    paragraphs_expanded st (paper_id result) = true →
    (existsb has_own_context (first :: rest) = false → context_block true st result = [])
    ∧ (existsb has_own_context (first :: rest) = true →
       ∃ box,
         select_all is_context_box (context_block true st result) = [box]
         ∧ textContent box = default EmptyString (context first)).
Proof.
  intros st result first rest Hps Hexpanded.
  unfold context_block. rewrite Hps, Hexpanded. cbn [andb].
  change (existsb _ (first :: rest)) with (existsb has_own_context (first :: rest)).
  split; intros ->; [reflexivity|].
  destruct (context first) as [c|].
  - eexists. split; [reflexivity|]. cbn. apply append_empty.
  - eexists. split; reflexivity.
Qed.

(** The number of clicks on the show-more button of a paper. *)
Fixpoint paragraph_clicks (paperId : string) (actions : list action) : nat :=
  match actions with
  | [] => 0
  | ToggleParagraphs id :: actions' =>
      (if bool_decide (id = paperId) then 1 else 0) + paragraph_clicks paperId actions'
  | ToggleExpanded _ :: actions' => paragraph_clicks paperId actions'
  end.

Lemma paragraphs_expanded_perform (a : action) (st : State) (paperId : string) :
  paragraphs_expanded (perform a st) paperId
  = xorb (paragraphs_expanded st paperId) (Nat.odd (paragraph_clicks paperId [a])).
Proof.
  destruct a as [id|id]; cbn [perform paragraph_clicks].
  - change (Nat.odd 0) with false. rewrite xorb_false_r. reflexivity.
  - destruct (decide (id = paperId)) as [->|Hid].
    + rewrite bool_decide_eq_true_2 by reflexivity.
      change (Nat.odd (1 + 0)) with true. rewrite xorb_true_r.
      unfold toggleParagraphs, paragraphs_expanded at 1. cbn [expandedParagraphs].
      rewrite lookup_insert_eq. reflexivity.
    + rewrite bool_decide_eq_false_2 by assumption.
      change (Nat.odd (0 + 0)) with false. rewrite xorb_false_r.
      unfold toggleParagraphs, paragraphs_expanded. cbn [expandedParagraphs].
      rewrite lookup_insert_ne by assumption. reflexivity.
Qed.

(** X17.  The paragraph list of each paper opens and closes on its own:
    each click on the show-more button of a paper turns its paragraph
    list from collapsed to shown in full or back, whatever was clicked
    for other papers and whichever cards were opened or closed in
    between.  Starting from the initial state, the list of a paper is
    shown in full exactly when its button has been clicked an odd number
    of times, unless the id of the paper is the name of a member every
    object inherits ('constructor', 'toString', ...): the list of such a
    paper is shown in full from the start, and exactly when its button
    has been clicked an even number of times. *)
Theorem paragraph_list_follows_own_clicks :
  ∀ (actions : list action) (st : State) (paperId : string),
    paragraphs_expanded (foldl (fun s a => perform a s) st actions) paperId
    = xorb (paragraphs_expanded st paperId) (Nat.odd (paragraph_clicks paperId actions))
    ∧ (paperId ∉ Object_prototype →
       paragraphs_expanded (foldl (fun s a => perform a s) initial actions) paperId
       = Nat.odd (paragraph_clicks paperId actions))
    ∧ (paperId ∈ Object_prototype →
       paragraphs_expanded (foldl (fun s a => perform a s) initial actions) paperId
       = Nat.even (paragraph_clicks paperId actions)).
Proof.
  assert (Hgen : ∀ actions st paperId,
             paragraphs_expanded (foldl (fun s a => perform a s) st actions) paperId
             = xorb (paragraphs_expanded st paperId)
                 (Nat.odd (paragraph_clicks paperId actions))).
  { induction actions as [|a actions IH]; intros st paperId.
    - cbn. rewrite xorb_false_r. reflexivity.
    - cbn [foldl]. rewrite IH, paragraphs_expanded_perform, xorb_assoc. f_equal.
      destruct a as [id|id]; cbn [paragraph_clicks]; [reflexivity|].
      set (n := paragraph_clicks paperId actions).
      case_bool_decide; [|reflexivity].
      change (xorb true (Nat.odd n) = Nat.odd (S n)).
      rewrite Nat.odd_succ, <- Nat.negb_odd. reflexivity. }
  intros actions st paperId. split; [apply Hgen|]. split; intros Hid; rewrite Hgen.
  - unfold paragraphs_expanded, initial. cbn [expandedParagraphs].
    rewrite lookup_empty, bool_decide_eq_false_2 by assumption. reflexivity.
  - unfold paragraphs_expanded, initial. cbn [expandedParagraphs].
    rewrite lookup_empty, bool_decide_eq_true_2 by assumption.
    rewrite xorb_true_l. apply Nat.negb_odd.
Qed.

End RenderFacts.

Lemma short_query_witness :
  (∃ tree, ∀ engine,
      ResultList.ResultList engine
        {| SearchResult.results := [demo_result]; SearchResult.totalCount := 1;
           SearchResult.query := "c+ (a ML"; SearchResult.executionTime := Num64.of_Z 42;
           SearchResult.useParagraphs := Some true |} demo_state = JS.Return tree)
  ∧ (∀ engine text,
       ResultList.highlightText engine text "c+ (a ML" = JS.Return [Dom.Text text]).
Proof.
  apply (RenderFacts.short_query_renders_without_engine
           {| SearchResult.results := [demo_result]; SearchResult.totalCount := 1;
              SearchResult.query := "c+ (a ML"; SearchResult.executionTime := Num64.of_Z 42;
              SearchResult.useParagraphs := Some true |} demo_state).
  vm_compute. repeat constructor.
Defined.

(** An engine that finds 'Trans' at the head of a text. *)
Definition finds_trans (pattern text : string) : JS.outcome (list (option string)) :=
  JS.Return [Some EmptyString; Some "Trans"; Some "former networks"].

Lemma highlightText_keeps_text_witness :
  RenderFacts.text_of
    [ Dom.Element "span" EmptyString [] None [Dom.Text EmptyString];
      Dom.Element "span" "bg-yellow-200" [] None [Dom.Text "Trans"];
      Dom.Element "span" EmptyString [] None [Dom.Text "former networks"] ]
  = "Transformer networks".
Proof.
  refine (proj1 (RenderFacts.highlightText_keeps_text finds_trans "Transformer networks"
                   "trans" _ _ _)).
  - intros [|a [|b [|c [|d parts]]]] Hparts; try discriminate Hparts.
    injection Hparts as <- <- <-. reflexivity.
  - reflexivity.
Defined.

Lemma at_most_one_result_open_witness :
  length (Dom.select RenderFacts.is_details
            (ResultListPlain.ResultList demo_props (Some "p1"))) = 1%nat.
Proof.
  refine (proj1 (RenderFacts.at_most_one_result_open demo_props (Some "p1") _)).
  discriminate.
Defined.

(** Two matching paragraphs; the second alone comes with a context. *)
Definition context_of_second : SearchResult.Result :=
  {| SearchResult.paper_id := "p1"; SearchResult.title := "Attention";
     SearchResult.authors := None; SearchResult.publication_year := None;
     SearchResult.conference := None; SearchResult.journal := None;
     SearchResult.abstract := None; SearchResult.keywords := None;
     SearchResult.similarity_score := Num64.one;
     SearchResult.matching_paragraphs :=
       Some [ demo_paragraph 0 "alpha";
              {| SearchResult.section := None; SearchResult.paragraph_index := 1;
                 SearchResult.text := "beta"; SearchResult.score := Num64.one;
                 SearchResult.context := Some "alpha beta gamma" |} ] |}.

Lemma context_box_witness :
  ∃ box,
    Dom.select_all RenderFacts.is_context_box
      (ResultList.context_block true
         {| ResultList.expandedId := Some "p1";
            ResultList.expandedParagraphs := {["p1" := true]} |} context_of_second) = [box]
    ∧ Dom.textContent box = EmptyString.
Proof.
  refine (proj2 (RenderFacts.context_box_shows_first_paragraph _ context_of_second
                   _ _ eq_refl _) eq_refl).
  reflexivity.
Defined.

(** ** Notifications *)

Module NotificationFacts.
Import JS AppShell.

Record invariant (w : World) : Prop := {
  inv_due : Forall (fun t => clock w < t <= clock w + 5000) (timers w);
  inv_pending : is_Some (notification (app w)) → timers w ≠ [];
}.

Lemma world_started_invariant : invariant started.
Proof. split; [constructor|]. intros [n Hn]. discriminate Hn. Qed.

Lemma filter_all (P : Z -> Prop) `{∀ t, Decision (P t)} (l : list Z) :
  Forall P l → filter P l = l.
Proof.
  induction 1 as [|t l Ht _ IH]; [reflexivity|].
  rewrite filter_cons_True by assumption. f_equal. exact IH.
Qed.

Lemma filter_none (P : Z -> Prop) `{∀ t, Decision (P t)} (l : list Z) :
  Forall (fun t => ¬ P t) l → filter P l = [].
Proof.
  induction 1 as [|t l Ht _ IH]; [reflexivity|].
  rewrite filter_cons_False by assumption. exact IH.
Qed.

Lemma showNotification_invariant type message (w : World) :
  invariant w → invariant (showNotification type message w).
Proof.
  intros [Hdue Hpending]. split; cbn.
  - apply Forall_app. split; [assumption|]. repeat constructor; lia.
  - intros _ H. apply app_eq_nil in H as [_ H]. discriminate H.
Qed.

Lemma elapse_invariant (delay : Z) (w : World) :
  0 <= delay → invariant w → invariant (elapse delay w).
Proof.
  intros Hdelay [Hdue Hpending]. split; cbn.
  - apply Forall_forall. intros t Ht. apply list_elem_of_filter in Ht as [Hlate Ht].
    eapply Forall_forall in Hdue; [|exact Ht]. cbn in Hdue. lia.
  - destruct (filter (fun t => t <= clock w + delay) (timers w)) as [|t due] eqn:Hfired.
    + intros Hshown.
      assert (Hall : Forall (fun t => clock w + delay < t) (timers w)).
      { apply Forall_forall. intros t Ht.
        destruct (decide (t <= clock w + delay)) as [Hle|Hgt]; [|lia].
        assert (Hin : t ∈ filter (fun t => t <= clock w + delay) (timers w))
          by (apply list_elem_of_filter; auto).
        rewrite Hfired in Hin. inversion Hin. }
      rewrite filter_all by assumption. apply Hpending, Hshown.
    + cbn. intros [n Hn]. discriminate Hn.
Qed.

Lemma world_step_invariant (ev : event) (w w' : World) :
  invariant w → step ev w = Some w' → invariant w'.
Proof.
  intros Hinv Hstep. destruct ev as [type message| |delay]; cbn in Hstep.
  - injection Hstep as <-. apply showNotification_invariant, Hinv.
  - destruct (notification (app w)); [|discriminate]. injection Hstep as <-.
    destruct Hinv as [Hdue Hpending]. split; cbn; [assumption|].
    intros [x Hx]. discriminate Hx.
  - destruct (Z.leb_spec 0 delay); [|discriminate]. injection Hstep as <-.
    apply elapse_invariant; assumption.
Qed.

Lemma world_run_invariant (evs : list event) (w w' : World) :
  invariant w → run evs w = Some w' → invariant w'.
Proof.
  revert w. induction evs as [|ev evs IH]; intros w Hinv Hrun; cbn in Hrun.
  - injection Hrun as <-. assumption.
  - destruct (step ev w) as [w1|] eqn:Hstep; [|discriminate].
    eapply IH; [|exact Hrun]. eapply world_step_invariant; eassumption.
Qed.

Lemma elapse_clears (w : World) :
  invariant w → notification (app (elapse 5000 w)) = None ∧ timers (elapse 5000 w) = [].
Proof.
  intros [Hdue Hpending]. cbn. split.
  - destruct (notification (app w)) as [n|] eqn:Hn.
    + rewrite filter_all by (eapply Forall_impl; [exact Hdue|]; cbn; intros; lia).
      destruct (timers w); [|reflexivity].
      exfalso. apply Hpending; [eauto|reflexivity].
    + destruct (filter _ _); [exact Hn|reflexivity].
  - apply filter_none. eapply Forall_impl; [exact Hdue|]. cbn. intros. lia.
Qed.

(** X8.  No notification stays longer than five seconds, and it may go
    sooner.  In every run of the application (notifications shown by the
    handlers, dismissed by the user, time passing): every pending timer
    is due within 5 seconds, and 5 seconds later no notification is shown
    and no timer is pending.  But a timer is never cancelled: when a
    second notification is shown [d] milliseconds after a first, the
    timer of the first removes the second after [5000 - d] milliseconds. *)
Theorem notification_cleared_by_oldest_timer :
  ∀ (evs : list event) (w : World),
    run evs started = Some w →
    Forall (fun t => clock w < t <= clock w + 5000) (timers w)
    ∧ notification (app (elapse 5000 w)) = None
    ∧ timers (elapse 5000 w) = []
    ∧ ∀ type1 message1 type2 message2 d,
        0 < d < 5000 →
        let second :=
          showNotification type2 message2 (elapse d (showNotification type1 message1 w)) in
        notification (app second) = Some {| type := type2; message := message2 |}
        ∧ notification (app (elapse (5000 - d) second)) = None
        ∧ timers (elapse (5000 - d) second) = [clock w + d + 5000].
Proof.
  intros evs w Hrun.
  pose proof (world_run_invariant evs started w world_started_invariant Hrun) as Hinv.
  split; [apply Hinv|]. split; [apply elapse_clears, Hinv|].
  split; [apply elapse_clears, Hinv|].
  intros type1 message1 type2 message2 d Hd second. subst second.
  destruct Hinv as [Hdue _].
  assert (Hrest : ∃ rest, filter (fun t => clock w + d < t) (timers w ++ [clock w + 5000])
                          = rest ++ [clock w + 5000]).
  { rewrite filter_app, (filter_cons_True _ (clock w + 5000)) by lia.
    eexists. reflexivity. }
  destruct Hrest as [rest Hrest].
  assert (Hrest_due : Forall (fun t => t <= clock w + 5000) rest).
  { apply Forall_forall. intros t Ht.
    assert (Hin : t ∈ filter (fun t => clock w + d < t) (timers w ++ [clock w + 5000]))
      by (rewrite Hrest; apply elem_of_app; auto).
    apply list_elem_of_filter in Hin as [_ Hin].
    apply elem_of_app in Hin as [Hin|Hin].
    - eapply Forall_forall in Hdue; [|exact Hin]. cbn in Hdue. lia.
    - apply list_elem_of_singleton in Hin. lia. }
  split; [reflexivity|]. cbn -[filter]. rewrite Hrest.
  replace (clock w + d + (5000 - d)) with (clock w + 5000) by lia.
  split.
  - rewrite !filter_app, (filter_cons_True _ (clock w + 5000)) by lia.
    destruct (filter _ rest); reflexivity.
  - rewrite !filter_app.
    rewrite (filter_none _ rest) by (eapply Forall_impl; [exact Hrest_due|]; cbn; intros; lia).
    rewrite (filter_cons_False _ (clock w + 5000)) by lia.
    rewrite (filter_cons_True _ (clock w + d + 5000)) by lia.
    reflexivity.
Qed.

End NotificationFacts.

(** A failed search is reported; three seconds later an upload succeeds. *)
Definition two_notifications : list AppShell.event :=
  [ AppShell.Show "error" (AppShell.Failure "Search failed: " JS.TypeError_fetch);
    AppShell.Elapse 3000;
    AppShell.Show "success" (AppShell.Plain "Paper uploaded successfully");
    AppShell.Elapse 2000 ].

Lemma notification_witness :
  ∃ w,
    AppShell.run two_notifications AppShell.started = Some w
    ∧ AppShell.notification (AppShell.app w) = None
    ∧ AppShell.timers w = [8000]
    ∧ AppShell.notification (AppShell.app (AppShell.elapse 5000 w)) = None.
Proof.
  eexists. split; [vm_compute; reflexivity|].
  split; [reflexivity|]. split; [reflexivity|].
  exact (proj1 (proj2 (NotificationFacts.notification_cleared_by_oldest_timer
                         two_notifications _ eq_refl))).
Defined.

(** ** A search from the form *)

Module FormSearchFacts.
Import JS AppShell.

(** X7.  Paragraph search cannot be asked for from the search form.  The
    object the form submits has no [useParagraphs] property, so for every
    search [handleSearch] stores [undefined] as the paragraph flag and
    calls [api.search] with a request whose address is [API_BASE_URL/search],
    without the query string [?use_paragraphs=true]; and whatever the
    call settles to, the note on paragraph search is not shown and the
    result list is given no flag: it renders as the list without paragraph
    search does, whatever the results hold. *)
Theorem form_search_without_paragraphs :
  ∀ (form : SearchForm.State) (request : value) (w : World),
    SearchForm.handleSubmit form = Some request →
    ∃ (w1 : World) (argument : value),
      handleSearch_begin request w = (w1, Return argument)
      ∧ useParagraphs (app w1) = VUndefined
      ∧ isSearching (app w1) = true
      ∧ searchResults (app w1) = VNull
      ∧ (∀ base, Api.url <$> Api.search_request base argument
                 = Return (Api.API_BASE_URL base +:+ "/search"))
      ∧ ∀ settled,
          let w2 := handleSearch_end settled w1 in
          isSearching (app w2) = false
          ∧ ResultList_useParagraphs (app w2) = None
          ∧ paragraph_note_shown (app w2) = false
          ∧ ∀ engine props st,
              SearchResult.useParagraphs props = ResultList_useParagraphs (app w2) →
              ResultList.ResultList engine props st
              = Return (ResultListPlain.ResultList props (ResultList.expandedId st)).
Proof.
  intros form request w Hsubmit. unfold SearchForm.handleSubmit in Hsubmit.
  destruct (truthy_str (SearchForm.trim (SearchForm.query form))); [|discriminate].
  injection Hsubmit as <-.
  eexists _, _. split; [reflexivity|].
  split; [reflexivity|]. split; [reflexivity|]. split; [reflexivity|].
  split; [reflexivity|].
  intros settled w2. subst w2.
  split; [destruct settled; reflexivity|].
  split; [destruct settled; reflexivity|].
  split; [destruct settled; unfold paragraph_note_shown; cbn; rewrite ?andb_false_r;
          reflexivity|].
  intros engine props st Hflag.
  assert (Hoff : SearchResult.useParagraphs props = None).
  { rewrite Hflag. destruct settled; reflexivity. }
  unfold ResultList.ResultList, ResultListPlain.ResultList. rewrite Hoff. cbn [default].
  destruct (length (SearchResult.results props) =? 0)%nat; [reflexivity|].
  rewrite (ResultListFacts.traverse_pure _
             (ResultListPlain.card (ResultList.expandedId st)))
    by apply ResultListFacts.card_off.
  reflexivity.
Qed.

End FormSearchFacts.

Lemma form_search_witness :
  ∃ (w1 : AppShell.World) (argument : JS.value),
    AppShell.handleSearch_begin (SearchForm.searchRequest_of demo_form) AppShell.started
    = (w1, JS.Return argument)
    ∧ AppShell.useParagraphs (AppShell.app w1) = JS.VUndefined
    ∧ AppShell.isSearching (AppShell.app w1) = true
    ∧ AppShell.searchResults (AppShell.app w1) = JS.VNull
    ∧ (∀ base, Api.url <$> Api.search_request base argument
               = JS.Return (Api.API_BASE_URL base +:+ "/search"))
    ∧ ∀ settled,
        let w2 := AppShell.handleSearch_end settled w1 in
        AppShell.isSearching (AppShell.app w2) = false
        ∧ AppShell.ResultList_useParagraphs (AppShell.app w2) = None
        ∧ AppShell.paragraph_note_shown (AppShell.app w2) = false
        ∧ ∀ engine props st,
            SearchResult.useParagraphs props
            = AppShell.ResultList_useParagraphs (AppShell.app w2) →
            ResultList.ResultList engine props st
            = JS.Return (ResultListPlain.ResultList props (ResultList.expandedId st)).
Proof.
  apply (FormSearchFacts.form_search_without_paragraphs demo_form).
  reflexivity.
Defined.

(** ** Uploading a paper *)

Module UploadFacts.
Import JS UploadForm.

Definition pdf_or_none (st : State) : Prop :=
  match file st with
  | Some f => type f = "application/pdf"
  | None => True
  end.

Lemma handle_pdf_or_none (ev : event) (st st' : State) :
  pdf_or_none st → handle ev st = Some st' → pdf_or_none st'.
Proof.
  intros Hpdf Hev. unfold pdf_or_none in *.
  destruct ev as [selected|b|b|b|name v|i v| |i|i v| |i]; cbn [handle] in Hev.
  - injection Hev as <-. unfold handleFileChange.
    destruct selected as [f|]; [|exact I].
    destruct (String.eqb_spec (type f) "application/pdf"); [assumption|exact I].
  - injection Hev as <-. exact Hpdf.
  - injection Hev as <-. exact Hpdf.
  - injection Hev as <-. exact Hpdf.
  - destruct (useCustomMetadata st); [|discriminate]. injection Hev as <-. exact Hpdf.
  - destruct (_ && _); [|discriminate].
    destruct (handleAuthorChange _ _ _); [|discriminate]. injection Hev as <-. exact Hpdf.
  - destruct (useCustomMetadata st); [|discriminate]. injection Hev as <-. exact Hpdf.
  - destruct (_ && _); [|discriminate]. injection Hev as <-. exact Hpdf.
  - destruct (_ && _); [|discriminate].
    destruct (handleKeywordChange _ _ _); [|discriminate]. injection Hev as <-. exact Hpdf.
  - destruct (useCustomMetadata st); [|discriminate]. injection Hev as <-. exact Hpdf.
  - destruct (_ && _); [|discriminate]. injection Hev as <-. exact Hpdf.
Qed.

Lemma run_pdf_or_none (evs : list event) (st st' : State) :
  pdf_or_none st → run evs st = Some st' → pdf_or_none st'.
Proof.
  revert st. induction evs as [|ev evs IH]; intros st Hpdf Hrun; cbn in Hrun.
  - injection Hrun as <-. assumption.
  - destruct (handle ev st) as [st1|] eqn:Hev; [|discriminate].
    eapply IH; [|exact Hrun]. eapply handle_pdf_or_none; eassumption.
Qed.

(** X18.  Only a PDF is ever uploaded.  In every state the upload form
    reaches (any files chosen, boxes ticked, metadata typed), a file is
    kept only if the browser reports its type as application/pdf; so
    [handleSubmit] either calls [onUpload] with form data whose [file]
    entry is such a file, or, when no file is kept, raises an alert and
    calls nothing. *)
Theorem only_pdf_is_uploaded :
  ∀ (evs : list event) (st : State),
    run evs initial = Some st →
    match file st with
    | Some f =>
        type f = "application/pdf"
        ∧ ∃ formData,
            handleSubmit st = ([], Some (formData, useParagraphProcessing st))
            ∧ assoc "file" formData = Some (FilePart f)
    | None => handleSubmit st = (["Please select a PDF file to upload."], None)
    end.
Proof.
  intros evs st Hrun.
  pose proof (run_pdf_or_none evs initial st I Hrun) as Hpdf.
  unfold pdf_or_none in Hpdf. unfold handleSubmit.
  destruct (file st) as [f|]; [|reflexivity].
  split; [exact Hpdf|]. eexists. split; reflexivity.
Qed.

(** The JSON of the custom metadata. *)
Definition metadata_json (m : Metadata) : json_value :=
  JObj [ ("title", JStr (title m));
         ("authors", JArr (map JStr (authors m)));
         ("abstract", JStr (abstract m));
         ("publication_year", SubmitFacts.year_json (publication_year m));
         ("doi", JStr (doi m));
         ("keywords", JArr (map JStr (keywords m)));
         ("conference", JStr (conference m));
         ("journal", JStr (journal m)) ].

Lemma stringify_cleanedMetadata (m : Metadata) :
  stringify (cleanedMetadata m) = Some (metadata_json m).
Proof.
  unfold cleanedMetadata, metadata_json. cbn -[SearchForm.parseInt].
  assert (Hlist : ∀ l : list string,
             map (fun x => default JNull (stringify x)) (map VStr l) = map JStr l).
  { induction l as [|x l IH]; [reflexivity|]. cbn. f_equal. exact IH. }
  rewrite !Hlist.
  assert (Hyear : stringify (if truthy_str (publication_year m)
                             then VNum (SearchForm.parseInt (publication_year m))
                             else VNull)
                  = Some (SubmitFacts.year_json (publication_year m))).
  { unfold SubmitFacts.year_json, truthy_str.
    destruct (String.eqb (publication_year m) EmptyString); [reflexivity|].
    cbn [negb]. destruct (SearchForm.parseInt (publication_year m)); reflexivity. }
  rewrite Hyear. reflexivity.
Qed.

(** X19.  What an upload sends.  When a file is chosen, the form data
    passed to [api.uploadPaper] holds, in this order: the file under
    [file]; the text 'true' or 'false' under [extract_metadata]; only if
    custom metadata is asked for, the JSON of all eight metadata fields
    under [custom_metadata], each text and each list as typed (an empty
    text as the empty text, not [null]; an empty author row as an empty
    name), the year alone being [null] when empty and the parsed integer
    otherwise; and the text 'true' or 'false' of the paragraph box under
    [use_paragraphs]. *)
Theorem upload_form_data :
  ∀ (st : State) (f : File) (w : AppShell.World),
    file st = Some f →
    ∃ formData,
      handleSubmit st = ([], Some (formData, useParagraphProcessing st))
      ∧ (AppShell.handleUpload_begin formData (useParagraphProcessing st) w).2
        = [ ("file", FilePart f);
            ("extract_metadata", TextPart (if extractMetadata st then "true" else "false")) ]
          ++ (if useCustomMetadata st
              then [("custom_metadata", JSONPart (Some (metadata_json (customMetadata st))))]
              else [])
          ++ [ ("use_paragraphs",
                TextPart (if useParagraphProcessing st then "true" else "false")) ]
      ∧ AppShell.isUploading
          (AppShell.app (AppShell.handleUpload_begin formData (useParagraphProcessing st) w).1)
        = true.
Proof.
  intros st f w Hfile. unfold handleSubmit. rewrite Hfile.
  eexists. split; [reflexivity|]. split; [|reflexivity].
  cbn [AppShell.handleUpload_begin snd]. rewrite stringify_cleanedMetadata.
  rewrite <- app_assoc. reflexivity.
Qed.


Lemma filter_index_from_delete (i index : nat) (l : list string) :
  (i <= index)%nat → filter_index_from i index l = delete (index - i)%nat l.
Proof.
  revert i. induction l as [|x l IH]; intros i Hi; [reflexivity|].
  cbn [filter_index_from]. destruct (Nat.eqb_spec i index) as [->|Hne].
  - rewrite Nat.sub_diag. change (delete 0%nat (x :: l)) with l.
    clear IH Hi. revert index. induction l as [|y l IH]; intros index; [reflexivity|].
    cbn [filter_index_from]. rewrite (proj2 (Nat.eqb_neq (S index) index)) by lia.
    f_equal. specialize (IH (S index)).
    assert (Hgen : ∀ j k, (k < j)%nat → filter_index_from j k l = l).
    { clear. induction l as [|z l IH]; intros j k Hjk; [reflexivity|].
      cbn [filter_index_from]. rewrite (proj2 (Nat.eqb_neq j k)) by lia.
      f_equal. apply IH. lia. }
    apply Hgen. lia.
  - rewrite IH by lia. replace (index - i)%nat with (S (index - S i)) by lia.
    reflexivity.
Qed.

Lemma metadata_eta (m : Metadata) :
  {| title := title m; authors := authors m; abstract := abstract m;
     publication_year := publication_year m; doi := doi m; keywords := keywords m;
     conference := conference m; journal := journal m |} = m.
Proof. destruct m; reflexivity. Qed.

(** X21.  The rows of authors of the upload form.  'Remove' deletes the
    row it belongs to and keeps the others in order; typing in a row
    replaces the name of that row alone; 'Add Author' appends an empty
    row, which the form keeps and sends as an empty name; and removing
    the row just added gives the state back. *)
Theorem author_rows_edit_by_index :
  ∀ (st : State),
    useCustomMetadata st = true →
    let rows := authors (customMetadata st) in
    (∀ index st',
        handle (RemoveAuthor index) st = Some st' →
        authors (customMetadata st') = delete index rows
        ∧ length (authors (customMetadata st')) = (length rows - 1)%nat)
    ∧ (∀ index v st',
         handle (AuthorChange index v) st = Some st' →
         authors (customMetadata st') = <[index := v]> rows
         ∧ authors (customMetadata st') !! index = Some v)
    ∧ (∃ st',
         handle AddAuthor st = Some st'
         ∧ authors (customMetadata st') = rows ++ [EmptyString]
         ∧ handle (RemoveAuthor (length rows)) st' = Some st).
Proof.
  intros st Hshown rows. subst rows. repeat split.
  - cbn [handle] in H. rewrite Hshown in H. cbn [andb] in H.
    destruct (index <? _)%nat; [|discriminate]. injection H as <-. cbn.
    unfold filter_index. rewrite filter_index_from_delete by lia.
    rewrite Nat.sub_0_r. reflexivity.
  - cbn [handle] in H. rewrite Hshown in H. cbn [andb] in H.
    destruct (Nat.ltb_spec index (length (authors (customMetadata st))));
      [|discriminate].
    injection H as <-. cbn. unfold filter_index. rewrite filter_index_from_delete by lia.
    rewrite Nat.sub_0_r, length_delete by (apply lookup_lt_is_Some; assumption).
    reflexivity.
  - cbn [handle] in H. rewrite Hshown in H. cbn [andb] in H.
    unfold handleAuthorChange, assign in H.
    destruct (index <? _)%nat; [|discriminate]. cbn in H. injection H as <-. reflexivity.
  - cbn [handle] in H. rewrite Hshown in H. cbn [andb] in H.
    unfold handleAuthorChange, assign in H.
    destruct (Nat.ltb_spec index (length (authors (customMetadata st))));
      [|discriminate].
    cbn in H. injection H as <-. cbn. apply list_lookup_insert_eq. assumption.
  - cbn [handle]. rewrite Hshown. eexists. split; [reflexivity|]. split; [reflexivity|].
    cbn [handle useCustomMetadata setCustomMetadata customMetadata addAuthorField
           with_authors authors andb].
    rewrite length_app. cbn [length].
    rewrite (proj2 (Nat.ltb_lt _ _)) by lia.
    unfold removeAuthorField, filter_index. cbn [authors with_authors].
    rewrite filter_index_from_delete by lia. rewrite Nat.sub_0_r.
    assert (Hdel : delete (length (authors (customMetadata st)))
                     (authors (customMetadata st) ++ [EmptyString])
                   = authors (customMetadata st)).
    { generalize (authors (customMetadata st)). intros l.
      induction l as [|x l IH]; [reflexivity|]. cbn. f_equal. exact IH. }
    rewrite Hshown. cbn [andb addAuthorField with_authors authors]. rewrite Hdel.
    unfold setCustomMetadata, with_authors. cbn.
    rewrite metadata_eta. destruct st; reflexivity.
Qed.

End UploadFacts.

Definition paper_pdf : UploadForm.File :=
  {| UploadForm.name := "attention.pdf"; UploadForm.type := "application/pdf" |}.

(** A text file is refused, a PDF is chosen, and an author is typed. *)
Definition upload_session : list UploadForm.event :=
  [ UploadForm.FileChange
      (Some {| UploadForm.name := "notes.txt"; UploadForm.type := "text/plain" |});
    UploadForm.FileChange (Some paper_pdf);
    UploadForm.CheckCustomMetadata true;
    UploadForm.AddAuthor;
    UploadForm.AuthorChange 0 "Vaswani" ].

Definition upload_state : UploadForm.State :=
  Eval vm_compute in default UploadForm.initial
                       (UploadForm.run upload_session UploadForm.initial).

Lemma only_pdf_witness :
  UploadForm.type paper_pdf = "application/pdf"
  ∧ ∃ formData,
      UploadForm.handleSubmit upload_state = ([], Some (formData, true))
      ∧ JS.assoc "file" formData = Some (UploadForm.FilePart paper_pdf).
Proof.
  exact (UploadFacts.only_pdf_is_uploaded upload_session upload_state eq_refl).
Defined.

Lemma upload_form_data_witness :
  ∃ formData,
    UploadForm.handleSubmit upload_state = ([], Some (formData, true))
    ∧ (AppShell.handleUpload_begin formData true AppShell.started).2
      = [ ("file", UploadForm.FilePart paper_pdf);
          ("extract_metadata", UploadForm.TextPart "true");
          ("custom_metadata",
           UploadForm.JSONPart
             (Some (UploadFacts.metadata_json (UploadForm.customMetadata upload_state))));
          ("use_paragraphs", UploadForm.TextPart "true") ]
    ∧ AppShell.isUploading
        (AppShell.app (AppShell.handleUpload_begin formData true AppShell.started).1)
      = true.
Proof.
  exact (UploadFacts.upload_form_data upload_state paper_pdf AppShell.started eq_refl).
Defined.

Lemma author_rows_witness :
  ∃ st',
    UploadForm.handle UploadForm.AddAuthor upload_state = Some st'
    ∧ UploadForm.authors (UploadForm.customMetadata st') = ["Vaswani"; EmptyString]
    ∧ UploadForm.handle (UploadForm.RemoveAuthor 1) st' = Some upload_state.
Proof.
  exact (proj2 (proj2 (UploadFacts.author_rows_edit_by_index upload_state eq_refl))).
Defined.

(** ** The matching-paragraphs block, shown in full *)

Module ExpandedFacts.
Import JS Dom SearchResult ResultList.

Lemma context_block_without (p : node -> bool) (st : State) (result : Result) :
  (∀ s, p (Text s) = false) →
  (∀ c a o ch, p (Element "h4" c a o ch) = false) →
  (∀ c a o ch, p (Element "span" c a o ch) = false) →
  (∀ a o ch, p (Element "div" "mb-3" a o ch) = false) →
  (∀ a o ch, p (Element "div" "flex items-center mb-1" a o ch) = false) →
  (∀ a o ch,
      p (Element "div"
           "bg-gray-100 p-3 rounded-md text-sm text-gray-700 whitespace-pre-wrap" a o ch)
      = false) →
  select_all p (context_block true st result) = [].
Proof.
  intros Htext Hh4 Hspan Hblock Hline Hbox. unfold context_block.
  destruct (matching_paragraphs result) as [paragraphs|]; [|reflexivity].
  destruct (true && paragraphs_expanded st (paper_id result) && existsb _ paragraphs);
    [|reflexivity].
  cbn. rewrite Hblock, Hline, Hh4, Hspan, Hbox, !Htext. cbn.
  destruct paragraphs as [|first rest]; [reflexivity|].
  destruct (context first) as [c|]; [|reflexivity].
  cbn. rewrite Htext. reflexivity.
Qed.

Section Engine.
Variable regexp_split : string -> string -> outcome (list (option string)).
Variable query : string.
Hypothesis pattern_valid :
  ∀ text, ∃ parts,
    regexp_split (pattern_of (queryTerms_of query)) text = Return (Some <$> parts).

Lemma matching_block_expanded (st : State) (result : Result) (paragraphs : list Paragraph) :
  matching_paragraphs result = Some paragraphs →
  paragraphs_expanded st (paper_id result) = true →
  ∃ block,
    matching_block regexp_split true query st result = Return block
    ∧ length (select_all ParagraphFacts.is_paragraph_hit block) = length paragraphs
    ∧ select_all ParagraphFacts.is_more_button block
      = when (2 <? length paragraphs)%nat [more_button st result paragraphs].
Proof.
  intros Hps Hexpanded. unfold matching_block. rewrite Hps, Hexpanded. cbn [andb].
  destruct (0 <? length paragraphs)%nat eqn:Hlen.
  2:{ exists []. apply Nat.ltb_ge in Hlen.
      replace (2 <? length paragraphs)%nat with false
        by (symmetry; apply Nat.ltb_ge; lia).
      repeat split. cbn. lia. }
  destruct (ParagraphFacts.paragraph_hits_selected regexp_split query pattern_valid
              paragraphs) as (hits & -> & Hn & Hhit & Hbut).
  cbn -[Nat.ltb more_button]. eexists. split; [reflexivity|].
  cbn -[Nat.ltb more_button]. rewrite !app_nil_r.
  repeat match goal with
         | |- context [concat (map (select ?p) ?l)] =>
             change (concat (map (select p) l)) with (select_all p l)
         end.
  rewrite !ParagraphFacts.select_all_app, Hhit, Hbut, length_app, Hn.
  destruct (2 <? length paragraphs)%nat eqn:Hmore.
  - unfold more_button. rewrite Hexpanded. split; [cbn; lia|reflexivity].
  - split; [cbn; lia|reflexivity].
Qed.

Lemma expanded_card (st : State) (result : Result) (paragraphs : list Paragraph) :
  matching_paragraphs result = Some paragraphs →
  expandedId st = Some (paper_id result) →
  paragraphs_expanded st (paper_id result) = true →
  ∃ tree,
    card regexp_split true query st result = Return tree
    ∧ length (select ParagraphFacts.is_paragraph_hit tree) = length paragraphs
    ∧ select ParagraphFacts.is_more_button tree
      = when (2 <? length paragraphs)%nat [more_button st result paragraphs].
Proof.
  intros Hps Hopen Hexpanded.
  unfold card. rewrite bool_decide_eq_true_2 by assumption.
  destruct (ParagraphFacts.abstract_selected regexp_split query pattern_valid
              ParagraphFacts.is_paragraph_hit result) as (ab & Hab & Hab_hit);
    try reflexivity.
  destruct (ParagraphFacts.abstract_selected regexp_split query pattern_valid
              ParagraphFacts.is_more_button result) as (ab' & Hab' & Hab_but);
    try reflexivity.
  rewrite Hab in Hab'. injection Hab' as <-.
  destruct (matching_block_expanded st result paragraphs Hps Hexpanded)
    as (block & Hblock & Hhits & Hbuttons).
  rewrite Hab, Hblock.
  cbn -[formatAuthors formatScore when_num when_str Nat.ltb context_block].
  eexists. split; [reflexivity|].
  cbn -[formatAuthors formatScore when_num when_str Nat.ltb more_button context_block].
  repeat match goal with
         | |- context [concat (map (select ?p) ?l)] =>
             change (concat (map (select p) l)) with (select_all p l)
         end.
  rewrite !(ParagraphFacts.header_line_selected _ result) by reflexivity.
  rewrite !ParagraphFacts.select_all_app.
  rewrite Hab_hit, Hab_but, !(ParagraphFacts.keywords_selected _ result) by reflexivity.
  rewrite !(context_block_without _ st result) by reflexivity.
  cbn -[Nat.ltb more_button]. rewrite !app_nil_r.
  split; [exact Hhits|exact Hbuttons].
Qed.

End Engine.

(** X22.  The matching paragraphs shown in full.  Take, in paragraph mode,
    a result with [m] matching paragraphs whose card is open and whose
    paragraph list is expanded, and a query whose terms make a regular
    expression by which every text splits into pieces of text (none of
    them [undefined]).  The card then has all [m] paragraph entries; when
    [m > 2] it has one button, reading 'Show fewer paragraphs', and a
    click on it collapses the list of this paper again; when [m <= 2] it
    has no button. *)
Theorem expanded_card_shows_all_paragraphs :
  ∀ (regexp_split : string -> string -> outcome (list (option string))) (query : string)
    (st : State) (result : Result) (paragraphs : list Paragraph),
    (∀ text, ∃ parts,
        regexp_split (pattern_of (queryTerms_of query)) text = Return (Some <$> parts)) →
    matching_paragraphs result = Some paragraphs →
    expandedId st = Some (paper_id result) →
    paragraphs_expanded st (paper_id result) = true →
    ∃ tree,
      card regexp_split true query st result = Return tree
      ∧ length (select ParagraphFacts.is_paragraph_hit tree) = length paragraphs
      ∧ ((2 < length paragraphs)%nat →
         ∃ c a ch clicked,
           select ParagraphFacts.is_more_button tree
           = [Element "button" c a (Some clicked) ch]
           ∧ textContent (Element "button" c a (Some clicked) ch) = "Show fewer paragraphs"
           ∧ paragraphs_expanded (perform clicked st) (paper_id result) = false
           ∧ expandedId (perform clicked st) = expandedId st)
      ∧ ((length paragraphs <= 2)%nat → select ParagraphFacts.is_more_button tree = []).
Proof.
  intros regexp_split query st result paragraphs Hvalid Hps Hopen Hexpanded.
  destruct (expanded_card regexp_split query Hvalid st result paragraphs Hps Hopen Hexpanded)
    as (tree & Htree & Hhits & Hbuttons).
  exists tree. split; [exact Htree|]. split; [exact Hhits|]. rewrite Hbuttons. split.
  - intros Hmore. apply Nat.ltb_lt in Hmore. rewrite Hmore.
    unfold more_button. rewrite Hexpanded.
    do 4 eexists. split; [reflexivity|]. split; [reflexivity|]. split; [|reflexivity].
    cbn [perform]. unfold toggleParagraphs, paragraphs_expanded at 1.
    cbn [expandedParagraphs]. rewrite lookup_insert_eq, Hexpanded. reflexivity.
  - intros Hfew. apply Nat.ltb_ge in Hfew. rewrite Hfew. reflexivity.
Qed.

End ExpandedFacts.

Definition demo_state_expanded : ResultList.State :=
  {| ResultList.expandedId := Some "p1";
     ResultList.expandedParagraphs := {["p1" := true]} |}.

Lemma expanded_card_witness :
  ∃ tree,
    ResultList.card no_match true "sparse mixture" demo_state_expanded demo_result
    = JS.Return tree
    ∧ length (Dom.select ParagraphFacts.is_paragraph_hit tree) = 3%nat.
Proof.
  destruct (ExpandedFacts.expanded_card_shows_all_paragraphs no_match "sparse mixture"
              demo_state_expanded demo_result
              [ demo_paragraph 0 "alpha"; demo_paragraph 4 "beta"; demo_paragraph 7 "gamma" ])
    as (tree & Htree & Hhits & _).
  - intros text. exists [text]. reflexivity.
  - reflexivity.
  - reflexivity.
  - reflexivity.
  - exists tree. split; [exact Htree|exact Hhits].
Defined.

(** ** The body of a paragraph search *)

Module SearchBodyFacts.
Import JS Api.

Lemma body_members (base : option string) (fields : list (string * value)) :
  NoDup (map fst fields) →
  ∃ sent : list (string * json_value),
    body <$> search_request base (VObj fields) = Return (Some (BodyJSON (Some (JObj sent))))
    ∧ ∀ k, assoc k sent = assoc k fields ≫= stringify.
Proof.
  intros Hnd. eexists. split; [reflexivity|].
  intros k. apply ApiFacts.assoc_props, Hnd.
Qed.

(** X23.  The paragraph flag is sent twice.  [api.search] takes
    [useParagraphs] out of the request to build the query string, but
    serialises the request it was given, not the rest: for every request
    object (no property name twice), the JSON body has the
    [useParagraphs] property as the caller passed it, and only drops it
    when it is [undefined].  So the request [handleSearch] makes for a
    paragraph search carries the flag in the URL and, as
    [useParagraphs: true], in the body. *)
Theorem search_body_keeps_useParagraphs :
  ∀ (base : option string) (fields : list (string * value)),
    NoDup (map fst fields) →
    ∃ sent : list (string * json_value),
      body <$> search_request base (VObj fields) = Return (Some (BodyJSON (Some (JObj sent))))
      ∧ assoc "useParagraphs" sent = assoc "useParagraphs" fields ≫= stringify
      ∧ (∀ query filters,
           fields = [ ("query", query); ("filters", filters);
                      ("useParagraphs", VBool true) ] →
           url <$> search_request base (VObj fields)
           = Return (API_BASE_URL base +:+ "/search?use_paragraphs=true")
           ∧ assoc "useParagraphs" sent = Some (JBool true)).
Proof.
  intros base fields Hnd.
  destruct (body_members base fields Hnd) as (sent & Hbody & Hall).
  exists sent. split; [exact Hbody|]. split; [apply Hall|].
  intros query filters ->. split; [reflexivity|]. rewrite Hall. reflexivity.
Qed.

End SearchBodyFacts.

Lemma search_body_witness :
  ∃ sent : list (string * JS.json_value),
    Api.body <$> Api.search_request None
                   (JS.VObj [ ("query", JS.VStr "bert"); ("filters", JS.VNull);
                              ("useParagraphs", JS.VBool true) ])
    = JS.Return (Some (Api.BodyJSON (Some (JS.JObj sent))))
    ∧ JS.assoc "useParagraphs" sent = Some (JS.JBool true).
Proof.
  destruct (SearchBodyFacts.search_body_keeps_useParagraphs None
              [ ("query", JS.VStr "bert"); ("filters", JS.VNull);
                ("useParagraphs", JS.VBool true) ]) as (sent & Hbody & _ & Hflag).
  - refine (bool_decide_unpack _ _). vm_compute. exact I.
  - exists sent. split; [exact Hbody|]. exact (proj2 (Hflag _ _ eq_refl)).
Defined.
